(** * fanSpeed.py: BMC fan control script, shallow embedding

    The script logs into a list of BMC hosts over HTTPS and sets the
    fan mode or the per-fan duty.  Everything it does is I/O, so the
    embedding threads an explicit environment:

    - text ([str]) is a [string] of 8-bit characters read as Latin-1
      code points (HTTP header values are decoded that way by the
      HTTP client); text outside Latin-1 is not represented;
    - values that come out of [json.load] / [response.json()] are
      [pyval]s; dictionaries keep their key order (association lists);
    - the network is a script of results, one per HTTP call, consumed
      in call order; an exhausted script behaves as a transport error;
      a result carries the redirects the HTTP client followed on the
      way, and each of them appears in the trace as a request of its
      own;
    - exceptions are values of [exn]; [sys.exit] raises [SystemExit],
      which [except Exception] does not catch;
    - every HTTP call and every logging call appends an [event].  *)

From Stdlib Require Import ZArith List Bool Ascii String Lia.
From Stdlib Require Import Floats.SpecFloat.
Import ListNotations.

Set Warnings "-register-all".

Local Open Scope string_scope.
Local Open Scope list_scope.
Local Open Scope Z_scope.

(** ** Text helpers (the [str] methods the script calls) *)

Module PyStr.

Definition code (c : ascii) : Z := Z.of_nat (nat_of_ascii c).

Definition in_range (lo hi : Z) (c : ascii) : bool :=
  (lo <=? code c) && (code c <=? hi).

(** [str.isspace] on one Latin-1 character: this is the set that
    [str.strip()] removes. *)
Definition isspace (c : ascii) : bool :=
  in_range 9 13 c || in_range 28 32 c || (code c =? 133) || (code c =? 160).

(** White space skipped by [int(str)] around the number. *)
Definition int_space (c : ascii) : bool :=
  in_range 9 13 c || (code c =? 32) || (code c =? 133) || (code c =? 160).

Definition is_empty (s : string) : bool :=
  match s with EmptyString => true | String _ _ => false end.

Fixpoint lstrip_by (sp : ascii -> bool) (s : string) : string :=
  match s with
  | EmptyString => EmptyString
  | String c r => if sp c then lstrip_by sp r else s
  end.

Fixpoint rstrip_by (sp : ascii -> bool) (s : string) : string :=
  match s with
  | EmptyString => EmptyString
  | String c r =>
      let r' := rstrip_by sp r in
      if sp c && is_empty r' then EmptyString else String c r'
  end.

Definition strip_by (sp : ascii -> bool) (s : string) : string :=
  rstrip_by sp (lstrip_by sp s).

(** [s.strip()] *)
Definition strip (s : string) : string := strip_by isspace s.

(** [s.split(sep)] for a one-character separator: never empty. *)
Fixpoint split (sep : ascii) (s : string) : list string :=
  match s with
  | EmptyString => [EmptyString]
  | String c r =>
      if Ascii.eqb c sep then EmptyString :: split sep r
      else match split sep r with
           | [] => [String c EmptyString]
           | p :: ps => String c p :: ps
           end
  end.

(** [s.startswith(p)] *)
Definition startswith (p s : string) : bool := String.prefix p s.

(** [p in s] for two strings. *)
Fixpoint contains (p s : string) : bool :=
  String.prefix p s ||
  match s with
  | EmptyString => false
  | String _ r => contains p r
  end.

Definition lower_char (c : ascii) : ascii :=
  if in_range 65 90 c
     || (in_range 192 222 c && negb (code c =? 215))
  then ascii_of_nat (nat_of_ascii c + 32) else c.

(** [s.lower()] *)
Fixpoint lower (s : string) : string :=
  match s with
  | EmptyString => EmptyString
  | String c r => String (lower_char c) (lower r)
  end.

Definition is_digit (c : ascii) : bool := in_range 48 57 c.

(** Digits of a decimal literal; single underscores are allowed
    between digits only. *)
Fixpoint int_digits (acc : Z) (after_digit : bool) (s : string) : option Z :=
  match s with
  | EmptyString => if after_digit then Some acc else None
  | String c r =>
      if is_digit c then int_digits (10 * acc + (code c - 48)) true r
      else if Ascii.eqb c "_" then
             if after_digit then int_digits acc false r else None
           else None
  end.

(** [int(s)]: [None] stands for [ValueError].  The interpreter's cap on
    the number of digits (Python 3.11 and later, 4300 by default) is not
    modelled: such a literal is read as the number it writes. *)
Definition int (s : string) : option Z :=
  match strip_by int_space s with
  | String "+" r => int_digits 0 false r
  | String "-" r => option_map Z.opp (int_digits 0 false r)
  | t => int_digits 0 false t
  end.

End PyStr.

(** ** Python values, exceptions *)

(** What [json.load] and [response.json()] can return.  A float keeps
    its exact binary value. *)
Inductive pyval : Type :=
| PNone
| PBool (b : bool)
| PInt (n : Z)
| PFloat (f : spec_float)
| PStr (s : string)
| PList (l : list pyval)
| PDict (d : list (string * pyval)).

(** The classes of [Exception] the script can meet. *)
Inductive exc_class : Type :=
| RequestException   (* transport failure inside [requests] *)
| HTTPError          (* [raise_for_status] *)
| JSONDecodeError    (* [response.json()], [json.load] *)
| KeyError
| TypeError
| ValueError
| AttributeError
| OSError.

(** [SystemExit] derives from [BaseException], not from [Exception]. *)
Inductive exn : Type :=
| Exc (e : exc_class)
| SystemExit (code : Z).

Inductive result (A : Type) : Type :=
| Ok (a : A)
| Raise (e : exn).
Arguments Ok {A} a.
Arguments Raise {A} e.

Fixpoint assoc {V : Type} (k : string) (d : list (string * V)) : option V :=
  match d with
  | [] => None
  | (k', v) :: r => if String.eqb k k' then Some v else assoc k r
  end.

(** [d[k] = v] on a dict: replaces in place, or appends a new key. *)
Fixpoint dict_set {V : Type} (k : string) (v : V) (d : list (string * V))
  : list (string * V) :=
  match d with
  | [] => [(k, v)]
  | (k', v') :: r =>
      if String.eqb k k' then (k, v) :: r else (k', v') :: dict_set k v r
  end.

Definition is_dict (v : pyval) : bool :=
  match v with PDict _ => true | _ => false end.

Definition is_str (s : string) (v : pyval) : bool :=
  match v with PStr s' => String.eqb s' s | _ => false end.

(** [v[k]] for a string key [k]. *)
Definition py_getitem (v : pyval) (k : string) : result pyval :=
  match v with
  | PDict d => match assoc k d with
               | Some x => Ok x
               | None => Raise (Exc KeyError)
               end
  | _ => Raise (Exc TypeError)
  end.

(** [k in v] for a string [k]. *)
Definition py_in (k : string) (v : pyval) : result bool :=
  match v with
  | PDict d => Ok (match assoc k d with Some _ => true | None => false end)
  | PList l => Ok (existsb (is_str k) l)
  | PStr s => Ok (PyStr.contains k s)
  | _ => Raise (Exc TypeError)
  end.

(** [v.get(k, default)]: only dicts have the method. *)
Definition py_get (v : pyval) (k : string) (default : pyval) : result pyval :=
  match v with
  | PDict d => Ok (match assoc k d with Some x => x | None => default end)
  | _ => Raise (Exc AttributeError)
  end.

Definition float_eq_int (f : spec_float) (n : Z) : bool :=
  match f with
  | S754_zero _ => n =? 0
  | S754_finite s m e =>
      let sm := if s then Z.neg m else Z.pos m in
      if 0 <=? e then n =? sm * 2 ^ e else n * 2 ^ (- e) =? sm
  | _ => false
  end.

(** [v == n] for an integer [n]. *)
Definition py_eq_int (v : pyval) (n : Z) : bool :=
  match v with
  | PInt m => m =? n
  | PBool b => (if b then 1 else 0) =? n
  | PFloat f => float_eq_int f n
  | _ => false
  end.

(** [range(v)]: the indices, or [TypeError] when [v] is not an integer
    ([bool] is a subclass of [int]). *)
Definition py_range (v : pyval) : result (list Z) :=
  match v with
  | PInt n => Ok (map Z.of_nat (seq 0 (Z.to_nat n)))
  | PBool b => Ok (if b then [0] else [])
  | _ => Raise (Exc TypeError)
  end.

(** What a [for] loop over [v] visits. *)
Definition py_iter (v : pyval) : result (list pyval) :=
  match v with
  | PList l => Ok l
  | PDict d => Ok (map (fun kv => PStr (fst kv)) d)
  | PStr s => Ok (map (fun c => PStr (String c EmptyString)) (list_ascii_of_string s))
  | _ => Raise (Exc TypeError)
  end.

(** ** Calendar ([datetime.date]) *)

Record date : Type := mkDate { year : Z; month : Z; day : Z }.

Definition is_leap (y : Z) : bool :=
  (y mod 4 =? 0) && (negb (y mod 100 =? 0) || (y mod 400 =? 0)).

Definition days_before_year (y : Z) : Z :=
  let y' := y - 1 in y' * 365 + y' / 4 - y' / 100 + y' / 400.

Definition days_before_month (y m : Z) : Z :=
  nth (Z.to_nat m) [0; 0; 31; 59; 90; 120; 151; 181; 212; 243; 273; 304; 334] 0
  + (if (2 <? m) && is_leap y then 1 else 0).

Definition toordinal (d : date) : Z :=
  days_before_year (year d) + days_before_month (year d) (month d) + day d.

(** [date.weekday()]: Monday is 0, Sunday is 6. *)
Definition weekday (d : date) : Z := (toordinal d + 6) mod 7.

(** ** HTTP requests, responses and the event trace *)

Inductive method : Type := GET | POST | PUT.

(** The paths under [https://{host}] that the script formats. *)
Inductive path : Type :=
| ApiRandomTag            (* /api/randomtag *)
| ApiSession              (* /api/session *)
| ApiFansMode             (* /api/settings/fans-mode *)
| ApiFan (i : Z)          (* /api/settings/fan/{i} *)
| ApiFanInfo.             (* /api/status/fan_info *)

(** A form field is sent as given, or through [str()]. *)
Inductive form_value : Type :=
| AsIs (v : pyval)
| StrOf (v : pyval).

Inductive body : Type :=
| NoBody
| FormBody (fields : list (string * form_value))   (* [data=] *)
| JsonBody (v : pyval).                            (* [json=] *)

(** One call on a [requests.Session]: what was passed, plus the
    cookies the session had stored when the call was made. *)
Record request : Type := mkRequest {
  rq_method : method;
  rq_host : pyval;
  rq_path : path;
  rq_headers : list (string * pyval);
  rq_jar : list string;
  rq_body : body
}.

(** A redirect answer that the HTTP client followed by itself: its
    status and its headers ([Location], [Set-Cookie], ...).  The script
    never sees its body. *)
Record redirect : Type := mkRedirect {
  rd_status : Z;
  rd_headers : list (string * string)
}.

(** A response: [resp_headers] are the headers as [response.headers]
    holds them, [resp_json] is what [.json()] returns, [None] when the
    body does not parse, [history] the redirects that led to it
    ([response.history]), oldest first. *)
Record response : Type := mkResponseVia {
  status_code : Z;
  resp_headers : list (string * string);
  resp_json : option pyval;
  history : list redirect
}.

(** A response reached without a redirect. *)
Definition mkResponse (status : Z) (hs : list (string * string))
    (j : option pyval) : response :=
  mkResponseVia status hs j [].

(** The result of one call: a response, or an exception raised inside
    [requests] after it had followed the redirects [via]. *)
Inductive http_result : Type :=
| FailedVia (via : list redirect)
| Reply (r : response).

(** A call that raised without having been redirected. *)
Abbreviation Failed := (FailedVia []).

(** The redirects followed during a call. *)
Definition chain (res : http_result) : list redirect :=
  match res with
  | FailedVia via => via
  | Reply r => history r
  end.

Inductive level : Type := INFO | WARNING | ERROR.

(** One constructor per logging call of the script. *)
Inductive logmsg : Type :=
| MsgConfigLoadFailed (e : exc_class)
| MsgRandomTagFailed (e : exc_class)
| MsgLoginOk
| MsgLoginFailed (e : exc_class)
| MsgFanModeSet (mode : string)
| MsgFanModeFailed (e : exc_class)
| MsgFanSet (i : Z) (duty : pyval)
| MsgFanFailed (i : Z) (e : exc_class)
| MsgFanStatusHeader
| MsgFanStatusItem (fan : pyval)
| MsgNoFanInfo
| MsgFanStatusFailed (e : exc_class)
| MsgSpeedOutOfRange
| MsgNotANumber
| MsgApiHoliday (d : date)
| MsgApiWeekend (d : date)
| MsgApiWorkday (d : date)
| MsgApiFailed (e : exc_class)
| MsgLocalHoliday (d : date)
| MsgLocalWorkday (d : date)
| MsgCheckingHoliday
| MsgAutoByDate
| MsgUseConfigSpeed (target : pyval)
| MsgNoFanSpeed
| MsgRunConfig (i : Z) (total : Z) (description : pyval)
| MsgHostAuto (host : pyval)
| MsgAllFansSet (host : pyval) (n : Z) (fans_count : pyval)
| MsgSomeFansFailed (host : pyval) (n : Z) (fans_count : pyval)
| MsgConfigFailed (i : Z) (e : exc_class)
| MsgAllDone
| MsgProgramError (e : exc_class).

(** A request that [requests] sends by itself when it follows a
    redirect: to the [Location] of the redirect answer, with the
    headers it kept and the cookies stored by then. *)
Record hop : Type := mkHop {
  hop_method : method;
  hop_location : option string;
  hop_headers : list (string * pyval);
  hop_jar : list string;
  hop_body : body
}.

Inductive event : Type :=
| EHoliday (d : date) (res : http_result)   (* the holiday API query *)
| ERequest (rq : request) (res : http_result)
| EHop (h : hop)                            (* a redirect being followed *)
| ELog (lvl : level) (m : logmsg).

(** Case-insensitive header lookup ([response.headers[name]]). *)
Fixpoint header_get (name : string) (hs : list (string * string)) : option string :=
  match hs with
  | [] => None
  | (k, v) :: r =>
      if String.eqb (PyStr.lower k) (PyStr.lower name) then Some v
      else header_get name r
  end.

(** [headers.pop(name, None)] on the case-insensitive header dict of a
    prepared request. *)
Definition header_pop {V : Type} (name : string) (hs : list (string * V))
  : list (string * V) :=
  filter (fun kv => negb (String.eqb (PyStr.lower (fst kv)) (PyStr.lower name))) hs.

(** The [Set-Cookie] value of a set of response headers, if any. *)
Definition cookies_of (hs : list (string * string)) : list string :=
  match header_get "Set-Cookie" hs with
  | Some sc => [sc]
  | None => []
  end.

(** [SessionRedirectMixin.rebuild_method] *)
Definition rebuild_method (status : Z) (m : method) : method :=
  if (status =? 303) || (status =? 302) then GET
  else if status =? 301 then match m with POST => GET | _ => m end
  else m.

(** [SessionRedirectMixin.resolve_redirects]: the requests sent for the
    redirects [via], starting from a request with method [m], headers
    [hs] and body [b] on a session that holds the cookies [jar].  Unless
    the redirect is a 307 or a 308 the body and its headers are dropped;
    the [Cookie] header is always dropped and rebuilt from the cookie
    store; every other header the script sets, [X-Csrftoken] among
    them, is sent on, whatever host the [Location] names (only an
    [Authorization] header, which the script never sets, would be
    dropped on a change of host).  [hop_jar] is the cookie store at that
    point, as [rq_jar] is for a call. *)
Fixpoint resolve_redirects (m : method) (hs : list (string * pyval))
    (jar : list string) (b : body) (via : list redirect) : list event :=
  match via with
  | [] => []
  | rd :: rest =>
      let keep := (rd_status rd =? 307) || (rd_status rd =? 308) in
      let m' := rebuild_method (rd_status rd) m in
      let hs' :=
        header_pop "Cookie"
          (if keep then hs
           else header_pop "Transfer-Encoding"
                  (header_pop "Content-Type" (header_pop "Content-Length" hs))) in
      let jar' := jar ++ cookies_of (rd_headers rd) in
      let b' := if keep then b else NoBody in
      EHop (mkHop m' (header_get "Location" (rd_headers rd)) hs' jar' b')
      :: resolve_redirects m' hs' jar' b' rest
  end.

(** ** The effect monad: state [St], network script, exceptions, trace *)

Definition M (St A : Type) : Type :=
  St -> list http_result -> result A * St * list http_result * list event.

Definition ret {St A : Type} (a : A) : M St A :=
  fun s net => (Ok a, s, net, []).

Definition raise {St A : Type} (e : exn) : M St A :=
  fun s net => (Raise e, s, net, []).

Definition bind {St A B : Type} (m : M St A) (k : A -> M St B) : M St B :=
  fun s net =>
    match m s net with
    | (Ok a, s1, net1, t1) =>
        match k a s1 net1 with
        | (r, s2, net2, t2) => (r, s2, net2, t1 ++ t2)
        end
    | (Raise e, s1, net1, t1) => (Raise e, s1, net1, t1)
    end.

Declare Scope py_scope.
Delimit Scope py_scope with py.
Notation "x <- m ;; k" := (bind m (fun x => k))
  (at level 61, m at next level, right associativity) : py_scope.
Notation "m ;; k" := (bind m (fun _ => k))
  (at level 61, right associativity) : py_scope.
Local Open Scope py_scope.

(** A pure step that may raise. *)
Definition lift {St A : Type} (r : result A) : M St A :=
  fun s net => (r, s, net, []).

Definition log {St : Type} (lvl : level) (m : logmsg) : M St unit :=
  fun s net => (Ok tt, s, net, [ELog lvl m]).

(** [try: m  except Exception as e: h e] *)
Definition try_except {St A : Type} (m : M St A) (h : exc_class -> M St A) : M St A :=
  fun s net =>
    match m s net with
    | (Raise (Exc e), s1, net1, t1) =>
        match h e s1 net1 with
        | (r, s2, net2, t2) => (r, s2, net2, t1 ++ t2)
        end
    | o => o
    end.

Definition get_self {St : Type} : M St St :=
  fun s net => (Ok s, s, net, []).

Definition modify {St : Type} (f : St -> St) : M St unit :=
  fun s net => (Ok tt, f s, net, []).

(** Runs a method body on the object [c]; the caller's own state is
    untouched and the object is dropped afterwards. *)
Definition on_object {St C A : Type} (c : C) (m : M C A) : M St A :=
  fun s net =>
    match m c net with
    | (r, _, net1, t1) => (r, s, net1, t1)
    end.

(** [response.raise_for_status()] *)
Definition raise_for_status {St : Type} (r : response) : M St unit :=
  if (400 <=? status_code r) && (status_code r <? 600)
  then raise (Exc HTTPError) else ret tt.

(** [response.json()] *)
Definition response_json {St : Type} (r : response) : M St pyval :=
  match resp_json r with
  | Some v => ret v
  | None => raise (Exc JSONDecodeError)
  end.

(** ** class FanController *)

(** The instance attributes.  [session] is the cookie store of the
    object's own [requests.Session]: the [Set-Cookie] values received
    on it so far. *)
Record FanController : Type := mkFanController {
  host : pyval;
  username : pyval;
  password : pyval;
  fans_count : pyval;
  session : list string;
  headers : list (string * pyval)
}.

Definition user_agent : string :=
  "Mozilla/5.0 (Windows NT 10.0; Win64; x64) AppleWebKit/537.36 (KHTML, like Gecko) Chrome/108.0.0.0 Safari/537.36 Edg/117.0.2045.60".

Definition initial_headers : list (string * pyval) :=
  [("content-type", PStr "application/json"); ("User-Agent", PStr user_agent)].

(** [FanController.__init__] *)
Definition new_FanController {St : Type} (config : pyval) : M St FanController :=
  h <- lift (py_getitem config "bmc_host") ;;
  u <- lift (py_getitem config "username") ;;
  p <- lift (py_getitem config "password") ;;
  n <- lift (py_getitem config "fans_count") ;;
  ret (mkFanController h u p n [] initial_headers).

(** The session keeps the [Set-Cookie] of the headers [hs]. *)
Definition store_cookie (hs : list (string * string)) (self : FanController)
  : FanController :=
  match header_get "Set-Cookie" hs with
  | Some sc =>
      mkFanController (host self) (username self) (password self)
        (fans_count self) (session self ++ [sc]) (headers self)
  | None => self
  end.

(** The cookies of the redirects followed during a call. *)
Definition store_history (via : list redirect) (self : FanController)
  : FanController :=
  fold_left (fun s rd => store_cookie (rd_headers rd) s) via self.

Definition store_cookies (r : response) (self : FanController) : FanController :=
  store_cookie (resp_headers r) (store_history (history r) self).

(** [self.session.get/post/put(url, headers=self.headers, ...)]: takes
    the next result of the network script.  [allow_redirects] is left
    at its default, so the redirects of the result are followed. *)
Definition session_request (m : method) (p : path) (b : body)
  : M FanController response :=
  fun self net =>
    let rq := mkRequest m (host self) p (headers self) (session self) b in
    let hops := resolve_redirects m (headers self) (session self) b in
    match net with
    | Reply r :: net' =>
        (Ok r, store_cookies r self, net',
         ERequest rq (Reply r) :: hops (history r))
    | FailedVia via :: net' =>
        (Raise (Exc RequestException), store_history via self, net',
         ERequest rq (FailedVia via) :: hops via)
    | [] =>
        (Raise (Exc RequestException), self, [], [ERequest rq Failed])
    end.

(** [self.headers[k] = v] *)
Definition set_header (k : string) (v : pyval) : M FanController unit :=
  modify (fun self =>
    mkFanController (host self) (username self) (password self)
      (fans_count self) (session self) (dict_set k v (headers self))).

Definition get_random : M FanController pyval :=
  try_except
    (res <- session_request GET ApiRandomTag NoBody ;;
     raise_for_status res ;;
     j <- response_json res ;;
     lift (py_getitem j "random"))
    (fun e => log ERROR (MsgRandomTagFailed e) ;; raise (Exc e)).

(** The [for cookie in cookies] loop of [login]: the value of
    [session_id] when the loop ends ([None] when nothing matched). *)
Fixpoint scan_cookies (cookies : list string) : option string :=
  match cookies with
  | [] => None
  | cookie :: rest =>
      let cookie := PyStr.strip cookie in
      if PyStr.startswith "SESSION=" cookie || PyStr.startswith "QSESSIONID=" cookie
      then Some (nth 1 (PyStr.split "=" cookie) "")
      else scan_cookies rest
  end.

Definition session_cookie (session_id : string) : string :=
  "lang=zh-cn;QSESSIONID=" ++ session_id ++ "; refresh_disable=1".

Definition login : M FanController unit :=
  try_except
    (random_string <- get_random ;;
     set_header "content-type"
       (PStr "application/x-www-form-urlencoded; charset=UTF-8") ;;
     self <- get_self ;;
     let data := [("encrypt_flag", AsIs (PInt 0));
                  ("username", AsIs (username self));
                  ("password", AsIs (password self));
                  ("login_tag", StrOf random_string)] in
     response <- session_request POST ApiSession (FormBody data) ;;
     raise_for_status response ;;
     match header_get "Set-Cookie" (resp_headers response) with
     | None => raise (Exc ValueError)
     | Some set_cookie =>
         match scan_cookies (PyStr.split ";" set_cookie) with
         | None => raise (Exc ValueError)
         | Some session_id =>
             if PyStr.is_empty session_id then raise (Exc ValueError)
             else
               response_json <- response_json response ;;
               has_token <- lift (py_in "CSRFToken" response_json) ;;
               if negb has_token then raise (Exc ValueError)
               else
                 token <- lift (py_getitem response_json "CSRFToken") ;;
                 set_header "X-Csrftoken" token ;;
                 set_header "Cookie" (PStr (session_cookie session_id)) ;;
                 set_header "content-type" (PStr "application/json") ;;
                 log INFO MsgLoginOk
         end
     end)
    (fun e => log ERROR (MsgLoginFailed e) ;; raise (Exc e)).

Definition set_fan_mode (mode : string) : M FanController unit :=
  try_except
    (response <- session_request PUT ApiFansMode
                   (JsonBody (PDict [("control_mode", PStr mode)])) ;;
     raise_for_status response ;;
     log INFO (MsgFanModeSet mode))
    (fun e => log ERROR (MsgFanModeFailed e) ;; raise (Exc e)).

(** One turn of the loop of [set_fan_speed]: the [try] block for fan
    [i]; returns the new value of [success_count]. *)
Definition set_one_fan (speed : pyval) (i : Z) (success_count : Z)
  : M FanController Z :=
  try_except
    (response <- session_request PUT (ApiFan i)
                   (JsonBody (PDict [("duty", speed)])) ;;
     raise_for_status response ;;
     response_data <- response_json response ;;
     duty <- lift (py_getitem response_data "duty") ;;
     log INFO (MsgFanSet i duty) ;;
     ret (success_count + 1))
    (fun e => log ERROR (MsgFanFailed i e) ;; ret success_count).

Fixpoint fan_loop (speed : pyval) (indices : list Z) (success_count : Z)
  : M FanController Z :=
  match indices with
  | [] => ret success_count
  | i :: rest =>
      n <- set_one_fan speed i success_count ;;
      fan_loop speed rest n
  end.

Definition set_fan_speed (speed : pyval) : M FanController Z :=
  self <- get_self ;;
  indices <- lift (py_range (fans_count self)) ;;
  fan_loop speed indices 0.

Fixpoint log_fans {St : Type} (fans : list pyval) : M St unit :=
  match fans with
  | [] => ret tt
  | fan :: rest => log INFO (MsgFanStatusItem fan) ;; log_fans rest
  end.

Definition get_fan_status : M FanController unit :=
  try_except
    (response <- session_request GET ApiFanInfo NoBody ;;
     raise_for_status response ;;
     fan_info <- response_json response ;;
     has_fans <- lift (py_in "fans" fan_info) ;;
     if has_fans then
       log INFO MsgFanStatusHeader ;;
       fans <- lift (py_getitem fan_info "fans") ;;
       items <- lift (py_iter fans) ;;
       log_fans items
     else log WARNING MsgNoFanInfo)
    (fun e => log ERROR (MsgFanStatusFailed e) ;; raise (Exc e)).

(** ** Module-level functions *)

(** What the script finds at [fanSpeed.json]: no file, a path that
    cannot be examined ([Path.exists()] passes on every [OSError] that
    does not mean absence: a name that is too long, a directory that
    may not be searched, ...), a file whose opening or [json.load]
    raises, or a file that parses. *)
Inductive file_state : Type :=
| NoFile
| StatError
| ReadError (e : exc_class)
| Parsed (v : pyval).

(** [config_path.exists()] *)
Definition path_exists {St : Type} (f : file_state) : M St bool :=
  match f with
  | NoFile => ret false
  | StatError => raise (Exc OSError)
  | ReadError _ | Parsed _ => ret true
  end.

(** [open(...)] followed by [json.load(f)] *)
Definition read_json {St : Type} (f : file_state) : M St pyval :=
  match f with
  | Parsed v => ret v
  | ReadError e => raise (Exc e)
  | NoFile | StatError => raise (Exc OSError)
  end.

(** The test of [exists()] is made before the [try]. *)
Definition load_config {St : Type} (f : file_state) : M St (list pyval) :=
  found <- path_exists f ;;
  if found then
    try_except
      (config_data <- read_json f ;;
       match config_data with
       | PList l => ret l
       | _ => ret [config_data]
       end)
      (fun e => log ERROR (MsgConfigLoadFailed e) ;; ret [])
  else ret [].

(** [sys.argv] is the whole vector, program name first.  The result is
    [PNone], [PStr "auto"] or [PInt speed]. *)
Definition get_fan_speed_input {St : Type} (argv : list string) : M St pyval :=
  match argv with
  | _ :: arg :: _ =>
      if String.eqb (PyStr.lower arg) "auto" then ret (PStr "auto")
      else
        match PyStr.int arg with
        | Some speed =>
            if (0 <=? speed) && (speed <=? 100) then ret (PInt speed)
            else log ERROR MsgSpeedOutOfRange ;; raise (SystemExit 1)
        | None => log ERROR MsgNotANumber ;; raise (SystemExit 1)
        end
  | _ => ret PNone
  end.

(** [now] is the date part of [datetime.now()]. *)
Definition is_weekend (now : date) : bool := 5 <=? weekday now.

Definition holidays : list (Z * Z) :=
  [(1, 1); (1, 2); (1, 3); (4, 4); (4, 5); (5, 1); (5, 2); (5, 3);
   (10, 1); (10, 2); (10, 3); (10, 4); (10, 5)].

(** [requests.get] on the holiday API: a session of its own, with no
    header of the script and an empty cookie store. *)
Definition holiday_query {St : Type} (today : date) : M St response :=
  fun s net =>
    let hops := resolve_redirects GET [] [] NoBody in
    match net with
    | Reply r :: net' =>
        (Ok r, s, net', EHoliday today (Reply r) :: hops (history r))
    | FailedVia via :: net' =>
        (Raise (Exc RequestException), s, net',
         EHoliday today (FailedVia via) :: hops via)
    | [] => (Raise (Exc RequestException), s, [], [EHoliday today Failed])
    end.

(** [today] is [date.today()].  [data.get('type')] is read once here:
    the script reads it up to three times from the same dict. *)
Definition is_chinese_holiday {St : Type} (today : date) : M St bool :=
  try_except
    (response <- holiday_query today ;;
     raise_for_status response ;;
     data <- response_json response ;;
     status <- lift (py_get data "status" PNone) ;;
     if py_eq_int status 1 then
       type <- lift (py_get data "type" PNone) ;;
       if py_eq_int type 2 then log INFO (MsgApiHoliday today) ;; ret true
       else if py_eq_int type 1 then log INFO (MsgApiWeekend today) ;; ret true
       else log INFO (MsgApiWorkday today) ;; ret false
     else log INFO (MsgApiWorkday today) ;; ret false)
    (fun e =>
       log WARNING (MsgApiFailed e) ;;
       let is_holiday :=
         existsb (fun md => (fst md =? month today) && (snd md =? day today))
                 holidays in
       (if is_holiday then log INFO (MsgLocalHoliday today)
        else log INFO (MsgLocalWorkday today)) ;;
       ret is_holiday).

(** ** main *)

(** What the process reads from its surroundings besides the network. *)
Record environment : Type := mkEnv {
  argv : list string;           (* sys.argv *)
  today : date;                 (* date.today() in is_chinese_holiday *)
  now : date;                   (* datetime.now() in is_weekend *)
  config_file : file_state      (* fanSpeed.json *)
}.

(** Lines 243-260: the target, from the command line, the calendar or
    the first configuration. *)
Definition resolve_target {St : Type} (env : environment)
    (configs : list pyval) (is_holiday : bool) : M St pyval :=
  target <- get_fan_speed_input (argv env) ;;
  match target with
  | PNone =>
      if is_weekend (now env) || is_holiday then
        log INFO MsgAutoByDate ;; ret (PStr "auto")
      else
        has_speed <- match configs with
                     | [] => ret false
                     | first :: _ => lift (py_in "fan_speed" first)
                     end ;;
        if has_speed then
          target <- lift (py_getitem (hd PNone configs) "fan_speed") ;;
          log INFO (MsgUseConfigSpeed target) ;;
          ret target
        else log ERROR MsgNoFanSpeed ;; raise (SystemExit 1)
  | _ => ret target
  end.

(** The text used when a configuration has no [description]; the
    script's own default is a Chinese phrase. *)
Definition default_description : pyval := PStr "(unnamed server)".

(** Lines 268-295: the [try] block of one configuration. *)
Definition process_host {St : Type} (target config : pyval) : M St unit :=
  controller <- new_FanController config ;;
  on_object controller
    (login ;;
     (if is_str "auto" target then
        set_fan_mode "auto" ;;
        h <- lift (py_getitem config "bmc_host") ;;
        log INFO (MsgHostAuto h)
      else
        has_speed <- lift (py_in "fan_speed" config) ;;
        current_speed <- (if has_speed then lift (py_getitem config "fan_speed")
                          else ret target) ;;
        set_fan_mode "manual" ;;
        success_count <- set_fan_speed current_speed ;;
        n <- lift (py_getitem config "fans_count") ;;
        h <- lift (py_getitem config "bmc_host") ;;
        if py_eq_int n success_count
        then log INFO (MsgAllFansSet h success_count n)
        else log WARNING (MsgSomeFansFailed h success_count n)) ;;
     get_fan_status).

(** One turn of [for i, config in enumerate(configs)]. *)
Definition run_config {St : Type} (target : pyval) (total i : Z) (config : pyval)
  : M St unit :=
  description <- lift (py_get config "description" default_description) ;;
  log INFO (MsgRunConfig (i + 1) total description) ;;
  try_except (process_host target config)
             (fun e => log ERROR (MsgConfigFailed (i + 1) e)).

Fixpoint run_configs {St : Type} (target : pyval) (total i : Z)
    (configs : list pyval) : M St unit :=
  match configs with
  | [] => ret tt
  | config :: rest =>
      run_config target total i config ;;
      run_configs target total (i + 1) rest
  end.

Definition main (env : environment) : M unit unit :=
  try_except
    (log INFO MsgCheckingHoliday ;;
     is_holiday <- is_chinese_holiday (today env) ;;
     configs <- load_config (config_file env) ;;
     target <- resolve_target env configs is_holiday ;;
     run_configs target (Z.of_nat (List.length configs)) 0 configs ;;
     log INFO MsgAllDone)
    (fun e => log ERROR (MsgProgramError e) ;; raise (SystemExit 1)).

(** The configurations a run works on. *)
Definition configs_of (env : environment) : list pyval :=
  match load_config (config_file env) tt [] with
  | (Ok configs, _, _, _) => configs
  | _ => []
  end.

(** The process: exit status and trace.  An exception that reached the
    top would end the process with status 1. *)
Definition run_script (env : environment) (net : list http_result)
  : Z * list event :=
  match main env tt net with
  | (Ok _, _, _, t) => (0, t)
  | (Raise (SystemExit code), _, _, t) => (code, t)
  | (Raise (Exc _), _, _, t) => (1, t)
  end.

(** ** Observations on traces *)

(** The session calls of a trace, in order, each with its result. *)
Fixpoint calls (t : list event) : list (request * http_result) :=
  match t with
  | [] => []
  | ERequest rq res :: r => (rq, res) :: calls r
  | _ :: r => calls r
  end.

(** What the [try] block of [set_fan_speed] needs from the result of
    its PUT to reach [success_count += 1]. *)
Definition put_succeeds (res : http_result) : bool :=
  match res with
  | FailedVia _ => false
  | Reply r =>
      negb ((400 <=? status_code r) && (status_code r <? 600)) &&
      match resp_json r with
      | Some (PDict d) => match assoc "duty" d with Some _ => true | None => false end
      | _ => false
      end
  end.

Definition fan_put (speed : pyval) (i : Z) : method * path * body :=
  (PUT, ApiFan i, JsonBody (PDict [("duty", speed)])).

Definition call_shape (c : request * http_result) : method * path * body :=
  (rq_method (fst c), rq_path (fst c), rq_body (fst c)).

(** Projections of a run. *)
Definition outcome {St A : Type}
    (x : result A * St * list http_result * list event) : result A :=
  fst (fst (fst x)).

Definition trace_of {St A : Type}
    (x : result A * St * list http_result * list event) : list event :=
  snd x.

(** ** Sample data *)

Definition demo_config (h : string) (n : Z) : pyval :=
  PDict [("bmc_host", PStr h); ("username", PStr "admin");
         ("password", PStr "secret"); ("fans_count", PInt n)].

Definition demo_controller (n : Z) : FanController :=
  mkFanController (PStr "10.0.0.1") (PStr "admin") (PStr "secret") (PInt n)
    [] initial_headers.

Definition reply_json (status : Z) (v : pyval) : http_result :=
  Reply (mkResponse status [] (Some v)).

Definition duty_echo (status duty : Z) : http_result :=
  reply_json status (PDict [("duty", PInt duty)]).

Definition login_reply (set_cookie token : string) : http_result :=
  Reply (mkResponse 200 [("Set-Cookie", set_cookie)]
           (Some (PDict [("CSRFToken", PStr token)]))).

Definition random_reply : http_result :=
  reply_json 200 (PDict [("random", PStr "r4nd0m")]).

Definition demo_config_speed (h : string) (n speed : Z) : pyval :=
  PDict [("bmc_host", PStr h); ("username", PStr "admin");
         ("password", PStr "secret"); ("fans_count", PInt n);
         ("fan_speed", PInt speed)].

(** An answer of the holiday API for a working day. *)
Definition workday_reply : http_result :=
  reply_json 200 (PDict [("status", PInt 1); ("type", PInt 0)]).

(** A Wednesday. *)
Definition a_wednesday : date := mkDate 2026 11 4.

(** ** Reading a cookie header (vocabulary for the properties) *)

(** The part of [s] before its first ['=']; all of [s] when it has none. *)
Fixpoint before_eq (s : string) : string :=
  match s with
  | EmptyString => EmptyString
  | String c r => if Ascii.eqb c "=" then EmptyString else String c (before_eq r)
  end.

(** The test of the [if] in the cookie loop of [login]. *)
Definition is_session_cookie (cookie : string) : bool :=
  PyStr.startswith "SESSION=" cookie || PyStr.startswith "QSESSIONID=" cookie.

(** The duty of a per-fan PUT of [set_fan_speed]. *)
Definition sent_duty (c : request * http_result) : option pyval :=
  match rq_method (fst c), rq_path (fst c), rq_body (fst c) with
  | PUT, ApiFan _, JsonBody (PDict [(k, v)]) =>
      if String.eqb k "duty" then Some v else None
  | _, _, _ => None
  end.

(** The duties sent in a trace, in order. *)
Definition fan_duties (t : list event) : list pyval :=
  flat_map (fun c => match sent_duty c with Some v => [v] | None => [] end)
           (calls t).

Definition fans_reply : http_result :=
  reply_json 200 (PDict [("fans", PList [])]).

(** ** Vocabulary for the host loop *)

Definition net_of {St A : Type}
    (x : result A * St * list http_result * list event) : list http_result :=
  snd (fst x).

(** A result that is not [SystemExit]: a value, or an [Exception]. *)
Definition no_exit {A : Type} (r : result A) : Prop :=
  match r with
  | Raise (SystemExit _) => False
  | _ => True
  end.

(** A computation that cannot end the process. *)
Definition never_exits {St A : Type} (m : M St A) : Prop :=
  forall s net, no_exit (outcome (m s net)).

(** What one host contributes to the log and the network when its
    configuration is tried on its own from the network state [net]:
    the banner, everything [process_host] did, and the failure line
    when it raised. *)
Definition host_trace (target : pyval) (total i : Z) (config : pyval)
    (net : list http_result) : list event :=
  ELog INFO (MsgRunConfig (i + 1) total
               (match config with
                | PDict d => match assoc "description" d with
                             | Some x => x
                             | None => default_description
                             end
                | _ => default_description
                end))
  :: trace_of (process_host target config tt net)
  ++ match outcome (process_host target config tt net) with
     | Raise (Exc e) => [ELog ERROR (MsgConfigFailed (i + 1) e)]
     | _ => []
     end.

(** Every host in turn, each from the network state the previous one
    left, whether the previous ones failed or not. *)
Fixpoint all_hosts (target : pyval) (total i : Z) (configs : list pyval)
    (net : list http_result) : list event :=
  match configs with
  | [] => []
  | config :: rest =>
      host_trace target total i config net
      ++ all_hosts target total (i + 1) rest
           (net_of (process_host target config tt net))
  end.

Fixpoint net_after_hosts (target : pyval) (configs : list pyval)
    (net : list http_result) : list http_result :=
  match configs with
  | [] => net
  | config :: rest =>
      net_after_hosts target rest (net_of (process_host target config tt net))
  end.

(** Two hosts; the network fails on the first call to the first one and
    answers the second one well. *)
Definition two_hosts : list pyval :=
  [demo_config "10.0.0.1" 1; demo_config "10.0.0.2" 1].

Definition two_hosts_env : environment :=
  mkEnv ["fanSpeed.py"; "55"] a_wednesday a_wednesday (Parsed (PList two_hosts)).

Definition first_host_down : list http_result :=
  [workday_reply; Failed; random_reply; login_reply "QSESSIONID=abc" "tok";
   reply_json 200 PNone; duty_echo 200 55; fans_reply].

(** ** Vocabulary for session isolation *)

(** A redirect answer, as one of the responses received. *)
Definition as_response (rd : redirect) : response :=
  mkResponseVia (rd_status rd) (rd_headers rd) None [].

(** Everything a call received: the redirect answers it followed, then
    its final response. *)
Definition replies_of (res : http_result) : list response :=
  map as_response (chain res)
  ++ match res with
     | Reply r => [r]
     | FailedVia _ => []
     end.

(** The session artifacts in a cookie store [jar] and a header dict
    [hs] all come out of the replies [seen]: every stored cookie is the
    [Set-Cookie] of one of them, an [X-Csrftoken] header is the
    [CSRFToken] of the JSON body of one of them, and a [Cookie] header is
    the one [login] builds from the session id read in the [Set-Cookie]
    of one of them. *)
Definition artifacts_from (seen : list response)
    (jar : list string) (hs : list (string * pyval)) : Prop :=
  (forall c, In c jar ->
     exists r, In r seen /\ header_get "Set-Cookie" (resp_headers r) = Some c)
  /\ (forall v, assoc "X-Csrftoken" hs = Some v ->
        exists r j, In r seen /\ resp_json r = Some j
                    /\ py_getitem j "CSRFToken" = Ok v)
  /\ (forall v, assoc "Cookie" hs = Some v ->
        exists r sc sid,
          In r seen /\ header_get "Set-Cookie" (resp_headers r) = Some sc
          /\ scan_cookies (PyStr.split ";" sc) = Some sid
          /\ v = PStr (session_cookie sid)).

Definition controller_from (seen : list response) (c : FanController) : Prop :=
  artifacts_from seen (session c) (headers c).

(** The host a configuration names, if it names one. *)
Definition config_host (config : pyval) : option pyval :=
  match py_getitem config "bmc_host" with
  | Ok h => Some h
  | Raise _ => None
  end.

(** The host of the configuration that the banner numbered [i]
    announces (banners count from 1). *)
Definition turn_host (configs : list pyval) (i : Z) : option pyval :=
  if i <=? 0 then None
  else match nth_error configs (Z.to_nat (i - 1)) with
       | Some config => config_host config
       | None => None
       end.

(** Where a run stands: the host of the configuration whose turn it is
    ([None] before the first banner, and for a configuration without a
    [bmc_host]), and the replies received since the banner of that turn
    (the banner is logged at the top of each turn of the host loop). *)
Record turn : Type := mkTurn {
  addressee : option pyval;
  received : list response
}.

(** A banner opens the turn of its configuration; what a call, or the
    holiday query, received (redirect answers included) counts from the
    call on. *)
Definition turn_after (configs : list pyval) (tu : turn) (e : event) : turn :=
  match e with
  | ELog _ (MsgRunConfig i _ _) => mkTurn (turn_host configs i) []
  | ERequest _ res => mkTurn (addressee tu) (received tu ++ replies_of res)
  | EHoliday _ res => mkTurn (addressee tu) (received tu ++ replies_of res)
  | _ => tu
  end.

(** A call of the script must be addressed to the host of the current
    turn and carry only what the replies of this turn gave; a request
    sent for a redirect goes where the redirect points, and must carry
    only what the replies of this turn gave. *)
Definition allowed (tu : turn) (e : event) : Prop :=
  match e with
  | ERequest rq _ =>
      addressee tu = Some (rq_host rq)
      /\ artifacts_from (received tu) (rq_jar rq) (rq_headers rq)
  | EHop h => artifacts_from (received tu) (hop_jar h) (hop_headers h)
  | _ => True
  end.

(** The monitor over the trace of a run. *)
Fixpoint isolated_from (configs : list pyval) (tu : turn) (t : list event)
  : Prop :=
  match t with
  | [] => True
  | e :: rest => allowed tu e /\ isolated_from configs (turn_after configs tu e) rest
  end.

Definition turns_after (configs : list pyval) (tu : turn) (t : list event)
  : turn :=
  fold_left (turn_after configs) t tu.

Definition sessions_isolated (configs : list pyval) (t : list event) : Prop :=
  isolated_from configs (mkTurn None []) t.

(** [m], started at [tu], keeps the monitor satisfied and ends in a
    result, a turn and a state that satisfy [Q]. *)
Definition wp {St A : Type} (configs : list pyval) (m : M St A)
    (Q : result A -> turn -> St -> Prop)
    (tu : turn) (s : St) (net : list http_result) : Prop :=
  match m s net with
  | (r, s', _, t) =>
      isolated_from configs tu t /\ Q r (turns_after configs tu t) s'
  end.

(** The turn is that of the object's host, and the object holds only
    what the replies of this turn gave. *)
Definition in_turn (tu : turn) (c : FanController) : Prop :=
  addressee tu = Some (host c) /\ controller_from (received tu) c.

(** The postcondition of every method. *)
Definition keeps {A : Type} (_ : result A) (tu : turn) (c : FanController)
  : Prop :=
  in_turn tu c.

(** The postcondition of the code outside the class: it holds no
    session state. *)
Definition anything {St A : Type} (_ : result A) (_ : turn) (_ : St)
  : Prop := True.

(** The requests sent for redirects, in order. *)
Fixpoint hops (t : list event) : list hop :=
  match t with
  | [] => []
  | EHop h :: r => h :: hops r
  | _ :: r => hops r
  end.

(** The first host answers the PUT of the fan mode with a 307 that
    points at the second one. *)
Definition moved_to (location : string) : redirect :=
  mkRedirect 307 [("Location", location)].

Definition first_host_redirects : list http_result :=
  [workday_reply; random_reply; login_reply "QSESSIONID=abc" "token-of-10.0.0.1";
   Reply (mkResponseVia 200 [] (Some PNone)
            [moved_to "https://10.0.0.2/api/settings/fans-mode"])].

(** ** Vocabulary for the further properties *)

(** The log lines of a trace, in order. *)
Fixpoint logs (t : list event) : list (level * logmsg) :=
  match t with
  | [] => []
  | ELog lvl m :: r => (lvl, m) :: logs r
  | _ :: r => logs r
  end.

Definition state_of {St A : Type}
    (x : result A * St * list http_result * list event) : St :=
  snd (fst (fst x)).

(** The JSON object the holiday API answered with, when the first
    network result is a response that is not 4xx/5xx and whose body
    is a JSON object; [None] in every other case. *)
Definition holiday_api_answer (net : list http_result)
  : option (list (string * pyval)) :=
  match net with
  | Reply r :: _ =>
      if (400 <=? status_code r) && (status_code r <? 600) then None
      else match resp_json r with
           | Some (PDict j) => Some j
           | _ => None
           end
  | _ => None
  end.

(** [j.get(k)] on a dict. *)
Definition field (k : string) (j : list (string * pyval)) : pyval :=
  match assoc k j with Some x => x | None => PNone end.

(** A result that, when it is [SystemExit], carries status 1. *)
Definition exit_code_1 {A : Type} (r : result A) : Prop :=
  match r with
  | Raise (SystemExit code) => code = 1
  | _ => True
  end.

(** Every event of [m] satisfies [P], and [m] keeps [I] on its state. *)
Definition always {St A : Type} (P : event -> Prop) (I : St -> Prop)
    (m : M St A) : Prop :=
  forall s net,
    I s -> Forall P (trace_of (m s net)) /\ I (state_of (m s net)).

(** Headers that carry a session: the token and the cookie. *)
Definition has_session (hs : list (string * pyval)) : Prop :=
  assoc "X-Csrftoken" hs <> None /\ assoc "Cookie" hs <> None.

(** The paths of the calls that act on the fans or read their state. *)
Definition is_operation (p : path) : bool :=
  match p with
  | ApiFansMode | ApiFan _ | ApiFanInfo => true
  | _ => false
  end.

Definition operation_in_session (e : event) : Prop :=
  match e with
  | ERequest rq _ =>
      is_operation (rq_path rq) = true /\ has_session (rq_headers rq)
  | _ => True
  end.

(** The calls of one host's turn follow the handshake: first the GET
    of the random tag; then, only if it was answered, the POST of the
    credentials; then, only if that was answered too, operations, each
    carrying the session headers. *)
Definition handshake_first (cs : list (request * http_result)) : Prop :=
  match cs with
  | [] => True
  | (q1, res1) :: cs1 =>
      (rq_method q1, rq_path q1) = (GET, ApiRandomTag)
      /\ match cs1 with
         | [] => True
         | (q2, res2) :: cs2 =>
             (rq_method q2, rq_path q2) = (POST, ApiSession)
             /\ (exists r1, res1 = Reply r1)
             /\ (cs2 = []
                 \/ ((exists r2, res2 = Reply r2)
                     /\ Forall (fun c => operation_in_session
                                           (ERequest (fst c) (snd c))) cs2))
         end
  end.

(** Every duty sent by the event satisfies [Q]. *)
Definition duty_is (Q : pyval -> Prop) (e : event) : Prop :=
  match e with
  | ERequest rq res => forall x, sent_duty (rq, res) = Some x -> Q x
  | _ => True
  end.

Definition not_holiday_query (e : event) : Prop :=
  match e with
  | EHoliday _ _ => False
  | _ => True
  end.

(** The duty a host is sent when the target is not ["auto"]: its own
    [fan_speed] when it has one, the target otherwise. *)
Definition duty_of_host (target config x : pyval) : Prop :=
  (py_in "fan_speed" config = Ok true /\ py_getitem config "fan_speed" = Ok x)
  \/ (py_in "fan_speed" config = Ok false /\ x = target).

(** No condition on the state. *)
Definition any_state {St : Type} (_ : St) : Prop := True.

(** What [range()] accepts as its argument: an [int] (or a [bool]). *)
Definition is_count (v : pyval) : bool :=
  match v with
  | PInt _ | PBool _ => true
  | _ => false
  end.

(** Method, path and result of a call. *)
Definition call_outline (c : request * http_result) : method * path * http_result :=
  (rq_method (fst c), rq_path (fst c), snd c).

(** * Properties *)

Ltac run_monad :=
  unfold set_one_fan, get_random, set_fan_mode, set_header, raise_for_status,
    response_json, session_request, holiday_query, try_except, bind, ret,
    raise, lift, log, get_self, modify in *.

Lemma calls_app (t1 t2 : list event) : calls (t1 ++ t2) = calls t1 ++ calls t2.
Proof.
  induction t1 as [|e t1 IH]; simpl; [reflexivity|].
  destruct e; simpl; rewrite IH; reflexivity.
Qed.

(** The requests sent for redirects are not calls of the script. *)
Lemma calls_redirects (via : list redirect) :
  forall m hs jar b, calls (resolve_redirects m hs jar b via) = [].
Proof.
  induction via as [|rd via IH]; intros m hs jar b; simpl; [reflexivity|apply IH].
Qed.

Ltac trace_calls :=
  repeat first [progress cbn [calls app] | rewrite calls_app | rewrite calls_redirects].

Ltac in_trace :=
  repeat first [left; reflexivity | right | apply in_or_app; right].

(** Storing cookies touches the cookie store only. *)
Lemma store_cookie_frame (hs : list (string * string)) (self : FanController) :
  host (store_cookie hs self) = host self
  /\ username (store_cookie hs self) = username self
  /\ password (store_cookie hs self) = password self
  /\ fans_count (store_cookie hs self) = fans_count self
  /\ headers (store_cookie hs self) = headers self.
Proof.
  unfold store_cookie. destruct (header_get _ _); simpl; auto.
Qed.

Lemma store_history_frame (via : list redirect) :
  forall self : FanController,
  host (store_history via self) = host self
  /\ username (store_history via self) = username self
  /\ password (store_history via self) = password self
  /\ fans_count (store_history via self) = fans_count self
  /\ headers (store_history via self) = headers self.
Proof.
  unfold store_history.
  induction via as [|rd via IH]; intros self; simpl; [auto|].
  destruct (IH (store_cookie (rd_headers rd) self)) as (H1 & H2 & H3 & H4 & H5).
  destruct (store_cookie_frame (rd_headers rd) self) as (G1 & G2 & G3 & G4 & G5).
  repeat split; congruence.
Qed.

Lemma store_cookies_frame (r : response) (self : FanController) :
  host (store_cookies r self) = host self
  /\ username (store_cookies r self) = username self
  /\ password (store_cookies r self) = password self
  /\ fans_count (store_cookies r self) = fans_count self
  /\ headers (store_cookies r self) = headers self.
Proof.
  unfold store_cookies.
  destruct (store_cookie_frame (resp_headers r) (store_history (history r) self))
    as (H1 & H2 & H3 & H4 & H5).
  destruct (store_history_frame (history r) self) as (G1 & G2 & G3 & G4 & G5).
  repeat split; congruence.
Qed.

(** One turn of the fan loop: one PUT is made, all fields of the object
    but the cookie store are kept, and the counter moves by one exactly
    when the result passes [put_succeeds]. *)
Lemma set_one_fan_run (speed : pyval) (i n : Z) (self : FanController)
    (net : list http_result) :
  exists self' t,
    set_one_fan speed i n self net
    = (Ok (n + (if put_succeeds (hd Failed net) then 1 else 0)), self', tl net, t)
    /\ calls t = [(mkRequest PUT (host self) (ApiFan i) (headers self) (session self)
                     (JsonBody (PDict [("duty", speed)])), hd Failed net)]
    /\ host self' = host self /\ fans_count self' = fans_count self
    /\ headers self' = headers self.
Proof.
  run_monad.
  destruct net as [|[via|r] net]; simpl.
  - eexists _, _; rewrite Z.add_0_r; repeat split; reflexivity.
  - destruct (store_history_frame via self) as (H1 & _ & _ & H4 & H5).
    eexists _, _; rewrite Z.add_0_r. split; [reflexivity|].
    split; [trace_calls; reflexivity|auto].
  - assert (Hs : host (store_cookies r self) = host self
                 /\ fans_count (store_cookies r self) = fans_count self
                 /\ headers (store_cookies r self) = headers self).
    { destruct (store_cookies_frame r self) as (H1 & _ & _ & H4 & H5). auto. }
    destruct ((400 <=? status_code r) && (status_code r <? 600)); simpl.
    + eexists _, _; rewrite Z.add_0_r; split; [reflexivity|].
      split; [trace_calls; reflexivity|exact Hs].
    + destruct (resp_json r) as [[| | | | |l|d]|]; simpl;
        try (eexists _, _; rewrite Z.add_0_r; split; [reflexivity|];
             split; [trace_calls; reflexivity|exact Hs]).
      destruct (assoc "duty" d); simpl.
      * eexists _, _; split; [reflexivity|].
        split; [trace_calls; reflexivity|exact Hs].
      * eexists _, _; rewrite Z.add_0_r; split; [reflexivity|].
        split; [trace_calls; reflexivity|exact Hs].
Qed.

Lemma fan_loop_run (speed : pyval) (indices : list Z) :
  forall (n : Z) (self : FanController) (net : list http_result),
  exists self' net' t,
    fan_loop speed indices n self net
    = (Ok (n + Z.of_nat (List.length (filter put_succeeds (map snd (calls t))))),
       self', net', t)
    /\ map call_shape (calls t) = map (fan_put speed) indices
    /\ Forall (fun c => rq_host (fst c) = host self
                        /\ rq_headers (fst c) = headers self) (calls t)
    /\ host self' = host self /\ fans_count self' = fans_count self
    /\ headers self' = headers self.
Proof.
  induction indices as [|i rest IH]; intros n self net.
  - exists self, net, []. simpl. rewrite Z.add_0_r. repeat split; constructor.
  - destruct (set_one_fan_run speed i n self net)
      as (self1 & t1 & E1 & C1 & Hh & Hf & Hhd).
    destruct (IH (n + (if put_succeeds (hd Failed net) then 1 else 0)) self1 (tl net))
      as (self2 & net2 & t2 & E2 & C2 & F2 & Hh2 & Hf2 & Hhd2).
    exists self2, net2, (t1 ++ t2).
    cbn [fan_loop]. unfold bind at 1. rewrite E1, E2.
    rewrite calls_app, C1. cbn [app map snd filter fst].
    split; [|split; [|split; [|split; [|split]]]].
    + match goal with
      | |- (Ok ?a, _, _, _) = (Ok ?b, _, _, _) => replace b with a; [reflexivity|]
      end.
      destruct (put_succeeds (hd Failed net)); cbn [List.length]; lia.
    + cbn [call_shape fst rq_method rq_path rq_body]. rewrite C2. reflexivity.
    + constructor; [split; reflexivity|].
      rewrite <- Hh, <- Hhd. exact F2.
    + congruence.
    + congruence.
    + congruence.
Qed.

Lemma filter_length_le {A : Type} (f : A -> bool) (l : list A) :
  (List.length (filter f l) <= List.length l)%nat.
Proof.
  induction l as [|a l IH]; simpl; [lia|]. destruct (f a); simpl; lia.
Qed.

(** C1.  With [fans_count = n >= 0], [set_fan_speed] returns normally
    whatever the network does; its calls are exactly the [n] PUTs on
    fans [0 .. n-1] with body [{"duty": speed}], in order; and the count
    it returns is the number of those calls that succeeded, between 0
    and [n]. *)
Theorem set_fan_speed_counts_successes
    (self : FanController) (speed : pyval) (n : Z) (net : list http_result) :
  fans_count self = PInt n -> 0 <= n ->
  exists success_count self' net' t,
    set_fan_speed speed self net = (Ok success_count, self', net', t)
    /\ map call_shape (calls t)
       = map (fan_put speed) (map Z.of_nat (seq 0 (Z.to_nat n)))
    /\ List.length (calls t) = Z.to_nat n
    /\ success_count
       = Z.of_nat (List.length (filter put_succeeds (map snd (calls t))))
    /\ 0 <= success_count <= n.
Proof.
  intros Hn Hpos.
  destruct (fan_loop_run speed (map Z.of_nat (seq 0 (Z.to_nat n))) 0 self net)
    as (self' & net' & t & E & C & _).
  exists (Z.of_nat (List.length (filter put_succeeds (map snd (calls t))))), self', net', t.
  assert (L : List.length (calls t) = Z.to_nat n).
  { rewrite <- (length_map call_shape), C, !length_map, length_seq. reflexivity. }
  split; [|split; [exact C|split; [exact L|split; [reflexivity|]]]].
  - unfold set_fan_speed, bind, get_self, lift. rewrite Hn. cbn [py_range].
    rewrite E. reflexivity.
  - pose proof (filter_length_le put_succeeds (map snd (calls t))) as Hle.
    rewrite length_map, L in Hle. lia.
Qed.

Lemma set_fan_speed_counts_successes_witness :
  fans_count (demo_controller 2) = PInt 2 /\ 0 <= 2 /\
  exists success_count self' net' t,
    set_fan_speed (PInt 55) (demo_controller 2)
      [duty_echo 200 55; reply_json 500 PNone] = (Ok success_count, self', net', t)
    /\ map call_shape (calls t)
       = map (fan_put (PInt 55)) (map Z.of_nat (seq 0 (Z.to_nat 2)))
    /\ List.length (calls t) = Z.to_nat 2
    /\ success_count
       = Z.of_nat (List.length (filter put_succeeds (map snd (calls t))))
    /\ 0 <= success_count <= 2.
Proof.
  split; [reflexivity|]. split; [lia|].
  apply (set_fan_speed_counts_successes (demo_controller 2) (PInt 55) 2
           [duty_echo 200 55; reply_json 500 PNone]); [reflexivity|lia].
Defined.

Example set_fan_speed_partial :
  outcome (set_fan_speed (PInt 55) (demo_controller 3)
             [duty_echo 200 55; reply_json 500 PNone; Failed]) = Ok 1.
Proof. reflexivity. Qed.

(** [put_succeeds] spelled out. *)
Lemma put_succeeds_iff (res : http_result) :
  put_succeeds res = true <->
  exists r d duty,
    res = Reply r /\ ~ (400 <= status_code r < 600)
    /\ resp_json r = Some (PDict d) /\ assoc "duty" d = Some duty.
Proof.
  split.
  - destruct res as [|r]; simpl; [discriminate|].
    intros H. apply andb_true_iff in H. destruct H as [Hs Hj].
    destruct (resp_json r) as [[| | | | | |d]|] eqn:Ej; try discriminate.
    destruct (assoc "duty" d) as [duty|] eqn:Ed; [|discriminate].
    exists r, d, duty. repeat split; try reflexivity; try assumption.
    apply negb_true_iff, andb_false_iff in Hs. intros [H1 H2].
    destruct Hs as [Hs|Hs]; [apply Z.leb_gt in Hs|apply Z.ltb_ge in Hs]; lia.
  - intros (r & d & duty & -> & Hs & Hj & Hd). simpl. rewrite Hj, Hd.
    apply andb_true_iff. split; [|reflexivity].
    apply negb_true_iff, andb_false_iff.
    destruct (Z.leb_spec 400 (status_code r)); [right|left; reflexivity].
    apply Z.ltb_ge. lia.
Qed.

(** C9 (amended).  The [try] block for one fan moves [success_count] by
    one exactly when the PUT returned a response whose status is not a
    4xx or 5xx one (all that [raise_for_status] rejects) and whose body
    is a JSON object with the key ["duty"]; otherwise the count is
    unchanged.  In both cases the block returns normally. *)
Theorem set_one_fan_counts_exactly_when
    (speed : pyval) (i n : Z) (self : FanController) (net : list http_result) :
  exists n' self' net' t,
    set_one_fan speed i n self net = (Ok n', self', net', t)
    /\ (n' = n + 1 \/ n' = n)
    /\ (n' = n + 1 <->
        exists r d duty,
          hd_error net = Some (Reply r)
          /\ ~ (400 <= status_code r < 600)
          /\ resp_json r = Some (PDict d)
          /\ assoc "duty" d = Some duty).
Proof.
  destruct (set_one_fan_run speed i n self net) as (self' & t & E & _).
  eexists _, self', (tl net), t. split; [exact E|].
  pose proof (put_succeeds_iff (hd Failed net)) as P.
  destruct (put_succeeds (hd Failed net)).
  - split; [left; reflexivity|]. split; [intros _|reflexivity].
    destruct (proj1 P eq_refl) as (r & d & duty & Hr & H).
    exists r, d, duty. split; [|exact H].
    destruct net as [|x net]; simpl in *; [discriminate|congruence].
  - split; [right; lia|]. split; [lia|].
    intros (r & d & duty & Hr & H). exfalso.
    assert (false = true); [|discriminate].
    apply P. exists r, d, duty. split; [|exact H].
    destruct net as [|x net]; simpl in *; [discriminate|congruence].
Qed.

(** C9 as stated fails: a response with status 300 (not followed as a
    redirect, not rejected by [raise_for_status]) that echoes the duty
    is counted, although 300 is not a 2xx status. *)
Lemma status_300_is_counted :
  outcome (set_fan_speed (PInt 50) (demo_controller 1) [duty_echo 300 50]) = Ok 1
  /\ put_succeeds (duty_echo 300 50) = true
  /\ (200 <=? 300) && (300 <? 300) = false.
Proof. repeat split. Qed.

(** ** Stepping through [bind] and [try_except] *)

Section Steps.
Context {St A B : Type}.
Implicit Types (s : St) (net : list http_result) (t : list event).

Lemma bind_ok (m : M St A) (k : A -> M St B) s net a s1 net1 t1 :
  m s net = (Ok a, s1, net1, t1) ->
  bind m k s net
  = (outcome (k a s1 net1), snd (fst (fst (k a s1 net1))),
     snd (fst (k a s1 net1)), t1 ++ trace_of (k a s1 net1)).
Proof.
  intros E. unfold bind, outcome, trace_of. rewrite E.
  destruct (k a s1 net1) as [[[r s2] net2] t2]. reflexivity.
Qed.

Lemma bind_raise (m : M St A) (k : A -> M St B) s net e s1 net1 t1 :
  m s net = (Raise e, s1, net1, t1) ->
  bind m k s net = (Raise e, s1, net1, t1).
Proof. intros E. unfold bind. rewrite E. reflexivity. Qed.

Lemma try_ok (m : M St A) (h : exc_class -> M St A) s net a s1 net1 t1 :
  m s net = (Ok a, s1, net1, t1) ->
  try_except m h s net = (Ok a, s1, net1, t1).
Proof. intros E. unfold try_except. rewrite E. reflexivity. Qed.

Lemma try_exit (m : M St A) (h : exc_class -> M St A) s net c s1 net1 t1 :
  m s net = (Raise (SystemExit c), s1, net1, t1) ->
  try_except m h s net = (Raise (SystemExit c), s1, net1, t1).
Proof. intros E. unfold try_except. rewrite E. reflexivity. Qed.

Lemma try_caught (m : M St A) (h : exc_class -> M St A) s net e s1 net1 t1 :
  m s net = (Raise (Exc e), s1, net1, t1) ->
  try_except m h s net
  = (outcome (h e s1 net1), snd (fst (fst (h e s1 net1))),
     snd (fst (h e s1 net1)), t1 ++ trace_of (h e s1 net1)).
Proof.
  intros E. unfold try_except, outcome, trace_of. rewrite E.
  destruct (h e s1 net1) as [[[r s2] net2] t2]. reflexivity.
Qed.

End Steps.

Ltac break_match :=
  match goal with
  | |- context [py_get ?v _ _] => is_var v; destruct v
  | |- context [py_getitem ?v _] => is_var v; destruct v
  | |- context [py_in _ ?v] => is_var v; destruct v
  | |- context [py_iter ?v] => is_var v; destruct v
  | |- context [match ?x with _ => _ end] =>
      lazymatch x with
      | context [match _ with _ => _ end] => fail
      | _ => destruct x eqn:?
      end
  end.

(** ** load_config *)

(** When [exists()] answers, [load_config] returns a list and leaves
    the network alone. *)
Lemma load_config_returns {St : Type}
    (f : file_state) (s : St) (net : list http_result) :
  f <> StatError ->
  exists configs t,
    load_config f s net = (Ok configs, s, net, t) /\ calls t = [].
Proof.
  intros Hf.
  destruct f as [| |e|[]]; try (eexists _, _; split; reflexivity).
  contradiction.
Qed.

(** When [exists()] raises, so does [load_config]: the call is made
    before the [try]. *)
Lemma load_config_stat_error {St : Type} (s : St) (net : list http_result) :
  load_config StatError s net = (Raise (Exc OSError), s, net, []).
Proof. reflexivity. Qed.

(** C5 fails on the code.  [load_config] raises when [Path.exists()]
    does: the test is made outside the [try] whose handler logs the
    failure and lets the function return the empty list.  The same
    [OSError], raised by [open] inside the [try], gives the empty list;
    raised by [exists()] it goes through [load_config], and [main]
    answers it by logging the error and exiting with status 1, where a
    missing file gives a run that ends with status 0. *)
Theorem exists_failure_escapes_load_config (net : list http_result) :
  (forall (St : Type) (s : St),
     load_config StatError s net = (Raise (Exc OSError), s, net, []))
  /\ outcome (load_config (ReadError OSError) tt net) = Ok []
  /\ run_script
       (mkEnv ["fanSpeed.py"; "auto"] a_wednesday a_wednesday StatError)
       [workday_reply]
     = (1, [ELog INFO MsgCheckingHoliday;
            EHoliday a_wednesday workday_reply;
            ELog INFO (MsgApiWorkday a_wednesday);
            ELog ERROR (MsgProgramError OSError)])
  /\ run_script
       (mkEnv ["fanSpeed.py"; "auto"] a_wednesday a_wednesday NoFile)
       [workday_reply]
     = (0, [ELog INFO MsgCheckingHoliday;
            EHoliday a_wednesday workday_reply;
            ELog INFO (MsgApiWorkday a_wednesday);
            ELog INFO MsgAllDone]).
Proof. repeat split. Qed.

(** X16.  [load_config] raises in one case only, when [exists()]
    itself raises.  In every other state of the file it returns a list
    without touching the network: the array itself when the file holds
    an array, the one-element list of the value when it holds a single
    object, and the empty list when the file is missing or when opening
    or parsing it raises (the failure is logged as an error). *)
Theorem load_config_returns_a_list {St : Type}
    (f : file_state) (s : St) (net : list http_result) :
  (f = StatError /\ load_config f s net = (Raise (Exc OSError), s, net, []))
  \/ exists configs t,
       load_config f s net = (Ok configs, s, net, t)
       /\ calls t = []
       /\ (f = NoFile -> configs = [] /\ t = [])
       /\ (forall e, f = ReadError e ->
           configs = [] /\ t = [ELog ERROR (MsgConfigLoadFailed e)])
       /\ (forall l, f = Parsed (PList l) -> configs = l)
       /\ (forall d, f = Parsed (PDict d) -> configs = [PDict d]).
Proof.
  destruct f as [| |e|v].
  - right. exists [], []. repeat split; intros; congruence.
  - left. split; reflexivity.
  - right. exists [], [ELog ERROR (MsgConfigLoadFailed e)].
    repeat split; intros; congruence.
  - right. destruct v;
      match goal with
      | |- context [Parsed (PList ?l)] => exists l, []
      | |- context [Parsed ?v] => exists [v], []
      end;
      (split; [reflexivity|]); repeat split; intros; congruence.
Qed.

Example load_config_wraps_single_object :
  outcome (load_config (Parsed (demo_config "10.0.0.1" 4)) tt [])
  = Ok [demo_config "10.0.0.1" 4].
Proof. reflexivity. Qed.

(** ** The calendar check *)

(** [is_chinese_holiday] never raises and makes no session call: it
    consumes one network result (the holiday query). *)
Lemma is_chinese_holiday_total {St : Type} (d : date) (s : St)
    (net : list http_result) :
  exists b t,
    is_chinese_holiday d s net = (Ok b, s, tl net, t) /\ calls t = [].
Proof.
  unfold is_chinese_holiday. run_monad.
  destruct net as [|[via|r] net]; cbn -[existsb holidays resolve_redirects];
    repeat (break_match; cbn -[existsb holidays resolve_redirects]);
    eexists _, _; (split; [reflexivity|trace_calls; reflexivity]).
Qed.

(** ** main, up to the resolution of the target *)

(** [main] first checks the holiday and loads the configurations; the
    first cannot fail, neither reaches a BMC.  When the configurations
    are loaded, what follows decides the run. *)
Lemma main_run (env : environment) (net : list http_result) :
  config_file env <> StatError ->
  exists b t1 configs t2,
    is_chinese_holiday (today env) tt net = (Ok b, tt, tl net, t1)
    /\ calls t1 = []
    /\ load_config (config_file env) tt (tl net) = (Ok configs, tt, tl net, t2)
    /\ calls t2 = []
    /\ main env tt net
       = match (target <- resolve_target env configs b ;;
                run_configs target (Z.of_nat (List.length configs)) 0 configs ;;
                log INFO MsgAllDone) tt (tl net) with
         | (Raise (Exc e), s, n, t) =>
             (Raise (SystemExit 1), s, n,
              ELog INFO MsgCheckingHoliday
              :: t1 ++ t2 ++ t ++ [ELog ERROR (MsgProgramError e)])
         | (r, s, n, t) =>
             (r, s, n, ELog INFO MsgCheckingHoliday :: t1 ++ t2 ++ t)
         end.
Proof.
  intros Hstat.
  destruct (is_chinese_holiday_total (today env) tt net) as (b & t1 & E1 & C1).
  destruct (load_config_returns (config_file env) tt (tl net) Hstat)
    as (configs & t2 & E2 & C2).
  exists b, t1, configs, t2. repeat (split; [assumption|]).
  unfold main.
  set (rest := fun (b : bool) (configs : list pyval) =>
         (target <- resolve_target env configs b ;;
          run_configs target (Z.of_nat (List.length configs)) 0 configs ;;
          log INFO MsgAllDone) : M unit unit).
  change (try_except
            (log INFO MsgCheckingHoliday ;;
             is_holiday <- is_chinese_holiday (today env) ;;
             configs <- load_config (config_file env) ;;
             rest is_holiday configs)
            (fun e => log ERROR (MsgProgramError e) ;; raise (SystemExit 1)) tt net
          = match rest b configs tt (tl net) with
            | (Raise (Exc e), s, n, t) =>
                (Raise (SystemExit 1), s, n,
                 ELog INFO MsgCheckingHoliday
                 :: t1 ++ t2 ++ t ++ [ELog ERROR (MsgProgramError e)])
            | (r, s, n, t) =>
                (r, s, n, ELog INFO MsgCheckingHoliday :: t1 ++ t2 ++ t)
            end).
  unfold try_except.
  rewrite (bind_ok (log INFO MsgCheckingHoliday) _ tt net tt tt net
             [ELog INFO MsgCheckingHoliday] eq_refl).
  rewrite (bind_ok _ _ _ _ _ _ _ _ E1).
  rewrite (bind_ok _ _ _ _ _ _ _ _ E2).
  unfold outcome, trace_of.
  destruct (rest b configs tt (tl net)) as [[[[u|[e|c]] s] n] t]; cbn.
  - reflexivity.
  - rewrite <- !app_assoc. reflexivity.
  - reflexivity.
Qed.

(** When the configuration file cannot be examined, [main] stops right
    after the holiday check: the error is logged and the process exits
    with status 1. *)
Lemma main_stat_error (env : environment) (net : list http_result) :
  config_file env = StatError ->
  exists b t1,
    is_chinese_holiday (today env) tt net = (Ok b, tt, tl net, t1)
    /\ calls t1 = []
    /\ main env tt net
       = (Raise (SystemExit 1), tt, tl net,
          ELog INFO MsgCheckingHoliday
          :: t1 ++ [ELog ERROR (MsgProgramError OSError)]).
Proof.
  intros Hstat.
  destruct (is_chinese_holiday_total (today env) tt net) as (b & t1 & E1 & C1).
  exists b, t1. repeat (split; [assumption|]).
  unfold main. rewrite Hstat.
  rewrite (try_caught _ _ tt net OSError tt (tl net)
             (ELog INFO MsgCheckingHoliday :: t1)).
  - reflexivity.
  - rewrite (bind_ok (log INFO MsgCheckingHoliday) _ tt net tt tt net
               [ELog INFO MsgCheckingHoliday] eq_refl).
    rewrite (bind_ok _ _ _ _ _ _ _ _ E1).
    rewrite (bind_raise _ _ _ _ _ _ _ _ (load_config_stat_error tt (tl net))).
    cbn. rewrite app_nil_r. reflexivity.
Qed.

(** A file that gave configurations could be examined. *)
Lemma loaded_can_stat {St : Type} (f : file_state) (s : St)
    (net : list http_result) (configs : list pyval) :
  outcome (load_config f s net) = Ok configs -> f <> StatError.
Proof. intros H ->. discriminate H. Qed.

Lemma stat_error_dec (f : file_state) : {f = StatError} + {f <> StatError}.
Proof. destruct f; first [left; reflexivity | right; discriminate]. Qed.

(** ** The command-line argument *)

Lemma lower_char_a (c : ascii) :
  PyStr.lower_char c = "a"%char -> c = "a"%char \/ c = "A"%char.
Proof.
  destruct c as [[] [] [] [] [] [] [] []]; vm_compute; intros H;
    first [discriminate H | left; reflexivity | right; reflexivity].
Qed.

Lemma lower_char_o (c : ascii) :
  PyStr.lower_char c = "o"%char -> c = "o"%char \/ c = "O"%char.
Proof.
  destruct c as [[] [] [] [] [] [] [] []]; vm_compute; intros H;
    first [discriminate H | left; reflexivity | right; reflexivity].
Qed.

(** A spelling of [auto] in any letter case is not a number. *)
Lemma lower_auto_not_int (arg : string) :
  PyStr.lower arg = "auto" -> PyStr.int arg = None.
Proof.
  destruct arg as [|c1 [|c2 [|c3 [|c4 [|c5 r]]]]]; simpl; try discriminate.
  intros H. injection H as H1 _ _ H4.
  apply lower_char_a in H1. apply lower_char_o in H4.
  assert (S1 : PyStr.int_space c1 = false)
    by (destruct H1 as [-> | ->]; reflexivity).
  assert (S4 : PyStr.int_space c4 = false)
    by (destruct H4 as [-> | ->]; reflexivity).
  unfold PyStr.int, PyStr.strip_by.
  cbn [PyStr.lstrip_by]. rewrite S1.
  cbn [PyStr.rstrip_by]. rewrite S4, S1.
  cbn [andb PyStr.is_empty]. rewrite !andb_false_r.
  destruct H1 as [-> | ->]; reflexivity.
Qed.


Lemma get_fan_speed_input_accepts {St : Type} (prog arg : string)
    (rest : list string) (n : Z) (s : St) (net : list http_result) :
  PyStr.int arg = Some n -> 0 <= n <= 100 ->
  get_fan_speed_input (prog :: arg :: rest) s net = (Ok (PInt n), s, net, []).
Proof.
  intros Hint Hn. cbn [get_fan_speed_input].
  destruct (String.eqb_spec (PyStr.lower arg) "auto") as [E|_].
  - apply lower_auto_not_int in E. congruence.
  - rewrite Hint.
    replace ((0 <=? n) && (n <=? 100)) with true; [reflexivity|].
    symmetry. apply andb_true_iff. split; apply Z.leb_le; lia.
Qed.

Lemma load_config_outcome {St St' : Type} (f : file_state) (s : St) (s' : St')
    (net net' : list http_result) :
  outcome (load_config f s net) = outcome (load_config f s' net').
Proof. destruct f as [| | |[]]; reflexivity. Qed.

(** When the target cannot be resolved the process ends with that
    status before any session call. *)
Lemma main_exits_at_target (env : environment) (net : list http_result)
    (b : bool) (configs : list pyval) :
  outcome (is_chinese_holiday (today env) tt net) = Ok b ->
  outcome (load_config (config_file env) tt []) = Ok configs ->
  (exists t,
      outcome (resolve_target env configs b tt (tl net)) = Raise (SystemExit 1)
      /\ trace_of (resolve_target env configs b tt (tl net)) = t
      /\ calls t = []) ->
  fst (run_script env net) = 1 /\ calls (snd (run_script env net)) = [].
Proof.
  intros Hb Hc (t & Et & Tt & Ct).
  destruct (main_run env net (loaded_can_stat _ _ _ _ Hc))
    as (b' & t1 & configs' & t2 & E1 & C1 & E2 & C2 & E).
  rewrite E1 in Hb. cbn in Hb. injection Hb as ->.
  rewrite (load_config_outcome _ tt tt [] (tl net)), E2 in Hc. cbn in Hc.
  injection Hc as ->.
  unfold run_script. rewrite E.
  destruct (resolve_target env configs b tt (tl net)) as [[[r s] n] t'] eqn:Er.
  cbn in Et, Tt. subst r t'.
  rewrite (bind_raise _ _ _ _ _ _ _ _ Er). cbn.
  split; [reflexivity|].
  rewrite !calls_app, C1, C2, Ct. reflexivity.
Qed.




Example argument_150_exits :
  run_script (mkEnv ["fanSpeed.py"; "150"] (mkDate 2026 11 4) (mkDate 2026 11 4)
                (Parsed (demo_config "10.0.0.1" 2))) []
  = (1, [ELog INFO MsgCheckingHoliday;
         EHoliday (mkDate 2026 11 4) Failed;
         ELog WARNING (MsgApiFailed RequestException);
         ELog INFO (MsgLocalWorkday (mkDate 2026 11 4));
         ELog ERROR MsgSpeedOutOfRange]).
Proof. reflexivity. Qed.


(** ** Weekends *)

(** C6.  When the weekday of [datetime.now()] is Saturday (5) or Sunday
    (6), [is_weekend()] is true, so [is_weekend() or is_holiday] is true
    whatever the holiday lookup answered (it always returns), and with
    no command-line argument the target is ["auto"]. *)
Theorem weekend_is_enough (env : environment) (net : list http_result) :
  weekday (now env) = 5 \/ weekday (now env) = 6 ->
  is_weekend (now env) = true
  /\ (exists is_holiday t,
        is_chinese_holiday (today env) tt net = (Ok is_holiday, tt, tl net, t)
        /\ is_weekend (now env) || is_holiday = true)
  /\ (forall prog configs is_holiday net',
        argv env = [prog] ->
        resolve_target env configs is_holiday tt net'
        = (Ok (PStr "auto"), tt, net', [ELog INFO MsgAutoByDate])).
Proof.
  intros Hday.
  assert (W : is_weekend (now env) = true).
  { unfold is_weekend. apply Z.leb_le. lia. }
  split; [exact W|]. split.
  - destruct (is_chinese_holiday_total (today env) tt net) as (b & t & E & _).
    exists b, t. split; [exact E|]. rewrite W. reflexivity.
  - intros prog configs is_holiday net' Hargv.
    unfold resolve_target. rewrite Hargv. cbn [get_fan_speed_input].
    rewrite (bind_ok (ret PNone) _ tt net' PNone tt net' [] eq_refl).
    rewrite W. reflexivity.
Qed.

Lemma weekend_is_enough_witness :
  let env := mkEnv ["fanSpeed.py"] (mkDate 2024 6 1) (mkDate 2024 6 1)
               (Parsed (demo_config "10.0.0.1" 2)) in
  let workday := reply_json 200 (PDict [("status", PInt 1); ("type", PInt 0)]) in
  (weekday (now env) = 5 \/ weekday (now env) = 6)
  /\ is_weekend (now env) = true
  /\ (exists is_holiday t,
        is_chinese_holiday (today env) tt [workday]
        = (Ok is_holiday, tt, tl [workday], t)
        /\ is_weekend (now env) || is_holiday = true)
  /\ (forall prog configs is_holiday net',
        argv env = [prog] ->
        resolve_target env configs is_holiday tt net'
        = (Ok (PStr "auto"), tt, net', [ELog INFO MsgAutoByDate])).
Proof.
  split; [left; reflexivity|].
  apply (weekend_is_enough
           (mkEnv ["fanSpeed.py"] (mkDate 2024 6 1) (mkDate 2024 6 1)
              (Parsed (demo_config "10.0.0.1" 2)))
           [reply_json 200 (PDict [("status", PInt 1); ("type", PInt 0)])]).
  left; reflexivity.
Defined.

Example saturday_overrides_the_api :
  let workday := reply_json 200 (PDict [("status", PInt 1); ("type", PInt 0)]) in
  outcome (is_chinese_holiday (mkDate 2024 6 1) tt [workday]) = Ok false
  /\ outcome (resolve_target
                (mkEnv ["fanSpeed.py"] (mkDate 2024 6 1) (mkDate 2024 6 1) NoFile)
                [] false tt []) = Ok (PStr "auto").
Proof. split; reflexivity. Qed.

(** ** The default target *)

Lemma no_argument_is_None {St : Type} (args : list string) (s : St)
    (net : list http_result) :
  (List.length args <= 1)%nat ->
  get_fan_speed_input args s net = (Ok PNone, s, net, []).
Proof.
  destruct args as [|p [|a r]]; cbn [List.length]; intros H;
    [reflexivity|reflexivity|lia].
Qed.

(** C4.  With no command-line argument, on a day that is neither a
    weekend nor a holiday: when the configuration list is empty, or its
    first entry has no [fan_speed], the process exits with status 1
    before any session call, whatever the later entries hold; when the
    first entry has a [fan_speed], that value is the target. *)
Theorem first_entry_gives_the_default
    (env : environment) (net : list http_result) (configs : list pyval) :
  (List.length (argv env) <= 1)%nat ->
  is_weekend (now env) = false ->
  outcome (is_chinese_holiday (today env) tt net) = Ok false ->
  outcome (load_config (config_file env) tt []) = Ok configs ->
  ((configs = []
    \/ exists d rest, configs = PDict d :: rest /\ assoc "fan_speed" d = None) ->
   fst (run_script env net) = 1 /\ calls (snd (run_script env net)) = [])
  /\ (forall d rest v,
        configs = PDict d :: rest -> assoc "fan_speed" d = Some v ->
        resolve_target env configs false tt (tl net)
        = (Ok v, tt, tl net, [ELog INFO (MsgUseConfigSpeed v)])).
Proof.
  intros Hargv Hday Hhol Hload. split.
  - intros Hnone.
    apply (main_exits_at_target env net false configs Hhol Hload).
    exists [ELog ERROR MsgNoFanSpeed].
    unfold resolve_target.
    rewrite (bind_ok _ _ _ _ _ _ _ _ (no_argument_is_None (argv env) tt (tl net) Hargv)).
    rewrite Hday. cbn [orb].
    destruct Hnone as [-> | (d & rest & -> & Hd)].
    + repeat split.
    + unfold bind, lift, py_in. rewrite Hd. repeat split.
  - intros d rest v -> Hd.
    unfold resolve_target.
    rewrite (bind_ok _ _ _ _ _ _ _ _ (no_argument_is_None (argv env) tt (tl net) Hargv)).
    rewrite Hday. cbn [orb].
    unfold bind, lift, py_in, py_getitem, hd, log, ret. rewrite Hd. reflexivity.
Qed.

Lemma first_entry_gives_the_default_witness :
  let later := demo_config_speed "10.0.0.2" 2 40 in
  let env1 := mkEnv ["fanSpeed.py"] a_wednesday a_wednesday
                (Parsed (PList [demo_config "10.0.0.1" 2; later])) in
  let env2 := mkEnv ["fanSpeed.py"] a_wednesday a_wednesday
                (Parsed (PList [later; demo_config "10.0.0.1" 2])) in
  ((List.length (argv env1) <= 1)%nat
   /\ is_weekend (now env1) = false
   /\ outcome (is_chinese_holiday (today env1) tt [workday_reply]) = Ok false
   /\ outcome (load_config (config_file env1) tt [])
      = Ok [demo_config "10.0.0.1" 2; later]
   /\ fst (run_script env1 [workday_reply]) = 1
   /\ calls (snd (run_script env1 [workday_reply])) = [])
  /\ resolve_target env2 [later; demo_config "10.0.0.1" 2] false tt []
     = (Ok (PInt 40), tt, [], [ELog INFO (MsgUseConfigSpeed (PInt 40))]).
Proof.
  set (later := demo_config_speed "10.0.0.2" 2 40).
  set (env1 := mkEnv ["fanSpeed.py"] a_wednesday a_wednesday
                 (Parsed (PList [demo_config "10.0.0.1" 2; later]))).
  set (env2 := mkEnv ["fanSpeed.py"] a_wednesday a_wednesday
                 (Parsed (PList [later; demo_config "10.0.0.1" 2]))).
  assert (L : (List.length ["fanSpeed.py"] <= 1)%nat) by (cbn; lia).
  split.
  - split; [exact L|]. do 3 (split; [reflexivity|]).
    apply (proj1 (first_entry_gives_the_default env1 [workday_reply]
                    [demo_config "10.0.0.1" 2; later]
                    L eq_refl eq_refl eq_refl)).
    right. eexists _, _. split; reflexivity.
  - exact (proj2 (first_entry_gives_the_default env2 [workday_reply]
                    [later; demo_config "10.0.0.1" 2]
                    L eq_refl eq_refl eq_refl)
             _ _ (PInt 40) eq_refl eq_refl).
Defined.

(** ** login: the session cookie *)

Lemma split_head (s : string) :
  exists ps, PyStr.split "=" s = before_eq s :: ps.
Proof.
  induction s as [|c r (ps & IH)]; cbn [PyStr.split before_eq].
  - exists []. reflexivity.
  - destruct (Ascii.eqb c "=").
    + eexists. reflexivity.
    + rewrite IH. eexists. reflexivity.
Qed.

Lemma scan_cookies_skips (pre rest : list string) :
  Forall (fun c => is_session_cookie (PyStr.strip c) = false) pre ->
  scan_cookies (pre ++ rest) = scan_cookies rest.
Proof.
  induction 1 as [|c pre Hc _ IH]; [reflexivity|].
  cbn [app scan_cookies]. unfold is_session_cookie in Hc. rewrite Hc. exact IH.
Qed.

Lemma scan_cookies_takes (cookie name value : string) (rest : list string) :
  PyStr.strip cookie = (name ++ "=" ++ value)%string ->
  name = "SESSION" \/ name = "QSESSIONID" ->
  scan_cookies (cookie :: rest) = Some (before_eq value).
Proof.
  intros Hs Hn. cbn [scan_cookies]. rewrite Hs.
  destruct (split_head value) as (ps & Hv).
  destruct Hn as [-> | ->]; destruct value; cbn in *; rewrite ?Hv; reflexivity.
Qed.

Lemma status_not_error (code : Z) :
  ~ (400 <= code < 600) -> (400 <=? code) && (code <? 600) = false.
Proof.
  intros H. apply andb_false_iff.
  destruct (Z.leb_spec 400 code); [right; apply Z.ltb_ge; lia|left; reflexivity].
Qed.

(** [get_random] on a good answer. *)
Lemma get_random_ok (self : FanController) (r : response)
    (net : list http_result) (d : list (string * pyval)) (v : pyval) :
  ~ (400 <= status_code r < 600) ->
  resp_json r = Some (PDict d) -> assoc "random" d = Some v ->
  get_random self (Reply r :: net)
  = (Ok v, store_cookies r self, net,
     ERequest (mkRequest GET (host self) ApiRandomTag (headers self)
                 (session self) NoBody) (Reply r)
     :: resolve_redirects GET (headers self) (session self) NoBody (history r)).
Proof.
  intros Hs Hj Hd. unfold get_random. run_monad. cbn -[resolve_redirects].
  rewrite (status_not_error _ Hs), Hj. cbn -[resolve_redirects].
  rewrite Hd, !app_nil_r. reflexivity.
Qed.

(** C10 (amended).  The cookie that counts is the first one of the
    [Set-Cookie] header (split on [';'], stripped) that starts with
    [SESSION=] or [QSESSIONID=]: the session id is the part of its value
    before the first ['='], and when its value is empty [login] raises
    [ValueError] (after a good random tag and a login answer that is not
    an HTTP error). *)
Theorem first_session_cookie_decides
    (set_cookie : string) (pre post : list string) (cookie name value : string) :
  PyStr.split ";" set_cookie = pre ++ cookie :: post ->
  Forall (fun c => is_session_cookie (PyStr.strip c) = false) pre ->
  PyStr.strip cookie = (name ++ "=" ++ value)%string ->
  name = "SESSION" \/ name = "QSESSIONID" ->
  scan_cookies (PyStr.split ";" set_cookie) = Some (before_eq value)
  /\ (value = "" ->
      forall self r1 r2 rest d v,
        ~ (400 <= status_code r1 < 600) ->
        resp_json r1 = Some (PDict d) -> assoc "random" d = Some v ->
        ~ (400 <= status_code r2 < 600) ->
        header_get "Set-Cookie" (resp_headers r2) = Some set_cookie ->
        outcome (login self (Reply r1 :: Reply r2 :: rest))
        = Raise (Exc ValueError)).
Proof.
  intros Hsplit Hpre Hstrip Hname.
  assert (Hscan : scan_cookies (PyStr.split ";" set_cookie) = Some (before_eq value)).
  { rewrite Hsplit, (scan_cookies_skips pre _ Hpre).
    exact (scan_cookies_takes cookie name value post Hstrip Hname). }
  split; [exact Hscan|].
  intros -> self r1 r2 rest d v Hs1 Hj1 Hd1 Hs2 Hh2.
  cbn [before_eq] in Hscan.
  unfold login.
  erewrite (try_caught _ _ self (Reply r1 :: Reply r2 :: rest) ValueError);
    cycle 1.
  - rewrite (bind_ok _ _ _ _ _ _ _ _ (get_random_ok self r1 _ d v Hs1 Hj1 Hd1)).
    run_monad.
    cbn -[scan_cookies PyStr.split header_get resolve_redirects store_cookies].
    rewrite (status_not_error _ Hs2), Hh2, Hscan. reflexivity.
  - reflexivity.
Qed.

Lemma first_session_cookie_decides_witness :
  let header := "lang=zh-cn; SESSION=; Path=/" in
  PyStr.split ";" header = ["lang=zh-cn"] ++ " SESSION=" :: [" Path=/"]
  /\ Forall (fun c => is_session_cookie (PyStr.strip c) = false) ["lang=zh-cn"]
  /\ PyStr.strip " SESSION=" = ("SESSION" ++ "=" ++ "")%string
  /\ scan_cookies (PyStr.split ";" header) = Some (before_eq "")
  /\ outcome (login (demo_controller 1) [random_reply; login_reply header "tok"])
     = Raise (Exc ValueError).
Proof.
  assert (H2 : Forall (fun c => is_session_cookie (PyStr.strip c) = false)
                      ["lang=zh-cn"]).
  { constructor; [reflexivity|constructor]. }
  assert (Hs : ~ (400 <= 200 < 600)) by lia.
  split; [reflexivity|]. split; [exact H2|]. split; [reflexivity|].
  split.
  - exact (proj1 (first_session_cookie_decides "lang=zh-cn; SESSION=; Path=/"
                    ["lang=zh-cn"] [" Path=/"] " SESSION=" "SESSION" ""
                    eq_refl H2 eq_refl (or_introl eq_refl))).
  - exact (proj2 (first_session_cookie_decides "lang=zh-cn; SESSION=; Path=/"
                    ["lang=zh-cn"] [" Path=/"] " SESSION=" "SESSION" ""
                    eq_refl H2 eq_refl (or_introl eq_refl))
             eq_refl (demo_controller 1)
             (mkResponse 200 [] (Some (PDict [("random", PStr "r4nd0m")])))
             (mkResponse 200 [("Set-Cookie", "lang=zh-cn; SESSION=; Path=/")]
                (Some (PDict [("CSRFToken", PStr "tok")])))
             [] [("random", PStr "r4nd0m")] (PStr "r4nd0m")
             Hs eq_refl eq_refl Hs eq_refl).
Defined.

Example session_id_stops_at_equals :
  scan_cookies (PyStr.split ";" "lang=zh-cn; QSESSIONID=ab=cd; Path=/") = Some "ab".
Proof. reflexivity. Qed.

(** C10 as stated fails: this header contains a [QSESSIONID=] cookie
    with an empty value, but an earlier [SESSION=] cookie is the one
    that is read, and [login] succeeds. *)
Lemma later_empty_cookie_is_ignored :
  let header := "SESSION=abc; QSESSIONID=" in
  In "QSESSIONID=" (map PyStr.strip (PyStr.split ";" header))
  /\ scan_cookies (PyStr.split ";" header) = Some "abc"
  /\ outcome (login (demo_controller 1) [random_reply; login_reply header "tok"])
     = Ok tt.
Proof.
  split; [right; left; reflexivity|]. split; reflexivity.
Qed.

(** ** The duty that is sent *)

(** C3 fails on the code: a [fan_speed] of 150 in a configuration is
    sent as it is, both when it is the default target (no argument, a
    working day) and when it overrides an argument that was checked. *)
Lemma config_speed_150_is_sent :
  let config := demo_config_speed "10.0.0.1" 1 150 in
  let net := [workday_reply; random_reply; login_reply "QSESSIONID=abc" "tok";
              reply_json 200 PNone; duty_echo 200 150; fans_reply] in
  run_script (mkEnv ["fanSpeed.py"] a_wednesday a_wednesday (Parsed config)) net
  = (0, snd (run_script (mkEnv ["fanSpeed.py"] a_wednesday a_wednesday
                           (Parsed config)) net))
  /\ fan_duties (snd (run_script (mkEnv ["fanSpeed.py"] a_wednesday a_wednesday
                                    (Parsed config)) net)) = [PInt 150]
  /\ fan_duties (snd (run_script (mkEnv ["fanSpeed.py"; "55"] a_wednesday
                                    a_wednesday (Parsed config)) net)) = [PInt 150].
Proof. repeat split. Qed.

(** ** Nothing inside a host's turn can end the process *)

Section NeverExits.
Context {St : Type}.

Lemma ne_ret {A : Type} (a : A) : never_exits (@ret St A a).
Proof. intros s net. exact I. Qed.

Lemma ne_raise {A : Type} (e : exc_class) : never_exits (@raise St A (Exc e)).
Proof. intros s net. exact I. Qed.

Lemma ne_log (lvl : level) (m : logmsg) : never_exits (@log St lvl m).
Proof. intros s net. exact I. Qed.

Lemma ne_get_self : never_exits (@get_self St).
Proof. intros s net. exact I. Qed.

Lemma ne_modify (f : St -> St) : never_exits (modify f).
Proof. intros s net. exact I. Qed.

Lemma ne_lift {A : Type} (r : result A) : no_exit r -> never_exits (@lift St A r).
Proof. intros H s net. exact H. Qed.

Lemma ne_bind {A B : Type} (m : M St A) (k : A -> M St B) :
  never_exits m -> (forall a, never_exits (k a)) -> never_exits (bind m k).
Proof.
  intros Hm Hk s net. specialize (Hm s net). unfold bind, outcome in *.
  destruct (m s net) as [[[[a|e] s1] net1] t1]; cbn in *.
  - specialize (Hk a s1 net1). unfold outcome in Hk.
    destruct (k a s1 net1) as [[[r s2] net2] t2]. exact Hk.
  - exact Hm.
Qed.

Lemma ne_try {A : Type} (m : M St A) (h : exc_class -> M St A) :
  never_exits m -> (forall e, never_exits (h e)) -> never_exits (try_except m h).
Proof.
  intros Hm Hh s net. specialize (Hm s net). unfold try_except, outcome in *.
  destruct (m s net) as [[[[a|[e|c]] s1] net1] t1]; cbn in *.
  - exact I.
  - specialize (Hh e s1 net1). unfold outcome in Hh.
    destruct (h e s1 net1) as [[[r s2] net2] t2]. exact Hh.
  - exact Hm.
Qed.

Lemma ne_on_object {C A : Type} (c : C) (m : M C A) :
  never_exits m -> never_exits (@on_object St C A c m).
Proof.
  intros Hm s net. specialize (Hm c net). unfold on_object, outcome in *.
  destruct (m c net) as [[[r c'] net1] t1]. exact Hm.
Qed.

Lemma ne_raise_for_status (r : response) : never_exits (@raise_for_status St r).
Proof. unfold raise_for_status. destruct (_ && _); intros s net; exact I. Qed.

Lemma ne_response_json (r : response) : never_exits (@response_json St r).
Proof. unfold response_json. destruct (resp_json r); intros s net; exact I. Qed.

End NeverExits.

Lemma no_exit_getitem (v : pyval) (k : string) : no_exit (py_getitem v k).
Proof. destruct v; cbn; try exact I. destruct (assoc k d); exact I. Qed.

Lemma no_exit_in (k : string) (v : pyval) : no_exit (py_in k v).
Proof. destruct v; exact I. Qed.

Lemma no_exit_range (v : pyval) : no_exit (py_range v).
Proof. destruct v; exact I. Qed.

Lemma no_exit_iter (v : pyval) : no_exit (py_iter v).
Proof. destruct v; exact I. Qed.

Lemma ne_session_request (m : method) (p : path) (b : body) :
  never_exits (session_request m p b).
Proof. intros s [|[via|r] net]; exact I. Qed.

Ltac never_exits_step :=
  first
    [ apply ne_bind; [|intro]
    | apply ne_try; [|intro]
    | apply ne_on_object
    | apply ne_ret | apply ne_raise | apply ne_log | apply ne_get_self
    | apply ne_modify | apply ne_raise_for_status | apply ne_response_json
    | apply ne_session_request
    | apply ne_lift;
      first [apply no_exit_getitem | apply no_exit_in | apply no_exit_range
            | apply no_exit_iter]
    | match goal with
      | |- never_exits (match ?x with _ => _ end) => destruct x
      | |- never_exits (let _ := _ in _) => cbv zeta
      end ].

Lemma ne_get_random : never_exits get_random.
Proof. unfold get_random. repeat never_exits_step. Qed.

Lemma ne_login : never_exits login.
Proof.
  unfold login, set_header.
  repeat first [apply ne_get_random | never_exits_step].
Qed.

Lemma ne_set_fan_mode (mode : string) : never_exits (set_fan_mode mode).
Proof. unfold set_fan_mode. repeat never_exits_step. Qed.

Lemma ne_set_one_fan (speed : pyval) (i n : Z) : never_exits (set_one_fan speed i n).
Proof. unfold set_one_fan. repeat never_exits_step. Qed.

Lemma ne_fan_loop (speed : pyval) (indices : list Z) :
  forall n, never_exits (fan_loop speed indices n).
Proof.
  induction indices as [|i rest IH]; intros n; cbn [fan_loop].
  - apply ne_ret.
  - apply ne_bind; [apply ne_set_one_fan|intro; apply IH].
Qed.

Lemma ne_set_fan_speed (speed : pyval) : never_exits (set_fan_speed speed).
Proof.
  unfold set_fan_speed.
  repeat first [apply ne_fan_loop | never_exits_step].
Qed.

Lemma ne_log_fans {St : Type} (fans : list pyval) : never_exits (@log_fans St fans).
Proof.
  induction fans as [|f rest IH]; cbn [log_fans].
  - apply ne_ret.
  - apply ne_bind; [apply ne_log|intro; exact IH].
Qed.

Lemma ne_get_fan_status : never_exits get_fan_status.
Proof.
  unfold get_fan_status.
  repeat first [apply ne_log_fans | never_exits_step].
Qed.

Lemma ne_new_FanController {St : Type} (config : pyval) :
  never_exits (@new_FanController St config).
Proof. unfold new_FanController. repeat never_exits_step. Qed.

(** The [try] block of a host raises [Exception]s only. *)
Lemma ne_process_host {St : Type} (target config : pyval) :
  never_exits (@process_host St target config).
Proof.
  unfold process_host.
  repeat first [apply ne_new_FanController | apply ne_login | apply ne_set_fan_mode
               | apply ne_set_fan_speed | apply ne_get_fan_status
               | never_exits_step].
Qed.

(** ** The host loop *)

(** One turn on a configuration that is a JSON object: it returns
    normally whatever happened inside. *)
Lemma run_config_returns (target : pyval) (total i : Z)
    (d : list (string * pyval)) (net : list http_result) :
  run_config target total i (PDict d) tt net
  = (Ok tt, tt, net_of (process_host target (PDict d) tt net),
     host_trace target total i (PDict d) net).
Proof.
  pose proof (ne_process_host target (PDict d) tt net) as Hne.
  unfold run_config, host_trace, bind, lift, log, try_except, py_get,
    net_of, outcome, trace_of in *.
  destruct (process_host target (PDict d) tt net) as [[[[[]|[e|c]] []] n] t];
    cbn in *; rewrite ?app_nil_r; [reflexivity|reflexivity|contradiction].
Qed.

Lemma run_configs_returns (target : pyval) (total : Z) (configs : list pyval) :
  Forall (fun c => is_dict c = true) configs ->
  forall (i : Z) (net : list http_result),
    run_configs target total i configs tt net
    = (Ok tt, tt, net_after_hosts target configs net,
       all_hosts target total i configs net).
Proof.
  induction 1 as [|c rest Hc _ IH]; intros i net.
  - reflexivity.
  - destruct c; try discriminate Hc.
    cbn [run_configs all_hosts net_after_hosts].
    rewrite (bind_ok _ _ _ _ _ _ _ _ (run_config_returns target total i d net)).
    rewrite IH. reflexivity.
Qed.

(** C2.  When every entry of the configuration list is an object:
    the loop over the hosts returns normally, and its trace is, for
    every host in order, the banner of the host, all that
    [process_host] does for it from the network state left by the hosts
    before it, and the failure line when it raised; no exception of one
    host keeps another from its turn.  The process then ends with
    status 0 once the target was resolved. *)
Theorem host_failures_are_isolated
    (env : environment) (net : list http_result) (configs : list pyval) :
  outcome (load_config (config_file env) tt []) = Ok configs ->
  Forall (fun c => is_dict c = true) configs ->
  (forall target total i net',
      run_configs target total i configs tt net'
      = (Ok tt, tt, net_after_hosts target configs net',
         all_hosts target total i configs net'))
  /\ (forall is_holiday target,
        outcome (is_chinese_holiday (today env) tt net) = Ok is_holiday ->
        outcome (resolve_target env configs is_holiday tt (tl net)) = Ok target ->
        fst (run_script env net) = 0
        /\ exists before,
             snd (run_script env net)
             = before
               ++ all_hosts target (Z.of_nat (List.length configs)) 0 configs
                    (net_of (resolve_target env configs is_holiday tt (tl net)))
               ++ [ELog INFO MsgAllDone]).
Proof.
  intros Hload Hdict. split.
  - intros target total i net'. apply run_configs_returns. exact Hdict.
  - intros b target Hb Ht.
    destruct (main_run env net (loaded_can_stat _ _ _ _ Hload))
      as (b' & t1 & configs' & t2 & E1 & _ & E2 & _ & E).
    rewrite E1 in Hb. cbn in Hb. injection Hb as ->.
    rewrite (load_config_outcome _ tt tt [] (tl net)), E2 in Hload. cbn in Hload.
    injection Hload as ->.
    unfold run_script. rewrite E.
    destruct (resolve_target env configs b tt (tl net)) as [[[r []] n] t] eqn:Er.
    cbn in Ht. subst r.
    rewrite (bind_ok _ _ _ _ _ _ _ _ Er).
    rewrite (bind_ok _ _ _ _ _ _ _ _
               (run_configs_returns target _ configs Hdict 0 n)).
    cbn. split; [reflexivity|].
    exists (ELog INFO MsgCheckingHoliday :: t1 ++ t2 ++ t).
    cbn. rewrite <- !app_assoc. reflexivity.
Qed.

Lemma host_failures_are_isolated_witness :
  outcome (load_config (config_file two_hosts_env) tt []) = Ok two_hosts
  /\ Forall (fun c => is_dict c = true) two_hosts
  /\ outcome (is_chinese_holiday (today two_hosts_env) tt first_host_down) = Ok false
  /\ outcome (resolve_target two_hosts_env two_hosts false tt (tl first_host_down))
     = Ok (PInt 55)
  /\ fst (run_script two_hosts_env first_host_down) = 0
  /\ exists before,
       snd (run_script two_hosts_env first_host_down)
       = before
         ++ all_hosts (PInt 55) (Z.of_nat (List.length two_hosts)) 0 two_hosts
              (net_of (resolve_target two_hosts_env two_hosts false tt
                         (tl first_host_down)))
         ++ [ELog INFO MsgAllDone].
Proof.
  assert (D : Forall (fun c => is_dict c = true) two_hosts).
  { repeat constructor. }
  split; [reflexivity|]. split; [exact D|]. do 2 (split; [reflexivity|]).
  exact (proj2 (host_failures_are_isolated two_hosts_env first_host_down two_hosts
                  eq_refl D)
           false (PInt 55) eq_refl eq_refl).
Defined.

Example second_host_is_served_after_first_fails :
  map (fun c => (rq_host (fst c), rq_path (fst c)))
      (calls (snd (run_script two_hosts_env first_host_down)))
  = [(PStr "10.0.0.1", ApiRandomTag);
     (PStr "10.0.0.2", ApiRandomTag); (PStr "10.0.0.2", ApiSession);
     (PStr "10.0.0.2", ApiFansMode); (PStr "10.0.0.2", ApiFan 0);
     (PStr "10.0.0.2", ApiFanInfo)]
  /\ In (ELog ERROR (MsgConfigFailed 1 RequestException))
        (snd (run_script two_hosts_env first_host_down)).
Proof.
  split; [reflexivity|]. vm_compute.
  repeat first [left; reflexivity | right].
Qed.

(** An entry that is not an object is another matter: its
    [config.get] is outside the [try] of the loop, so the run stops
    there with status 1 and the hosts after it are not served. *)
Example non_object_entry_stops_the_run :
  let env := mkEnv ["fanSpeed.py"; "55"] a_wednesday a_wednesday
               (Parsed (PList [PInt 7; demo_config "10.0.0.2" 1])) in
  fst (run_script env first_host_down) = 1
  /\ calls (snd (run_script env first_host_down)) = [].
Proof. split; reflexivity. Qed.

(** ** Session isolation: a small program logic over the monitor *)

Lemma assoc_popped {V : Type} (k name : string) (hs : list (string * V)) :
  String.eqb (PyStr.lower k) (PyStr.lower name) = true ->
  assoc k (header_pop name hs) = None.
Proof.
  intros Hk. induction hs as [|[k0 v0] hs IH]; cbn; [reflexivity|].
  destruct (String.eqb (PyStr.lower k0) (PyStr.lower name)) eqn:E; cbn;
    [exact IH|].
  destruct (String.eqb_spec k k0) as [->|_]; [congruence|exact IH].
Qed.

(** Dropping headers adds none. *)
Lemma assoc_header_pop {V : Type} (k name : string) (hs : list (string * V))
    (v : V) :
  assoc k (header_pop name hs) = Some v -> assoc k hs = Some v.
Proof.
  induction hs as [|[k0 v0] hs IH]; cbn; [discriminate|].
  destruct (String.eqb (PyStr.lower k0) (PyStr.lower name)) eqn:E; cbn.
  - destruct (String.eqb_spec k k0) as [->|_]; [|exact IH].
    fold (header_pop name hs). rewrite (assoc_popped k0 name hs E). discriminate.
  - destruct (String.eqb k k0); [auto|exact IH].
Qed.

Lemma artifacts_from_more (seen seen' : list response) (jar : list string)
    (hs : list (string * pyval)) :
  incl seen seen' -> artifacts_from seen jar hs -> artifacts_from seen' jar hs.
Proof.
  intros Hi (H1 & H2 & H3). split; [|split].
  - intros c Hc. destruct (H1 c Hc) as (r & Hr & E). exists r. auto.
  - intros v Hv. destruct (H2 v Hv) as (r & j & Hr & E). exists r, j.
    split; [apply Hi, Hr|exact E].
  - intros v Hv. destruct (H3 v Hv) as (r & sc & sid & Hr & E). exists r, sc, sid.
    split; [apply Hi, Hr|exact E].
Qed.

Lemma artifacts_from_pop (seen : list response) (jar : list string)
    (hs : list (string * pyval)) (name : string) :
  artifacts_from seen jar hs -> artifacts_from seen jar (header_pop name hs).
Proof.
  intros (H1 & H2 & H3). split; [exact H1|split]; intros v Hv;
    [apply H2|apply H3]; exact (assoc_header_pop _ _ _ _ Hv).
Qed.

(** A cookie that a reply of the turn set may join the store. *)
Lemma artifacts_from_cookie (seen : list response) (jar : list string)
    (hs : list (string * pyval)) (r : response) :
  In r seen -> artifacts_from seen jar hs ->
  artifacts_from seen (jar ++ cookies_of (resp_headers r)) hs.
Proof.
  intros Hr (H1 & H2 & H3). split; [|split; assumption].
  intros c Hc. apply in_app_or in Hc. destruct Hc as [Hc|Hc]; [apply H1, Hc|].
  unfold cookies_of in Hc.
  destruct (header_get "Set-Cookie" (resp_headers r)) as [sc|] eqn:E;
    [|contradiction].
  destruct Hc as [<-|[]]. exists r. auto.
Qed.

Lemma store_cookie_session (hs : list (string * string)) (c : FanController) :
  session (store_cookie hs c) = session c ++ cookies_of hs.
Proof.
  unfold store_cookie, cookies_of.
  destruct (header_get "Set-Cookie" hs); cbn; [reflexivity|].
  rewrite app_nil_r. reflexivity.
Qed.

Lemma store_cookie_from (seen : list response) (r : response) (c : FanController) :
  In r seen -> controller_from seen c ->
  controller_from seen (store_cookie (resp_headers r) c).
Proof.
  intros Hr Hc. unfold controller_from in *.
  rewrite store_cookie_session.
  destruct (store_cookie_frame (resp_headers r) c) as (_ & _ & _ & _ & ->).
  apply artifacts_from_cookie; assumption.
Qed.

Lemma store_history_from (seen : list response) (via : list redirect) :
  (forall rd, In rd via -> In (as_response rd) seen) ->
  forall c : FanController,
    controller_from seen c -> controller_from seen (store_history via c).
Proof.
  unfold store_history.
  induction via as [|rd via IH]; intros Hvia c Hc; cbn [fold_left]; [exact Hc|].
  apply IH; [intros rd' Hrd'; apply Hvia; right; exact Hrd'|].
  apply (store_cookie_from seen (as_response rd));
    [apply Hvia; left; reflexivity|exact Hc].
Qed.

Lemma chain_received (seen : list response) (res : http_result) :
  forall rd, In rd (chain res) -> In (as_response rd) (seen ++ replies_of res).
Proof.
  intros rd Hrd. apply in_or_app. right. unfold replies_of.
  apply in_or_app. left. apply in_map, Hrd.
Qed.

Section Isolation.
Variable configs : list pyval.

Lemma isolated_from_app (t1 t2 : list event) :
  forall tu,
    isolated_from configs tu (t1 ++ t2)
    <-> isolated_from configs tu t1
        /\ isolated_from configs (turns_after configs tu t1) t2.
Proof.
  induction t1 as [|e t1 IH]; intros tu;
    cbn [app isolated_from turns_after fold_left].
  - tauto.
  - change (fold_left (turn_after configs) t1 (turn_after configs tu e))
      with (turns_after configs (turn_after configs tu e) t1).
    rewrite IH. tauto.
Qed.

Lemma turns_after_app (t1 t2 : list event) (tu : turn) :
  turns_after configs tu (t1 ++ t2)
  = turns_after configs (turns_after configs tu t1) t2.
Proof. apply fold_left_app. Qed.

(** The requests sent for redirects carry what the call carried, less
    the headers that are dropped, plus the cookies of the redirect
    answers. *)
Lemma redirects_isolated (via : list redirect) :
  forall (m : method) (hs : list (string * pyval)) (jar : list string)
         (b : body) (tu : turn),
    artifacts_from (received tu) jar hs ->
    (forall rd, In rd via -> In (as_response rd) (received tu)) ->
    isolated_from configs tu (resolve_redirects m hs jar b via)
    /\ turns_after configs tu (resolve_redirects m hs jar b via) = tu.
Proof.
  induction via as [|rd via IH]; intros m hs jar b tu Ha Hvia;
    cbn [resolve_redirects isolated_from allowed turns_after fold_left
         turn_after hop_jar hop_headers].
  - split; [exact I|reflexivity].
  - match goal with
    | |- (artifacts_from _ ?jar' ?hs' /\ _) /\ _ =>
        assert (Ha' : artifacts_from (received tu) jar' hs')
    end.
    { apply artifacts_from_pop.
      apply (artifacts_from_cookie _ _ _ (as_response rd)) in Ha;
        [|apply Hvia; left; reflexivity].
      destruct ((rd_status rd =? 307) || (rd_status rd =? 308));
        [exact Ha|repeat apply artifacts_from_pop; exact Ha]. }
    match goal with
    | |- (_ /\ isolated_from _ _ (resolve_redirects ?m' ?hs' ?jar' ?b' _)) /\ _ =>
        destruct (IH m' hs' jar' b' tu Ha'
                    (fun rd' Hrd' => Hvia rd' (or_intror Hrd'))) as [H1 H2]
    end.
    split; [split; [exact Ha'|exact H1]|exact H2].
Qed.

Section Wp.
Context {St : Type}.
Implicit Types (s : St) (net : list http_result) (tu : turn).

Lemma wp_conseq {A : Type} (m : M St A) (Q Q' : result A -> turn -> St -> Prop)
    tu s net :
  wp configs m Q tu s net ->
  (forall r tu' s', Q r tu' s' -> Q' r tu' s') ->
  wp configs m Q' tu s net.
Proof.
  unfold wp. destruct (m s net) as [[[r s'] net'] t].
  intros [H1 H2] HQ. split; [exact H1|apply HQ, H2].
Qed.

Lemma wp_ret {A : Type} (a : A) (Q : result A -> turn -> St -> Prop) tu s net :
  Q (Ok a) tu s -> wp configs (ret a) Q tu s net.
Proof. intros H. split; [exact I|exact H]. Qed.

Lemma wp_raise {A : Type} (e : exn) (Q : result A -> turn -> St -> Prop)
    tu s net :
  Q (Raise e) tu s -> wp configs (raise e) Q tu s net.
Proof. intros H. split; [exact I|exact H]. Qed.

Lemma wp_lift {A : Type} (r : result A) (Q : result A -> turn -> St -> Prop)
    tu s net :
  Q r tu s -> wp configs (lift r) Q tu s net.
Proof. intros H. split; [exact I|exact H]. Qed.

Lemma wp_log (lvl : level) (m : logmsg) (Q : result unit -> turn -> St -> Prop)
    tu s net :
  Q (Ok tt) (turn_after configs tu (ELog lvl m)) s ->
  wp configs (log lvl m) Q tu s net.
Proof. intros H. split; [split; exact I|exact H]. Qed.

Lemma wp_get_self (Q : result St -> turn -> St -> Prop) tu s net :
  Q (Ok s) tu s -> wp configs get_self Q tu s net.
Proof. intros H. split; [exact I|exact H]. Qed.

Lemma wp_modify (f : St -> St) (Q : result unit -> turn -> St -> Prop)
    tu s net :
  Q (Ok tt) tu (f s) -> wp configs (modify f) Q tu s net.
Proof. intros H. split; [exact I|exact H]. Qed.

Lemma wp_bind {A B : Type} (m : M St A) (k : A -> M St B)
    (Q : result B -> turn -> St -> Prop) tu s net :
  wp configs m
     (fun r tu' s' =>
        match r with
        | Ok a => forall net', wp configs (k a) Q tu' s' net'
        | Raise e => Q (Raise e) tu' s'
        end) tu s net ->
  wp configs (bind m k) Q tu s net.
Proof.
  unfold wp, bind. destruct (m s net) as [[[[a|e] s1] net1] t1].
  - intros [H1 H2]. specialize (H2 net1).
    destruct (k a s1 net1) as [[[r s2] net2] t2].
    destruct H2 as [H2 H3]. rewrite isolated_from_app, turns_after_app. tauto.
  - tauto.
Qed.

Lemma wp_try {A : Type} (m : M St A) (h : exc_class -> M St A)
    (Q : result A -> turn -> St -> Prop) tu s net :
  wp configs m
     (fun r tu' s' =>
        match r with
        | Raise (Exc e) => forall net', wp configs (h e) Q tu' s' net'
        | _ => Q r tu' s'
        end) tu s net ->
  wp configs (try_except m h) Q tu s net.
Proof.
  unfold wp, try_except. destruct (m s net) as [[[[a|[e|c]] s1] net1] t1].
  - tauto.
  - intros [H1 H2]. specialize (H2 net1).
    destruct (h e s1 net1) as [[[r s2] net2] t2].
    destruct H2 as [H2 H3]. rewrite isolated_from_app, turns_after_app. tauto.
  - tauto.
Qed.

Lemma wp_on_object {C A : Type} (c : C) (m : M C A)
    (Q : result A -> turn -> St -> Prop) tu s net :
  wp configs m (fun r tu' _ => Q r tu' s) tu c net ->
  wp configs (on_object c m) Q tu s net.
Proof.
  unfold wp, on_object. destruct (m c net) as [[[r c'] net1] t1]. tauto.
Qed.

(** The holiday query carries nothing of the script; what it is
    redirected with comes from its own redirect answers. *)
Lemma wp_holiday_query (d : date) (Q : result response -> turn -> St -> Prop)
    tu s net :
  (forall r tu', Q r tu' s) -> wp configs (holiday_query d) Q tu s net.
Proof.
  intros H. unfold wp, holiday_query.
  assert (Hhops : forall res,
             isolated_from configs (turn_after configs tu (EHoliday d res))
               (resolve_redirects GET [] [] NoBody (chain res))).
  { intros res. apply redirects_isolated.
    - repeat split; intros; try contradiction; discriminate.
    - cbn [turn_after received]. apply chain_received. }
  destruct net as [|[via|r] net]; cbn [isolated_from allowed].
  - split; [split; exact I|apply H].
  - split; [split; [exact I|exact (Hhops (FailedVia via))]|apply H].
  - split; [split; [exact I|exact (Hhops (Reply r))]|apply H].
Qed.

Lemma wp_raise_for_status (r : response)
    (Q : result unit -> turn -> St -> Prop) tu s net :
  (forall x, Q x tu s) -> wp configs (raise_for_status r) Q tu s net.
Proof.
  intros H. unfold raise_for_status.
  destruct (_ && _); [apply wp_raise|apply wp_ret]; apply H.
Qed.

End Wp.

(** A session call goes to the object's host and sends what the object
    holds; what it receives joins the replies of the turn, and the
    cookies join the store. *)
Lemma wp_session_request (m : method) (p : path) (b : body)
    (Q : result response -> turn -> FanController -> Prop)
    (tu : turn) (c : FanController) (net : list http_result) :
  in_turn tu c ->
  (forall r tu' c', in_turn tu' c' -> In r (received tu') -> Q (Ok r) tu' c') ->
  (forall tu' c', in_turn tu' c' -> Q (Raise (Exc RequestException)) tu' c') ->
  wp configs (session_request m p b) Q tu c net.
Proof.
  intros [Hto Hc] Hok Hfail. unfold wp, session_request.
  set (rq := mkRequest m (host c) p (headers c) (session c) b).
  assert (Hstep : forall res,
             let tu' := turn_after configs tu (ERequest rq res) in
             isolated_from configs tu
               (ERequest rq res
                :: resolve_redirects m (headers c) (session c) b (chain res))
             /\ turns_after configs tu
                  (ERequest rq res
                   :: resolve_redirects m (headers c) (session c) b (chain res))
                = tu'
             /\ in_turn tu' (store_history (chain res) c)).
  { intros res tu'.
    assert (Hc' : controller_from (received tu') c).
    { apply (artifacts_from_more (received tu)); [|exact Hc].
      cbn. apply incl_appl, incl_refl. }
    destruct (redirects_isolated (chain res) m (headers c) (session c) b tu' Hc'
                (chain_received (received tu) res)) as [H1 H2].
    split; [|split].
    - cbn [isolated_from allowed]. split; [split; [exact Hto|exact Hc]|exact H1].
    - cbn [turns_after fold_left]. exact H2.
    - split.
      + destruct (store_history_frame (chain res) c) as (-> & _). exact Hto.
      + apply store_history_from; [apply chain_received|exact Hc']. }
  destruct net as [|[via|r] net].
  - destruct (Hstep Failed) as (H1 & H2 & H3). cbn [chain resolve_redirects] in *.
    split; [exact H1|]. rewrite H2. apply Hfail, H3.
  - destruct (Hstep (FailedVia via)) as (H1 & H2 & H3). cbn [chain] in *.
    split; [exact H1|]. rewrite H2. apply Hfail, H3.
  - destruct (Hstep (Reply r)) as (H1 & H2 & (H3 & H4)). cbn [chain] in *.
    split; [exact H1|]. rewrite H2.
    assert (Hin : In r (received (turn_after configs tu (ERequest rq (Reply r))))).
    { cbn. apply in_or_app. right. apply in_or_app. right. left. reflexivity. }
    apply Hok; [|exact Hin]. split.
    + destruct (store_cookies_frame r c) as (-> & _). exact Hto.
    + unfold store_cookies. apply store_cookie_from; [exact Hin|exact H4].
Qed.

End Isolation.

Lemma assoc_dict_set_other {V : Type} (k k' : string) (v : V)
    (d : list (string * V)) :
  String.eqb k' k = false -> assoc k' (dict_set k v d) = assoc k' d.
Proof.
  intros Hk. induction d as [|[k0 v0] d IH]; cbn.
  - rewrite Hk. reflexivity.
  - destruct (String.eqb_spec k k0) as [->|Hne]; cbn.
    + rewrite Hk. reflexivity.
    + rewrite IH. reflexivity.
Qed.

Lemma assoc_dict_set_same {V : Type} (k : string) (v : V) (d : list (string * V)) :
  assoc k (dict_set k v d) = Some v.
Proof.
  induction d as [|[k0 v0] d IH]; cbn.
  - rewrite String.eqb_refl. reflexivity.
  - destruct (String.eqb_spec k k0) as [->|Hne]; cbn.
    + rewrite String.eqb_refl. reflexivity.
    + destruct (String.eqb_spec k k0); [contradiction|exact IH].
Qed.

Lemma set_header_other (tu : turn) (c : FanController)
    (k : string) (v : pyval) :
  String.eqb "X-Csrftoken" k = false -> String.eqb "Cookie" k = false ->
  in_turn tu c ->
  in_turn tu
    (mkFanController (host c) (username c) (password c) (fans_count c)
       (session c) (dict_set k v (headers c))).
Proof.
  intros K1 K2 (H0 & H1 & H2 & H3). split; [exact H0|].
  unfold controller_from, artifacts_from. cbn.
  split; [exact H1|].
  rewrite (assoc_dict_set_other k "X-Csrftoken" v _ K1).
  rewrite (assoc_dict_set_other k "Cookie" v _ K2). auto.
Qed.

Lemma set_header_token (tu : turn) (c : FanController)
    (r : response) (j token : pyval) :
  In r (received tu) -> resp_json r = Some j ->
  py_getitem j "CSRFToken" = Ok token ->
  in_turn tu c ->
  in_turn tu
    (mkFanController (host c) (username c) (password c) (fans_count c)
       (session c) (dict_set "X-Csrftoken" token (headers c))).
Proof.
  intros Hr Hj Ht (H0 & H1 & H2 & H3). split; [exact H0|].
  unfold controller_from, artifacts_from. cbn.
  split; [exact H1|]. split.
  - rewrite assoc_dict_set_same. intros v [= <-]. exists r, j. auto.
  - rewrite (assoc_dict_set_other "X-Csrftoken" "Cookie" token _ eq_refl).
    exact H3.
Qed.

Lemma set_header_cookie (tu : turn) (c : FanController)
    (r : response) (sc sid : string) :
  In r (received tu) -> header_get "Set-Cookie" (resp_headers r) = Some sc ->
  scan_cookies (PyStr.split ";" sc) = Some sid ->
  in_turn tu c ->
  in_turn tu
    (mkFanController (host c) (username c) (password c) (fans_count c)
       (session c) (dict_set "Cookie" (PStr (session_cookie sid)) (headers c))).
Proof.
  intros Hr Hh Hs (H0 & H1 & H2 & H3). split; [exact H0|].
  unfold controller_from, artifacts_from. cbn.
  split; [exact H1|]. split.
  - rewrite (assoc_dict_set_other "Cookie" "X-Csrftoken" _ _ eq_refl).
    exact H2.
  - rewrite assoc_dict_set_same. intros v [= <-]. exists r, sc, sid. auto.
Qed.

Ltac wp_step :=
  lazymatch goal with
  | |- forall _, _ => intro
  | |- wp _ (bind _ _) _ _ _ _ => apply wp_bind
  | |- wp _ (try_except _ _) _ _ _ _ => apply wp_try
  | |- wp _ (ret _) _ _ _ _ => apply wp_ret
  | |- wp _ (raise _) _ _ _ _ => apply wp_raise
  | |- wp _ (lift ?r) _ _ _ _ => apply wp_lift; destruct r as [?|[?|?]] eqn:?
  | |- wp _ (log _ _) _ _ _ _ => apply wp_log; cbn [turn_after]
  | |- wp _ get_self _ _ _ _ => apply wp_get_self
  | |- wp _ (modify _) _ _ _ _ => apply wp_modify
  | |- wp _ (raise_for_status _) _ _ _ _ =>
      apply wp_raise_for_status; intros [?|[?|?]]
  | |- wp _ (response_json ?r) _ _ _ _ =>
      unfold response_json; destruct (resp_json r) eqn:?
  | |- wp _ (session_request _ _ _) _ _ _ _ =>
      apply wp_session_request; [assumption|intros ? ? ? ? ?|intros ? ? ?]
  | |- wp _ (match ?x with _ => _ end) _ _ _ _ => destruct x eqn:?
  | |- keeps _ _ _ =>
      first [assumption
            | apply set_header_other; [reflexivity|reflexivity|assumption]]
  | |- wp _ (on_object _ _) _ _ _ _ => apply wp_on_object
  | |- wp _ (holiday_query _) _ _ _ _ =>
      apply wp_holiday_query; intros [?|[?|?]] ?
  | |- anything _ _ _ => exact I
  | |- True => exact I
  end.

Lemma get_random_keeps (configs : list pyval) (tu : turn) (c : FanController)
    (net : list http_result) :
  in_turn tu c -> wp configs get_random keeps tu c net.
Proof.
  intros Hc. unfold get_random.
  repeat wp_step.
Qed.

Lemma login_keeps (configs : list pyval) (tu : turn) (c : FanController)
    (net : list http_result) :
  in_turn tu c -> wp configs login keeps tu c net.
Proof.
  intros Hc. unfold login, set_header.
  apply wp_try. apply wp_bind.
  apply (wp_conseq _ _ keeps); [apply get_random_keeps, Hc|].
  intros [v|e] tu1 c1 H1; [|destruct e; repeat wp_step].
  repeat wp_step.
  apply wp_session_request;
    [apply set_header_other; [reflexivity|reflexivity|exact H1]
    |intros r tu2 c2 Hr Hin|intros tu2 c2 Hr];
    repeat wp_step.
  apply set_header_other; [reflexivity|reflexivity|].
  match goal with
  | Hh : header_get "Set-Cookie" (resp_headers r) = Some ?sc,
    Hs : scan_cookies (PyStr.split ";" ?sc) = Some ?sid,
    Hj : resp_json r = Some ?j,
    Ht : py_getitem ?j "CSRFToken" = Ok ?token |- _ =>
      apply (set_header_cookie _ _ r sc sid Hin Hh Hs);
      apply (set_header_token _ _ r j token Hin Hj Ht)
  end.
  exact Hr.
Qed.

(** A method whose isolation is already known, met inside a larger
    computation. *)
Ltac wp_method lem :=
  apply (wp_conseq _ _ keeps);
  [apply lem; assumption
  |let H := fresh "Hkeeps" in intros [?|[?|?]] ? ? H; cbv beta iota].

Lemma set_fan_mode_keeps (configs : list pyval) (mode : string) (tu : turn)
    (c : FanController) (net : list http_result) :
  in_turn tu c -> wp configs (set_fan_mode mode) keeps tu c net.
Proof. intros Hc. unfold set_fan_mode. repeat wp_step. Qed.

Lemma set_one_fan_keeps (configs : list pyval) (speed : pyval) (i n : Z)
    (tu : turn) (c : FanController) (net : list http_result) :
  in_turn tu c -> wp configs (set_one_fan speed i n) keeps tu c net.
Proof. intros Hc. unfold set_one_fan. repeat wp_step. Qed.

Lemma fan_loop_keeps (configs : list pyval) (speed : pyval) (indices : list Z) :
  forall (n : Z) (tu : turn) (c : FanController) (net : list http_result),
    in_turn tu c -> wp configs (fan_loop speed indices n) keeps tu c net.
Proof.
  induction indices as [|i rest IH]; intros n tu c net Hc; cbn [fan_loop].
  - apply wp_ret. exact Hc.
  - apply wp_bind. wp_method set_one_fan_keeps; [intros net'|assumption|assumption].
    apply IH. assumption.
Qed.

Lemma set_fan_speed_keeps (configs : list pyval) (speed : pyval) (tu : turn)
    (c : FanController) (net : list http_result) :
  in_turn tu c -> wp configs (set_fan_speed speed) keeps tu c net.
Proof.
  intros Hc. unfold set_fan_speed. repeat wp_step.
  apply fan_loop_keeps. exact Hc.
Qed.

Lemma log_fans_keeps (configs : list pyval) (fans : list pyval) (tu : turn)
    (c : FanController) (net : list http_result) :
  in_turn tu c -> wp configs (log_fans fans) keeps tu c net.
Proof.
  intros Hc. revert net.
  induction fans as [|f rest IH]; intros net; cbn [log_fans]; repeat wp_step.
  apply IH.
Qed.

Lemma get_fan_status_keeps (configs : list pyval) (tu : turn)
    (c : FanController) (net : list http_result) :
  in_turn tu c -> wp configs get_fan_status keeps tu c net.
Proof.
  intros Hc. unfold get_fan_status. repeat wp_step.
  wp_method log_fans_keeps; repeat wp_step.
Qed.

(** A new object holds no session artifact at all. *)
Lemma fresh_controller (tu : turn) (h u p n : pyval) :
  addressee tu = Some h ->
  in_turn tu (mkFanController h u p n [] initial_headers).
Proof.
  intros Hto. split; [exact Hto|].
  unfold controller_from, artifacts_from. cbn.
  repeat split; intros; try contradiction; discriminate.
Qed.

Ltac wp_auto :=
  repeat first
    [ wp_step
    | match goal with
      | |- wp _ login _ _ _ _ => wp_method login_keeps
      | |- wp _ (set_fan_mode _) _ _ _ _ => wp_method set_fan_mode_keeps
      | |- wp _ (set_fan_speed _) _ _ _ _ => wp_method set_fan_speed_keeps
      | |- wp _ get_fan_status _ _ _ _ => wp_method get_fan_status_keeps
      end ].

(** The object of a turn is made for the host its configuration names. *)
Lemma process_host_isolated {St : Type} (configs : list pyval)
    (target config : pyval) (tu : turn) (s : St) (net : list http_result) :
  addressee tu = config_host config ->
  wp configs (process_host target config) anything tu s net.
Proof.
  intros Hto. unfold process_host, new_FanController. repeat wp_step.
  match goal with
  | Hh : py_getitem config "bmc_host" = Ok ?h |- wp _ _ _ ?tu' ?c _ =>
      assert (in_turn tu' c)
        by (apply fresh_controller; rewrite Hto; unfold config_host;
            rewrite Hh; reflexivity)
  end.
  wp_auto.
Qed.

(** The banner of a turn names the configuration whose turn it is. *)
Lemma run_config_isolated {St : Type} (configs : list pyval) (target : pyval)
    (total i : Z) (config : pyval) (tu : turn) (s : St) (net : list http_result) :
  0 <= i -> nth_error configs (Z.to_nat i) = Some config ->
  wp configs (run_config target total i config) anything tu s net.
Proof.
  intros Hi Hnth. unfold run_config. repeat wp_step.
  apply (wp_conseq _ _ anything).
  - apply process_host_isolated. cbn [addressee]. unfold turn_host.
    destruct (Z.leb_spec (i + 1) 0); [lia|].
    replace (i + 1 - 1) with i by lia. rewrite Hnth. reflexivity.
  - intros [?|[?|?]] ? ? _; repeat wp_step.
Qed.

Lemma run_configs_isolated {St : Type} (configs : list pyval) (target : pyval)
    (total : Z) (rest : list pyval) :
  forall (pre : list pyval) (tu : turn) (s : St) (net : list http_result),
    configs = pre ++ rest ->
    wp configs (run_configs target total (Z.of_nat (List.length pre)) rest)
       anything tu s net.
Proof.
  induction rest as [|config rest IH]; intros pre tu s net Hsplit;
    cbn [run_configs].
  - apply wp_ret. exact I.
  - apply wp_bind.
    apply (wp_conseq _ _ anything).
    + apply run_config_isolated; [lia|].
      rewrite Nat2Z.id, Hsplit, nth_error_app2, Nat.sub_diag by lia.
      reflexivity.
    + intros [?|?] ? ? _; [intros net'|exact I].
      replace (Z.of_nat (List.length pre) + 1)
        with (Z.of_nat (List.length (pre ++ [config])))
        by (rewrite length_app; cbn [List.length]; lia).
      apply IH. rewrite <- app_assoc. exact Hsplit.
Qed.

Lemma is_chinese_holiday_isolated {St : Type} (configs : list pyval) (d : date)
    (tu : turn) (s : St) (net : list http_result) :
  wp configs (is_chinese_holiday d) anything tu s net.
Proof. unfold is_chinese_holiday. repeat wp_step. Qed.

(** What [main] loads is what [configs_of] gives. *)
Lemma load_config_isolated (configs : list pyval) (env : environment)
    (tu : turn) (s : unit) (net : list http_result) :
  wp configs (load_config (config_file env))
     (fun r _ _ => forall l, r = Ok l -> l = configs_of env) tu s net.
Proof.
  unfold configs_of.
  destruct (config_file env) as [| |e|[]]; cbn;
    repeat split; intros loaded [= <-]; reflexivity.
Qed.

Lemma resolve_target_isolated {St : Type} (configs : list pyval)
    (env : environment) (loaded : list pyval) (b : bool)
    (tu : turn) (s : St) (net : list http_result) :
  wp configs (resolve_target env loaded b) anything tu s net.
Proof. unfold resolve_target, get_fan_speed_input. repeat wp_step. Qed.

Lemma main_isolated (env : environment) (tu : turn) (net : list http_result) :
  wp (configs_of env) (main env) anything tu tt net.
Proof.
  unfold main. repeat wp_step.
  apply (wp_conseq _ _ anything); [apply is_chinese_holiday_isolated|].
  intros [?|[?|?]] ? ? _; repeat wp_step.
  apply (wp_conseq _ _ _ _ _ _ _ (load_config_isolated _ env _ _ _)).
  intros [loaded|[?|?]] ? [] Hl; repeat wp_step.
  rewrite (Hl loaded eq_refl).
  apply (wp_conseq _ _ anything); [apply resolve_target_isolated|].
  intros [?|[?|?]] ? ? _; repeat wp_step.
  apply (wp_conseq _ _ anything);
    [apply (run_configs_isolated (configs_of env) _ _ (configs_of env) []);
     reflexivity|].
  intros [?|[?|?]] ? ? _; repeat wp_step.
Qed.

(** The monitor does reject reuse: a trace in which the second host's
    turn sends the cookie and token that the first host's login gave is
    not isolated. *)
Example monitor_rejects_reuse :
  let stale := [("X-Csrftoken", PStr "tok");
                ("Cookie", PStr (session_cookie "abc"))] in
  ~ sessions_isolated two_hosts
      [ELog INFO (MsgRunConfig 1 2 default_description);
       ERequest (mkRequest POST (PStr "10.0.0.1") ApiSession initial_headers []
                   NoBody) (login_reply "QSESSIONID=abc" "tok");
       ELog INFO (MsgRunConfig 2 2 default_description);
       ERequest (mkRequest PUT (PStr "10.0.0.2") ApiFansMode stale [] NoBody)
                Failed].
Proof.
  cbn. intros (_ & _ & _ & (_ & _ & H & _) & _).
  destruct (H (PStr "tok") eq_refl) as (r & j & [] & _).
Qed.

(** It also rejects a call to another host inside one turn: here the
    token that the login of 10.0.0.1 gave is sent to 10.0.0.2 before the
    next banner. *)
Example monitor_rejects_another_host :
  let fresh := [("X-Csrftoken", PStr "tok")] in
  ~ sessions_isolated two_hosts
      [ELog INFO (MsgRunConfig 1 2 default_description);
       ERequest (mkRequest POST (PStr "10.0.0.1") ApiSession initial_headers []
                   NoBody) (login_reply "QSESSIONID=abc" "tok");
       ERequest (mkRequest PUT (PStr "10.0.0.2") ApiFansMode fresh [] NoBody)
                Failed].
Proof.
  cbn. intros (_ & _ & (H & _) & _). discriminate H.
Qed.

(** So does it reject a request sent for a redirect that carries the
    token of an earlier turn. *)
Example monitor_rejects_stale_redirect :
  ~ sessions_isolated two_hosts
      [ELog INFO (MsgRunConfig 1 2 default_description);
       ERequest (mkRequest POST (PStr "10.0.0.1") ApiSession initial_headers []
                   NoBody) (login_reply "QSESSIONID=abc" "tok");
       ELog INFO (MsgRunConfig 2 2 default_description);
       EHop (mkHop GET (Some "https://10.0.0.9/") [("X-Csrftoken", PStr "tok")]
               [] NoBody)].
Proof.
  cbn. intros (_ & _ & _ & (_ & H & _) & _).
  destruct (H (PStr "tok") eq_refl) as (r & j & [] & _).
Qed.

(** C8 (amended).  In every run, every call the script makes after the
    banner of a configuration is addressed to the [bmc_host] of that
    configuration, and every request of that turn (the calls, and the
    requests the HTTP client sends when a call is redirected) carries,
    as stored cookies, [X-Csrftoken] header and [Cookie] header, only
    what the replies received since that banner gave: the object of
    each turn is new, so nothing that a login extracted for one
    configuration is sent in the turn of another. *)
Theorem turns_are_isolated (env : environment) (net : list http_result) :
  sessions_isolated (configs_of env) (snd (run_script env net)).
Proof.
  pose proof (main_isolated env (mkTurn None []) net) as H.
  unfold wp, run_script, sessions_isolated in *.
  destruct (main env tt net) as [[[[u|[e|c]] s] n] t]; cbn; apply H.
Qed.

(** C8 as stated fails: the first host answers the PUT of the fan mode
    with a 307 to the address of the second one; the HTTP client
    follows it and sends the [X-Csrftoken] that the login of the first
    host gave to the second host. *)
Lemma redirect_takes_the_token_to_another_host :
  let env := mkEnv ["fanSpeed.py"; "auto"] a_wednesday a_wednesday
               (Parsed (PList two_hosts)) in
  let t := snd (run_script env first_host_redirects) in
  map config_host (configs_of env) = [Some (PStr "10.0.0.1"); Some (PStr "10.0.0.2")]
  /\ map call_outline (firstn 2 (calls t))
     = [(GET, ApiRandomTag, random_reply);
        (POST, ApiSession, login_reply "QSESSIONID=abc" "token-of-10.0.0.1")]
  /\ map (fun c => rq_host (fst c)) (firstn 3 (calls t))
     = [PStr "10.0.0.1"; PStr "10.0.0.1"; PStr "10.0.0.1"]
  /\ map (fun h => (hop_method h, hop_location h,
                    assoc "X-Csrftoken" (hop_headers h)))
         (hops t)
     = [(PUT, Some "https://10.0.0.2/api/settings/fans-mode",
         Some (PStr "token-of-10.0.0.1"))].
Proof. repeat split. Qed.

(** * Further properties of the script *)

(** ** get_random, set_fan_mode, get_fan_status *)

Lemma not_error_iff (code : Z) :
  (400 <=? code) && (code <? 600) = false <-> ~ (400 <= code < 600).
Proof.
  split; [|apply status_not_error].
  intros H. apply andb_false_iff in H.
  destruct H as [H|H]; [apply Z.leb_gt in H|apply Z.ltb_ge in H]; lia.
Qed.

(** X1.  [get_random] makes one GET on /api/randomtag.  It returns [v]
    exactly when the call gave a response whose status is not 4xx/5xx
    and whose body is a JSON object with ["random"] = [v]; in every
    other case it raises an [Exception], after logging it: the error is
    passed on, not swallowed. *)
Theorem get_random_returns_iff (self : FanController) (net : list http_result) :
  (forall v,
      outcome (get_random self net) = Ok v <->
      exists r d,
        hd_error net = Some (Reply r) /\ ~ (400 <= status_code r < 600)
        /\ resp_json r = Some (PDict d) /\ assoc "random" d = Some v)
  /\ (forall e,
        outcome (get_random self net) = Raise e ->
        exists c, e = Exc c
                  /\ In (ELog ERROR (MsgRandomTagFailed c))
                        (trace_of (get_random self net)))
  /\ map call_shape (calls (trace_of (get_random self net)))
     = [(GET, ApiRandomTag, NoBody)].
Proof.
  unfold get_random. run_monad.
  destruct net as [|[via|r] net]; cbn -[resolve_redirects].
  - split; [|split; [|trace_calls; reflexivity]].
    + intros v. split; [discriminate|intros (r & d & H & _); discriminate].
    + intros e [= <-]. eexists. split; [reflexivity|]. in_trace.
  - split; [|split; [|trace_calls; reflexivity]].
    + intros v. split; [discriminate|intros (r & d & H & _); discriminate].
    + intros e [= <-]. eexists. split; [reflexivity|]. in_trace.
  - destruct ((400 <=? status_code r) && (status_code r <? 600)) eqn:Es; cbn -[resolve_redirects].
    { split; [|split; [|trace_calls; reflexivity]].
      - intros v. split; [discriminate|].
        intros (r' & d & [= <-] & Hs & _). apply not_error_iff in Hs. congruence.
      - intros e [= <-]. eexists. split; [reflexivity|]. in_trace. }
    apply not_error_iff in Es.
    destruct (resp_json r) as [j|] eqn:Ej; cbn -[resolve_redirects].
    2:{ split; [|split; [|trace_calls; reflexivity]].
        - intros v. split; [discriminate|].
          intros (r' & d & [= <-] & _ & Hj & _). congruence.
        - intros e [= <-]. eexists. split; [reflexivity|]. in_trace. }
    destruct j as [| | | | | |d];
      try (cbn -[resolve_redirects];
           split; [|split; [|trace_calls; reflexivity]];
           [intros v; split; [discriminate|];
            intros (r' & d' & [= <-] & _ & Hj & _); congruence
           |intros e [= <-]; eexists; split; [reflexivity|]; in_trace]).
    cbn -[resolve_redirects]. destruct (assoc "random" d) as [v0|] eqn:Ed; cbn -[resolve_redirects].
    + split; [|split; [|trace_calls; reflexivity]].
      * intros v. split.
        -- intros [= <-]. exists r, d. auto.
        -- intros (r' & d' & [= <-] & _ & Hj & Hd). congruence.
      * intros e. discriminate.
    + split; [|split; [|trace_calls; reflexivity]].
      * intros v. split; [discriminate|].
        intros (r' & d' & [= <-] & _ & Hj & Hd). congruence.
      * intros e [= <-]. eexists. split; [reflexivity|]. in_trace.
Qed.

(** X2.  [set_fan_mode] makes one PUT on /api/settings/fans-mode with
    body [{"control_mode": mode}].  It returns exactly when the call
    gave a response whose status is not 4xx/5xx, whatever the body is
    (it is never parsed); otherwise it raises an [Exception] after
    logging it. *)
Theorem set_fan_mode_returns_iff (mode : string) (self : FanController)
    (net : list http_result) :
  (outcome (set_fan_mode mode self net) = Ok tt <->
   exists r, hd_error net = Some (Reply r) /\ ~ (400 <= status_code r < 600))
  /\ (forall e,
        outcome (set_fan_mode mode self net) = Raise e ->
        exists c, e = Exc c
                  /\ In (ELog ERROR (MsgFanModeFailed c))
                        (trace_of (set_fan_mode mode self net)))
  /\ map call_shape (calls (trace_of (set_fan_mode mode self net)))
     = [(PUT, ApiFansMode, JsonBody (PDict [("control_mode", PStr mode)]))].
Proof.
  unfold set_fan_mode. run_monad.
  destruct net as [|[via|r] net]; cbn -[resolve_redirects].
  - split; [|split; [|trace_calls; reflexivity]].
    + split; [discriminate|intros (r & H & _); discriminate].
    + intros e [= <-]. eexists. split; [reflexivity|]. in_trace.
  - split; [|split; [|trace_calls; reflexivity]].
    + split; [discriminate|intros (r & H & _); discriminate].
    + intros e [= <-]. eexists. split; [reflexivity|]. in_trace.
  - destruct ((400 <=? status_code r) && (status_code r <? 600)) eqn:Es; cbn -[resolve_redirects].
    + split; [|split; [|trace_calls; reflexivity]].
      * split; [discriminate|].
        intros (r' & [= <-] & Hs). apply not_error_iff in Hs. congruence.
      * intros e [= <-]. eexists. split; [reflexivity|]. in_trace.
    + apply not_error_iff in Es. split; [|split; [|trace_calls; reflexivity]].
      * split; [intros _; exists r; auto|reflexivity].
      * intros e. discriminate.
Qed.

Lemma log_fans_run {St : Type} (fans : list pyval) (s : St)
    (net : list http_result) :
  log_fans fans s net
  = (Ok tt, s, net, map (fun f => ELog INFO (MsgFanStatusItem f)) fans).
Proof.
  induction fans as [|f rest IH]; cbn [log_fans map]; [reflexivity|].
  unfold bind, log. rewrite IH. reflexivity.
Qed.

Lemma logs_map_items (fans : list pyval) :
  logs (map (fun f => ELog INFO (MsgFanStatusItem f)) fans)
  = map (fun f => (INFO, MsgFanStatusItem f)) fans.
Proof. induction fans as [|f rest IH]; cbn; [reflexivity|]. rewrite IH. reflexivity. Qed.

Lemma logs_append (t1 t2 : list event) : logs (t1 ++ t2) = logs t1 ++ logs t2.
Proof.
  induction t1 as [|e t1 IH]; simpl; [reflexivity|].
  destruct e; simpl; rewrite IH; reflexivity.
Qed.

(** The requests sent for redirects log nothing. *)
Lemma logs_redirects (via : list redirect) :
  forall m hs jar b, logs (resolve_redirects m hs jar b via) = [].
Proof.
  induction via as [|rd via IH]; intros m hs jar b; simpl; [reflexivity|apply IH].
Qed.

Ltac trace_logs :=
  repeat first [progress cbn [logs app] | rewrite logs_append
               | rewrite logs_redirects | rewrite logs_map_items].


(** X3.  [get_fan_status], on a response that is not an HTTP error and
    whose body is a JSON object: without a ["fans"] key it returns
    normally and logs one warning; with a list under ["fans"] it
    returns normally and logs a header and one line per fan, in order;
    with a value under ["fans"] that cannot be iterated it raises
    [TypeError] (after logging the failure). *)
Theorem get_fan_status_reads_fans (self : FanController) (r : response)
    (rest : list http_result) (d : list (string * pyval)) :
  ~ (400 <= status_code r < 600) ->
  resp_json r = Some (PDict d) ->
  (assoc "fans" d = None ->
   outcome (get_fan_status self (Reply r :: rest)) = Ok tt
   /\ logs (trace_of (get_fan_status self (Reply r :: rest)))
      = [(WARNING, MsgNoFanInfo)])
  /\ (forall l, assoc "fans" d = Some (PList l) ->
      outcome (get_fan_status self (Reply r :: rest)) = Ok tt
      /\ logs (trace_of (get_fan_status self (Reply r :: rest)))
         = (INFO, MsgFanStatusHeader)
           :: map (fun f => (INFO, MsgFanStatusItem f)) l)
  /\ (forall v, assoc "fans" d = Some v -> py_iter v = Raise (Exc TypeError) ->
      outcome (get_fan_status self (Reply r :: rest)) = Raise (Exc TypeError)
      /\ logs (trace_of (get_fan_status self (Reply r :: rest)))
         = [(INFO, MsgFanStatusHeader); (ERROR, MsgFanStatusFailed TypeError)]).
Proof.
  intros Hs Hj. apply status_not_error in Hs.
  unfold get_fan_status. run_monad. cbn -[resolve_redirects].
  rewrite Hs, Hj. cbn -[resolve_redirects].
  split; [|split].
  - intros Hd. rewrite Hd. cbn -[resolve_redirects].
    split; [reflexivity|trace_logs; reflexivity].
  - intros l Hd. rewrite Hd. cbn -[resolve_redirects]. rewrite log_fans_run.
    cbn -[resolve_redirects]. split; [reflexivity|trace_logs; reflexivity].
  - intros v Hd Hv. rewrite Hd. cbn -[resolve_redirects]. rewrite Hv.
    cbn -[resolve_redirects]. split; [reflexivity|trace_logs; reflexivity].
Qed.

Lemma get_fan_status_reads_fans_witness :
  let r := mkResponse 200 [] (Some (PDict [("fans", PList [PInt 1; PInt 2])])) in
  let r0 := mkResponse 200 [] (Some (PDict [("state", PStr "ok")])) in
  ~ (400 <= 200 < 600)
  /\ (outcome (get_fan_status (demo_controller 1) [Reply r0]) = Ok tt
      /\ logs (trace_of (get_fan_status (demo_controller 1) [Reply r0]))
         = [(WARNING, MsgNoFanInfo)])
  /\ (outcome (get_fan_status (demo_controller 1) [Reply r]) = Ok tt
      /\ logs (trace_of (get_fan_status (demo_controller 1) [Reply r]))
         = (INFO, MsgFanStatusHeader)
           :: map (fun f => (INFO, MsgFanStatusItem f)) [PInt 1; PInt 2]).
Proof.
  assert (Hs : ~ (400 <= 200 < 600)) by lia.
  split; [exact Hs|]. split.
  - exact (proj1 (get_fan_status_reads_fans (demo_controller 1)
                    (mkResponse 200 [] (Some (PDict [("state", PStr "ok")])))
                    [] [("state", PStr "ok")] Hs eq_refl) eq_refl).
  - exact (proj1 (proj2 (get_fan_status_reads_fans (demo_controller 1)
                    (mkResponse 200 [] (Some (PDict [("fans", PList [PInt 1; PInt 2])])))
                    [] [("fans", PList [PInt 1; PInt 2])] Hs eq_refl))
             [PInt 1; PInt 2] eq_refl).
Defined.

(** ** login *)

(** What a response must be for [login] to accept it as the answer to
    the POST on /api/session. *)
Lemma login_ok_run (self : FanController) (r1 r2 : response)
    (rest : list http_result) (d1 d2 : list (string * pyval))
    (v token : pyval) (sc sid : string) :
  ~ (400 <= status_code r1 < 600) ->
  resp_json r1 = Some (PDict d1) -> assoc "random" d1 = Some v ->
  ~ (400 <= status_code r2 < 600) ->
  header_get "Set-Cookie" (resp_headers r2) = Some sc ->
  scan_cookies (PyStr.split ";" sc) = Some sid -> sid <> "" ->
  resp_json r2 = Some (PDict d2) -> assoc "CSRFToken" d2 = Some token ->
  outcome (login self (Reply r1 :: Reply r2 :: rest)) = Ok tt
  /\ net_of (login self (Reply r1 :: Reply r2 :: rest)) = rest
  /\ headers (state_of (login self (Reply r1 :: Reply r2 :: rest)))
     = dict_set "content-type" (PStr "application/json")
         (dict_set "Cookie" (PStr (session_cookie sid))
            (dict_set "X-Csrftoken" token
               (dict_set "content-type"
                  (PStr "application/x-www-form-urlencoded; charset=UTF-8")
                  (headers self))))
  /\ host (state_of (login self (Reply r1 :: Reply r2 :: rest))) = host self
  /\ fans_count (state_of (login self (Reply r1 :: Reply r2 :: rest)))
     = fans_count self.
Proof.
  intros Hs1 Hj1 Hd1 Hs2 Hh2 Hscan Hsid Hj2 Hd2.
  apply status_not_error in Hs1. apply status_not_error in Hs2.
  assert (Hne : PyStr.is_empty sid = false).
  { destruct sid; [exfalso; apply Hsid; reflexivity|reflexivity]. }
  assert (Hst : forall r c, headers (store_cookies r c) = headers c
                            /\ host (store_cookies r c) = host c
                            /\ fans_count (store_cookies r c) = fans_count c).
  { intros r c. destruct (store_cookies_frame r c) as (H1 & _ & _ & H4 & H5).
    auto. }
  unfold login, get_random, outcome, net_of, state_of. run_monad.
  cbn -[scan_cookies PyStr.split header_get store_cookies resolve_redirects].
  rewrite Hs1, Hj1.
  cbn -[scan_cookies PyStr.split header_get store_cookies resolve_redirects].
  rewrite Hd1.
  cbn -[scan_cookies PyStr.split header_get store_cookies resolve_redirects].
  rewrite Hs2, Hh2, Hscan, Hne, Hj2.
  cbn -[scan_cookies PyStr.split header_get store_cookies resolve_redirects].
  rewrite Hd2.
  cbn -[scan_cookies PyStr.split header_get store_cookies resolve_redirects].
  repeat split.
  - rewrite (proj1 (Hst r2 _)). cbn. rewrite (proj1 (Hst r1 _)). reflexivity.
  - rewrite (proj1 (proj2 (Hst r2 _))). cbn.
    rewrite (proj1 (proj2 (Hst r1 _))). reflexivity.
  - rewrite (proj2 (proj2 (Hst r2 _))). cbn.
    rewrite (proj2 (proj2 (Hst r1 _))). reflexivity.
Qed.

Lemma login_ok_conditions (self : FanController) (net : list http_result) :
  outcome (login self net) = Ok tt ->
  exists r1 d1 v r2 rest sc sid d2 token,
    net = Reply r1 :: Reply r2 :: rest
    /\ ~ (400 <= status_code r1 < 600)
    /\ resp_json r1 = Some (PDict d1) /\ assoc "random" d1 = Some v
    /\ ~ (400 <= status_code r2 < 600)
    /\ header_get "Set-Cookie" (resp_headers r2) = Some sc
    /\ scan_cookies (PyStr.split ";" sc) = Some sid /\ sid <> ""
    /\ resp_json r2 = Some (PDict d2) /\ assoc "CSRFToken" d2 = Some token.
Proof.
  unfold login, get_random, outcome. run_monad.
  destruct net as [|[via1|r1] [|[via2|r2] rest]];
    cbn -[scan_cookies PyStr.split header_get store_cookies store_history
          resolve_redirects];
    repeat (break_match;
            cbn -[scan_cookies PyStr.split header_get store_cookies
                  store_history resolve_redirects]);
    intros H; try discriminate H.
  all: try match goal with
           | Hb : negb ?b = false |- _ => destruct b; [|discriminate Hb]
           end.
  all: repeat match goal with
              | Hs : (400 <=? _) && (_ <? 600) = false |- _ =>
                  apply not_error_iff in Hs
              end.
  all: match goal with
       | He : PyStr.is_empty ?sid = false |- _ =>
           assert (sid <> "") by (intros ->; discriminate He)
       end.
  all: cbn in *.
  all: repeat match goal with
              | Hx : match assoc ?k ?d with _ => _ end = Ok _ |- _ =>
                  destruct (assoc k d) eqn:?; [|discriminate Hx]
              end.
  all: do 9 eexists; repeat split; eauto.
Qed.

(** X4.  [login] returns normally exactly when the network gives, in
    order: for the random tag a response that is not 4xx/5xx and whose
    JSON object has ["random"]; for the POST a response that is not
    4xx/5xx, has a [Set-Cookie] header in which the cookie scan finds a
    non-empty session id, and whose JSON object has ["CSRFToken"].
    Anything else makes it raise. *)
Theorem login_succeeds_iff (self : FanController) (net : list http_result) :
  outcome (login self net) = Ok tt <->
  exists r1 d1 v r2 rest sc sid d2 token,
    net = Reply r1 :: Reply r2 :: rest
    /\ ~ (400 <= status_code r1 < 600)
    /\ resp_json r1 = Some (PDict d1) /\ assoc "random" d1 = Some v
    /\ ~ (400 <= status_code r2 < 600)
    /\ header_get "Set-Cookie" (resp_headers r2) = Some sc
    /\ scan_cookies (PyStr.split ";" sc) = Some sid /\ sid <> ""
    /\ resp_json r2 = Some (PDict d2) /\ assoc "CSRFToken" d2 = Some token.
Proof.
  split; [apply login_ok_conditions|].
  intros (r1 & d1 & v & r2 & rest & sc & sid & d2 & token & -> & H).
  destruct H as (Hs1 & Hj1 & Hd1 & Hs2 & Hh2 & Hscan & Hsid & Hj2 & Hd2).
  exact (proj1 (login_ok_run self r1 r2 rest d1 d2 v token sc sid
                  Hs1 Hj1 Hd1 Hs2 Hh2 Hscan Hsid Hj2 Hd2)).
Qed.

(** X5.  After a [login] that returned, the headers of the object carry
    the token of the answer under [X-Csrftoken], the cookie
    [lang=zh-cn;QSESSIONID=<id>; refresh_disable=1] built from the
    session id under [Cookie], and [content-type] is back to
    [application/json]; the [User-Agent], the host and [fans_count] are
    as before. *)
Theorem login_sets_session_headers (self : FanController) (r1 r2 : response)
    (rest : list http_result) (d1 d2 : list (string * pyval))
    (v token : pyval) (sc sid : string) :
  ~ (400 <= status_code r1 < 600) ->
  resp_json r1 = Some (PDict d1) -> assoc "random" d1 = Some v ->
  ~ (400 <= status_code r2 < 600) ->
  header_get "Set-Cookie" (resp_headers r2) = Some sc ->
  scan_cookies (PyStr.split ";" sc) = Some sid -> sid <> "" ->
  resp_json r2 = Some (PDict d2) -> assoc "CSRFToken" d2 = Some token ->
  let self' := state_of (login self (Reply r1 :: Reply r2 :: rest)) in
  assoc "X-Csrftoken" (headers self') = Some token
  /\ assoc "Cookie" (headers self') = Some (PStr (session_cookie sid))
  /\ assoc "content-type" (headers self') = Some (PStr "application/json")
  /\ assoc "User-Agent" (headers self') = assoc "User-Agent" (headers self)
  /\ host self' = host self
  /\ fans_count self' = fans_count self.
Proof.
  intros Hs1 Hj1 Hd1 Hs2 Hh2 Hscan Hsid Hj2 Hd2 self'.
  destruct (login_ok_run self r1 r2 rest d1 d2 v token sc sid
              Hs1 Hj1 Hd1 Hs2 Hh2 Hscan Hsid Hj2 Hd2)
    as (_ & _ & Hh & Hhost & Hfans).
  subst self'. rewrite Hh.
  split; [|split; [|split; [|split; [|split]]]].
  - rewrite (assoc_dict_set_other "content-type" "X-Csrftoken" _ _ eq_refl).
    rewrite (assoc_dict_set_other "Cookie" "X-Csrftoken" _ _ eq_refl).
    apply assoc_dict_set_same.
  - rewrite (assoc_dict_set_other "content-type" "Cookie" _ _ eq_refl).
    apply assoc_dict_set_same.
  - apply assoc_dict_set_same.
  - rewrite (assoc_dict_set_other "content-type" "User-Agent" _ _ eq_refl).
    rewrite (assoc_dict_set_other "Cookie" "User-Agent" _ _ eq_refl).
    rewrite (assoc_dict_set_other "X-Csrftoken" "User-Agent" _ _ eq_refl).
    apply (assoc_dict_set_other "content-type" "User-Agent" _ _ eq_refl).
  - exact Hhost.
  - exact Hfans.
Qed.

Lemma login_sets_session_headers_witness :
  let self' := state_of (login (demo_controller 2)
                           [random_reply; login_reply "QSESSIONID=abc; Path=/" "tok"]) in
  (~ (400 <= 200 < 600) /\ "abc" <> "")
  /\ assoc "X-Csrftoken" (headers self') = Some (PStr "tok")
  /\ assoc "Cookie" (headers self') = Some (PStr (session_cookie "abc"))
  /\ assoc "content-type" (headers self') = Some (PStr "application/json")
  /\ assoc "User-Agent" (headers self')
     = assoc "User-Agent" (headers (demo_controller 2))
  /\ host self' = host (demo_controller 2)
  /\ fans_count self' = fans_count (demo_controller 2).
Proof.
  assert (Hs : ~ (400 <= 200 < 600)) by lia.
  assert (Hn : "abc" <> "") by discriminate.
  split; [split; [exact Hs|exact Hn]|].
  exact (login_sets_session_headers (demo_controller 2)
           (mkResponse 200 [] (Some (PDict [("random", PStr "r4nd0m")])))
           (mkResponse 200 [("Set-Cookie", "QSESSIONID=abc; Path=/")]
              (Some (PDict [("CSRFToken", PStr "tok")])))
           [] [("random", PStr "r4nd0m")] [("CSRFToken", PStr "tok")]
           (PStr "r4nd0m") (PStr "tok") "QSESSIONID=abc; Path=/" "abc"
           Hs eq_refl eq_refl Hs eq_refl eq_refl Hn eq_refl eq_refl).
Defined.

(** ** Edges of the host loop *)

(** X6.  A configuration object that lacks one of [bmc_host],
    [username], [password], [fans_count] costs no network call: its
    turn logs the banner and the failure ([KeyError]) and returns, so
    the loop goes on to the next host. *)
Theorem incomplete_config_is_skipped {St : Type} (target : pyval) (total i : Z)
    (d : list (string * pyval)) (k : string) (s : St) (net : list http_result) :
  In k ["bmc_host"; "username"; "password"; "fans_count"] ->
  assoc k d = None ->
  run_config target total i (PDict d) s net
  = (Ok tt, s, net,
     [ELog INFO (MsgRunConfig (i + 1) total
                   (match assoc "description" d with
                    | Some x => x
                    | None => default_description
                    end));
      ELog ERROR (MsgConfigFailed (i + 1) KeyError)]).
Proof.
  intros Hk Hd.
  unfold run_config, process_host, new_FanController, bind, lift, log,
    try_except, py_get, py_getitem.
  cbn in Hk.
  destruct Hk as [<-|[<-|[<-|[<-|[]]]]]; rewrite Hd;
    repeat (destruct (assoc _ d); cbn; try reflexivity).
Qed.

Lemma incomplete_config_is_skipped_witness :
  let d := [("bmc_host", PStr "10.0.0.1"); ("username", PStr "admin");
            ("fans_count", PInt 4)] in
  In "password" ["bmc_host"; "username"; "password"; "fans_count"]
  /\ assoc "password" d = None
  /\ run_config (PInt 55) 1 0 (PDict d) tt [random_reply]
     = (Ok tt, tt, [random_reply],
        [ELog INFO (MsgRunConfig (0 + 1) 1
                      (match assoc "description" d with
                       | Some x => x
                       | None => default_description
                       end));
         ELog ERROR (MsgConfigFailed (0 + 1) KeyError)]).
Proof.
  assert (Hk : In "password" ["bmc_host"; "username"; "password"; "fans_count"]).
  { right; right; left; reflexivity. }
  split; [exact Hk|]. split; [reflexivity|].
  exact (incomplete_config_is_skipped (PInt 55) 1 0
           [("bmc_host", PStr "10.0.0.1"); ("username", PStr "admin");
            ("fans_count", PInt 4)] "password" tt [random_reply] Hk eq_refl).
Defined.

(** X7.  An entry of the list that is not a JSON object ends the loop:
    the hosts before it get their turns, then [config.get] raises
    [AttributeError] outside the [try] of the loop, no later host is
    reached, and the process ends with status 1 after logging the
    error. *)
Theorem non_object_entry_ends_the_run
    (env : environment) (net : list http_result)
    (pre post : list pyval) (v : pyval) :
  outcome (load_config (config_file env) tt []) = Ok (pre ++ v :: post) ->
  Forall (fun c => is_dict c = true) pre ->
  is_dict v = false ->
  (forall target total i net',
      run_configs target total i (pre ++ v :: post) tt net'
      = (Raise (Exc AttributeError), tt, net_after_hosts target pre net',
         all_hosts target total i pre net'))
  /\ (forall is_holiday target,
        outcome (is_chinese_holiday (today env) tt net) = Ok is_holiday ->
        outcome (resolve_target env (pre ++ v :: post) is_holiday tt (tl net))
        = Ok target ->
        fst (run_script env net) = 1
        /\ exists before,
             snd (run_script env net)
             = before
               ++ all_hosts target (Z.of_nat (List.length (pre ++ v :: post))) 0 pre
                    (net_of (resolve_target env (pre ++ v :: post) is_holiday tt
                               (tl net)))
               ++ [ELog ERROR (MsgProgramError AttributeError)]).
Proof.
  intros Hload Hpre Hv.
  assert (Hloop : forall target total i net',
             run_configs target total i (pre ++ v :: post) tt net'
             = (Raise (Exc AttributeError), tt, net_after_hosts target pre net',
                all_hosts target total i pre net')).
  { clear Hload. intros target total.
    induction Hpre as [|c pre Hc _ IH]; intros i net'.
    - cbn [app run_configs net_after_hosts all_hosts].
      apply bind_raise. unfold run_config. apply bind_raise.
      destruct v; try discriminate Hv; reflexivity.
    - destruct c; try discriminate Hc.
      cbn [app run_configs net_after_hosts all_hosts].
      rewrite (bind_ok _ _ _ _ _ _ _ _ (run_config_returns target total i d net')).
      rewrite IH. reflexivity. }
  split; [exact Hloop|].
  intros b target Hb Ht.
  destruct (main_run env net (loaded_can_stat _ _ _ _ Hload))
    as (b' & t1 & configs' & t2 & E1 & _ & E2 & _ & E).
  rewrite E1 in Hb. cbn in Hb. injection Hb as ->.
  rewrite (load_config_outcome _ tt tt [] (tl net)), E2 in Hload. cbn in Hload.
  injection Hload as ->.
  unfold run_script. rewrite E.
  destruct (resolve_target env (pre ++ v :: post) b tt (tl net))
    as [[[r []] n] t] eqn:Er.
  cbn in Ht. subst r.
  rewrite (bind_ok _ _ _ _ _ _ _ _ Er).
  rewrite (bind_raise _ _ _ _ _ _ _ _ (Hloop target _ 0 n)).
  cbn. split; [reflexivity|].
  exists (ELog INFO MsgCheckingHoliday :: t1 ++ t2 ++ t).
  cbn. rewrite <- !app_assoc. reflexivity.
Qed.

Lemma non_object_entry_ends_the_run_witness :
  let env := mkEnv ["fanSpeed.py"; "55"] a_wednesday a_wednesday
               (Parsed (PList [demo_config "10.0.0.1" 1; PInt 7;
                               demo_config "10.0.0.2" 1])) in
  outcome (load_config (config_file env) tt [])
  = Ok ([demo_config "10.0.0.1" 1] ++ PInt 7 :: [demo_config "10.0.0.2" 1])
  /\ Forall (fun c => is_dict c = true) [demo_config "10.0.0.1" 1]
  /\ is_dict (PInt 7) = false
  /\ fst (run_script env first_host_down) = 1
  /\ map (fun c => rq_host (fst c)) (calls (snd (run_script env first_host_down)))
     = [PStr "10.0.0.1"].
Proof.
  assert (D : Forall (fun c => is_dict c = true) [demo_config "10.0.0.1" 1]).
  { repeat constructor. }
  split; [reflexivity|]. split; [exact D|]. split; [reflexivity|].
  split; [|reflexivity].
  exact (proj1 (proj2 (non_object_entry_ends_the_run
                         (mkEnv ["fanSpeed.py"; "55"] a_wednesday a_wednesday
                            (Parsed (PList [demo_config "10.0.0.1" 1; PInt 7;
                                            demo_config "10.0.0.2" 1])))
                         first_host_down [demo_config "10.0.0.1" 1]
                         [demo_config "10.0.0.2" 1] (PInt 7) eq_refl D eq_refl)
                 false (PInt 55) eq_refl eq_refl)).
Defined.

(** ** is_chinese_holiday *)

Lemma in_holidays_iff (d : date) :
  existsb (fun md => (fst md =? month d) && (snd md =? day d)) holidays = true
  <-> In (month d, day d) holidays.
Proof.
  rewrite existsb_exists. split.
  - intros ([m dd] & Hin & H). cbn in H. apply andb_true_iff in H.
    destruct H as [H1 H2]. apply Z.eqb_eq in H1. apply Z.eqb_eq in H2.
    subst. exact Hin.
  - intros Hin. exists (month d, day d). split; [exact Hin|].
    cbn. rewrite !Z.eqb_refl. reflexivity.
Qed.

(** X8.  [is_chinese_holiday] always returns a boolean.  When the
    holiday API answered with a JSON object (status not 4xx/5xx), the
    answer alone decides: true exactly when [status == 1] and [type] is
    1 or 2, the local table is not consulted.  In every other case
    (no answer, HTTP error, body that is not a JSON object) the result
    is whether (month, day) of today is in the fixed table. *)
Theorem holiday_answer_else_table {St : Type} (d : date) (s : St)
    (net : list http_result) :
  exists b,
    outcome (is_chinese_holiday d s net) = Ok b
    /\ match holiday_api_answer net with
       | Some j =>
           b = true <->
           py_eq_int (field "status" j) 1 = true
           /\ (py_eq_int (field "type" j) 2 = true
               \/ py_eq_int (field "type" j) 1 = true)
       | None => b = true <-> In (month d, day d) holidays
       end.
Proof.
  unfold is_chinese_holiday, holiday_api_answer, outcome. run_monad.
  destruct net as [|[via|r] net]; cbn -[existsb holidays].
  - pose proof (in_holidays_iff d) as T.
    destruct (existsb _ holidays); eexists; (split; [reflexivity|]); exact T.
  - pose proof (in_holidays_iff d) as T.
    destruct (existsb _ holidays); eexists; (split; [reflexivity|]); exact T.
  - destruct ((400 <=? status_code r) && (status_code r <? 600));
      cbn -[existsb holidays].
    { pose proof (in_holidays_iff d) as T.
      destruct (existsb _ holidays); eexists; (split; [reflexivity|]); exact T. }
    destruct (resp_json r) as [[| | | | | |j]|]; cbn -[existsb holidays];
      try (pose proof (in_holidays_iff d) as T;
           destruct (existsb _ holidays); eexists; (split; [reflexivity|]);
           exact T).
    unfold field.
    destruct (py_eq_int (match assoc "status" j with Some x => x | None => PNone end) 1);
      cbn.
    + destruct (py_eq_int (match assoc "type" j with Some x => x | None => PNone end) 2);
        cbn.
      * eexists. split; [reflexivity|]. tauto.
      * destruct (py_eq_int (match assoc "type" j with Some x => x | None => PNone end) 1);
          cbn; eexists; (split; [reflexivity|]).
        -- tauto.
        -- split; [discriminate|]. intros [_ [H|H]]; discriminate H.
    + eexists. split; [reflexivity|].
      split; [discriminate|]. intros [H _]. discriminate H.
Qed.

(** ** The exit status *)

Lemma no_exit_get (v : pyval) (k : string) (default : pyval) :
  no_exit (py_get v k default).
Proof. destruct v; exact I. Qed.

Lemma ne_run_config {St : Type} (target : pyval) (total i : Z) (config : pyval) :
  never_exits (@run_config St target total i config).
Proof.
  unfold run_config.
  apply ne_bind; [apply ne_lift, no_exit_get|intro].
  apply ne_bind; [apply ne_log|intro].
  apply ne_try; [apply ne_process_host|intro; apply ne_log].
Qed.

Lemma ne_run_configs {St : Type} (target : pyval) (total : Z)
    (configs : list pyval) :
  forall i, never_exits (@run_configs St target total i configs).
Proof.
  induction configs as [|c rest IH]; intros i; cbn [run_configs].
  - apply ne_ret.
  - apply ne_bind; [apply ne_run_config|intro; apply IH].
Qed.

Lemma no_exit_code_1 {A : Type} (r : result A) : no_exit r -> exit_code_1 r.
Proof. destruct r as [a|[e|c]]; cbn; tauto. Qed.

Lemma bind_exit_code_1 {St A B : Type} (m : M St A) (k : A -> M St B)
    (s : St) (net : list http_result) :
  exit_code_1 (outcome (m s net)) ->
  (forall a s' net', exit_code_1 (outcome (k a s' net'))) ->
  exit_code_1 (outcome (bind m k s net)).
Proof.
  intros Hm Hk. unfold bind, outcome in *.
  destruct (m s net) as [[[[a|e] s1] net1] t1]; cbn in *.
  - specialize (Hk a s1 net1).
    destruct (k a s1 net1) as [[[r s2] net2] t2]. exact Hk.
  - exact Hm.
Qed.

Lemma resolve_target_exit_code {St : Type} (env : environment)
    (configs : list pyval) (b : bool) (s : St) (net : list http_result) :
  exit_code_1 (outcome (resolve_target env configs b s net)).
Proof.
  unfold resolve_target, get_fan_speed_input, outcome. run_monad.
  repeat (break_match; cbn); try exact I; try reflexivity;
    repeat match goal with
           | H : (_, _) = (_, _) |- _ => inversion H; clear H; subst
           end;
    cbn; try exact I; try reflexivity.
Qed.

(** X9.  No exception leaves [main]: for every environment and every
    behaviour of the network it either returns or raises
    [SystemExit(1)], so the exit status of the process is 0 or 1, and
    it is 0 exactly when [main] returned. *)
Theorem main_ends_with_0_or_1 (env : environment) (net : list http_result) :
  (outcome (main env tt net) = Ok tt
   \/ outcome (main env tt net) = Raise (SystemExit 1))
  /\ (fst (run_script env net) = 0 \/ fst (run_script env net) = 1)
  /\ (fst (run_script env net) = 0 <-> outcome (main env tt net) = Ok tt).
Proof.
  destruct (stat_error_dec (config_file env)) as [Hstat|Hstat].
  { destruct (main_stat_error env net Hstat) as (b & t1 & _ & _ & E).
    unfold run_script. rewrite E. cbn.
    split; [right; reflexivity|]. split; [right; reflexivity|].
    split; discriminate. }
  destruct (main_run env net Hstat) as (b & t1 & configs & t2 & _ & _ & _ & _ & E).
  assert (X : exit_code_1
                (outcome ((target <- resolve_target env configs b ;;
                           run_configs target (Z.of_nat (List.length configs)) 0
                             configs ;;
                           log INFO MsgAllDone) tt (tl net)))).
  { apply bind_exit_code_1; [apply resolve_target_exit_code|].
    intros target s' net'. apply no_exit_code_1.
    apply (ne_bind _ _ (ne_run_configs target _ configs 0)
                       (fun _ => ne_log INFO MsgAllDone)). }
  unfold run_script. rewrite E. unfold outcome in *.
  destruct ((target <- resolve_target env configs b ;;
             run_configs target (Z.of_nat (List.length configs)) 0 configs ;;
             log INFO MsgAllDone) tt (tl net)) as [[[[[]|[e|c]] s] n] t];
    cbn in *.
  - split; [left; reflexivity|]. split; [left; reflexivity|]. tauto.
  - split; [right; reflexivity|]. split; [right; reflexivity|].
    split; [discriminate|discriminate].
  - subst c. split; [right; reflexivity|]. split; [right; reflexivity|].
    split; [discriminate|discriminate].
Qed.




(** ** What every event of a computation satisfies *)

Section Always.
Context {St : Type} (P : event -> Prop) (I : St -> Prop).

Lemma al_ret {A : Type} (a : A) : always P I (@ret St A a).
Proof. intros s net Hs. split; [constructor|exact Hs]. Qed.

Lemma al_raise {A : Type} (e : exn) : always P I (@raise St A e).
Proof. intros s net Hs. split; [constructor|exact Hs]. Qed.

Lemma al_lift {A : Type} (r : result A) : always P I (@lift St A r).
Proof. intros s net Hs. split; [constructor|exact Hs]. Qed.

Lemma al_get_self : always P I (@get_self St).
Proof. intros s net Hs. split; [constructor|exact Hs]. Qed.

Lemma al_log (lvl : level) (m : logmsg) :
  P (ELog lvl m) -> always P I (@log St lvl m).
Proof. intros H s net Hs. split; [repeat constructor; exact H|exact Hs]. Qed.

Lemma al_bind {A B : Type} (m : M St A) (k : A -> M St B) :
  always P I m ->
  (forall a s net, m s net = (Ok a, state_of (m s net), net_of (m s net),
                              trace_of (m s net)) ->
                   I (state_of (m s net)) ->
                   Forall P (trace_of (k a (state_of (m s net)) (net_of (m s net))))
                   /\ I (state_of (k a (state_of (m s net)) (net_of (m s net))))) ->
  always P I (bind m k).
Proof.
  intros Hm Hk s net Hs. specialize (Hm s net Hs).
  pose proof (fun a => Hk a s net) as Hk'. clear Hk.
  unfold bind, trace_of, state_of, net_of in *.
  destruct (m s net) as [[[[a|e] s1] net1] t1]; cbn in *.
  - pose proof (Hk' a eq_refl (proj2 Hm)) as Hk.
    destruct (k a s1 net1) as [[[r s2] net2] t2]; cbn in *.
    split; [apply Forall_app; split; tauto|tauto].
  - exact Hm.
Qed.

Lemma al_then {A B : Type} (m : M St A) (k : A -> M St B) :
  always P I m -> (forall a, always P I (k a)) -> always P I (bind m k).
Proof.
  intros Hm Hk. apply al_bind; [exact Hm|].
  intros a s net _ Hi. apply Hk, Hi.
Qed.

Lemma al_try {A : Type} (m : M St A) (h : exc_class -> M St A) :
  always P I m -> (forall e, always P I (h e)) -> always P I (try_except m h).
Proof.
  intros Hm Hh s net Hs. specialize (Hm s net Hs).
  unfold try_except, trace_of, state_of in *.
  destruct (m s net) as [[[[a|[e|c]] s1] net1] t1]; cbn in *; try exact Hm.
  specialize (Hh e s1 net1 (proj2 Hm)). unfold trace_of, state_of in Hh.
  destruct (h e s1 net1) as [[[r s2] net2] t2]; cbn in *.
  split; [apply Forall_app; split; tauto|tauto].
Qed.

Lemma al_raise_for_status (r : response) : always P I (@raise_for_status St r).
Proof. unfold raise_for_status. destruct (_ && _); [apply al_raise|apply al_ret]. Qed.

Lemma al_response_json (r : response) : always P I (@response_json St r).
Proof. unfold response_json. destruct (resp_json r); [apply al_ret|apply al_raise]. Qed.

Lemma al_redirects (via : list redirect) :
  (forall h, P (EHop h)) ->
  forall m hs jar b, Forall P (resolve_redirects m hs jar b via).
Proof.
  intros H. induction via as [|rd via IH]; intros m hs jar b;
    cbn [resolve_redirects]; constructor; [apply H|apply IH].
Qed.

Lemma al_holiday_query (d : date) :
  (forall res, P (EHoliday d res)) -> (forall h, P (EHop h)) ->
  always P I (@holiday_query St d).
Proof.
  intros H Hhop s net Hs. unfold holiday_query.
  destruct net as [|[via|r] net]; cbn -[resolve_redirects];
    (split; [constructor; [apply H|]|exact Hs]);
    first [constructor | apply al_redirects, Hhop].
Qed.

Lemma al_on_object {C A : Type} (I' : C -> Prop) (c : C) (m : M C A) :
  I' c -> always P I' m -> always P I (@on_object St C A c m).
Proof.
  intros Hc Hm s net Hs. specialize (Hm c net Hc).
  unfold on_object, trace_of, state_of in *.
  destruct (m c net) as [[[r c'] net1] t1]; cbn in *. tauto.
Qed.

End Always.

Lemma al_session_request (P : event -> Prop) (I : FanController -> Prop)
    (m : method) (p : path) (b : body) :
  (forall s res, I s ->
     P (ERequest (mkRequest m (host s) p (headers s) (session s) b) res)) ->
  (forall h, P (EHop h)) ->
  (forall s r, I s -> I (store_cookies r s)) ->
  (forall s via, I s -> I (store_history via s)) ->
  always P I (session_request m p b).
Proof.
  intros Hp Hhop Hi Hi' s net Hs. unfold session_request.
  destruct net as [|[via|r] net]; cbn -[resolve_redirects];
    (split; [constructor; [apply Hp, Hs|]|auto]);
    first [constructor | apply al_redirects, Hhop].
Qed.

Lemma store_cookies_headers (r : response) (c : FanController) :
  headers (store_cookies r c) = headers c.
Proof. apply store_cookies_frame. Qed.

Lemma store_history_headers (via : list redirect) (c : FanController) :
  headers (store_history via c) = headers c.
Proof. apply store_history_frame. Qed.

Ltac always_step :=
  first
    [ apply al_then; [|intro]
    | apply al_try; [|intro]
    | apply al_ret | apply al_raise | apply al_lift | apply al_get_self
    | apply al_raise_for_status | apply al_response_json
    | apply al_log; exact I
    | match goal with
      | |- always _ _ (match ?x with _ => _ end) => destruct x
      end ].

(** ** The order of the calls in a host's turn *)

(** The calls of [login], whatever happens: the GET of the random tag
    alone, or that GET answered and then the POST of the credentials. *)
Lemma login_calls_shape (self : FanController) (net : list http_result) :
  (exists q1 res1,
      calls (trace_of (login self net)) = [(q1, res1)]
      /\ (rq_method q1, rq_path q1) = (GET, ApiRandomTag)
      /\ outcome (login self net) <> Ok tt)
  \/ (exists q1 r1 q2 res2,
        calls (trace_of (login self net)) = [(q1, Reply r1); (q2, res2)]
        /\ (rq_method q1, rq_path q1) = (GET, ApiRandomTag)
        /\ (rq_method q2, rq_path q2) = (POST, ApiSession)
        /\ (outcome (login self net) = Ok tt -> exists r2, res2 = Reply r2)).
Proof.
  unfold login, get_random, outcome, trace_of. run_monad.
  destruct net as [|[via1|r1] [|[via2|r2] rest]];
    cbn -[scan_cookies PyStr.split header_get store_cookies store_history
          resolve_redirects];
    repeat (break_match;
            cbn -[scan_cookies PyStr.split header_get store_cookies
                  store_history resolve_redirects]);
    first
      [ left; do 2 eexists; split; [trace_calls; reflexivity|];
        split; [reflexivity|]; discriminate
      | right; do 4 eexists; split; [trace_calls; reflexivity|];
        split; [reflexivity|];
        split; [reflexivity|]; intros H;
        first [discriminate H | eexists; reflexivity] ].
Qed.

Lemma login_ok_has_session (self : FanController) (net : list http_result) :
  outcome (login self net) = Ok tt ->
  has_session (headers (state_of (login self net))).
Proof.
  intros Hok.
  destruct (login_ok_conditions self net Hok)
    as (r1 & d1 & v & r2 & rest & sc & sid & d2 & token & -> & H).
  destruct H as (Hs1 & Hj1 & Hd1 & Hs2 & Hh2 & Hscan & Hsid & Hj2 & Hd2).
  destruct (login_ok_run self r1 r2 rest d1 d2 v token sc sid
              Hs1 Hj1 Hd1 Hs2 Hh2 Hscan Hsid Hj2 Hd2) as (_ & _ & Hh & _).
  rewrite Hh. split.
  - rewrite (assoc_dict_set_other "content-type" "X-Csrftoken" _ _ eq_refl).
    rewrite (assoc_dict_set_other "Cookie" "X-Csrftoken" _ _ eq_refl).
    rewrite assoc_dict_set_same. discriminate.
  - rewrite (assoc_dict_set_other "content-type" "Cookie" _ _ eq_refl).
    rewrite assoc_dict_set_same. discriminate.
Qed.

Section InSession.

Let P := operation_in_session.
Let Inv := fun c : FanController => has_session (headers c).

Lemma al_operation (m : method) (p : path) (b : body) :
  is_operation p = true -> always P Inv (session_request m p b).
Proof.
  intros Hp. apply al_session_request.
  - intros s res Hs. split; [exact Hp|exact Hs].
  - intros h. exact I.
  - intros s r Hs. unfold Inv. rewrite store_cookies_headers. exact Hs.
  - intros s via Hs. unfold Inv. rewrite store_history_headers. exact Hs.
Qed.

Lemma set_fan_mode_in_session (mode : string) : always P Inv (set_fan_mode mode).
Proof.
  unfold set_fan_mode.
  repeat first [apply al_operation; reflexivity | always_step].
Qed.

Lemma set_one_fan_in_session (speed : pyval) (i n : Z) :
  always P Inv (set_one_fan speed i n).
Proof.
  unfold set_one_fan.
  repeat first [apply al_operation; reflexivity | always_step].
Qed.

Lemma fan_loop_in_session (speed : pyval) (indices : list Z) :
  forall n, always P Inv (fan_loop speed indices n).
Proof.
  induction indices as [|i rest IH]; intros n; cbn [fan_loop].
  - apply al_ret.
  - apply al_then; [apply set_one_fan_in_session|intro; apply IH].
Qed.

Lemma set_fan_speed_in_session (speed : pyval) :
  always P Inv (set_fan_speed speed).
Proof.
  unfold set_fan_speed.
  repeat first [apply fan_loop_in_session | always_step].
Qed.

Lemma log_fans_in_session (fans : list pyval) : always P Inv (log_fans fans).
Proof.
  induction fans as [|f rest IH]; cbn [log_fans].
  - apply al_ret.
  - apply al_then; [apply al_log; exact I|intro; exact IH].
Qed.

Lemma get_fan_status_in_session : always P Inv get_fan_status.
Proof.
  unfold get_fan_status.
  repeat first [apply al_operation; reflexivity | apply log_fans_in_session
               | always_step].
Qed.

End InSession.

Lemma Forall_calls (P : event -> Prop) (t : list event) :
  Forall P t -> Forall (fun c => P (ERequest (fst c) (snd c))) (calls t).
Proof.
  induction 1 as [|e t He _ IH]; cbn; [constructor|].
  destruct e; try exact IH. constructor; [exact He|exact IH].
Qed.

Lemma new_FanController_quiet {St : Type} (config : pyval) (s : St)
    (net : list http_result) :
  trace_of (new_FanController config s net) = [].
Proof.
  unfold new_FanController, bind, lift, ret, trace_of.
  destruct (py_getitem config "bmc_host"); [|reflexivity].
  destruct (py_getitem config "username"); [|reflexivity].
  destruct (py_getitem config "password"); [|reflexivity].
  destruct (py_getitem config "fans_count"); reflexivity.
Qed.

(** X11.  In every turn of a host, whatever the configuration, the
    target and the network: the first call is the GET of the random
    tag; the POST of the credentials comes second and only if the GET
    was answered; calls that set the mode, set a fan or read the
    status come only after the POST was answered, and each carries the
    [X-Csrftoken] and [Cookie] headers. *)
Theorem every_turn_logs_in_first {St : Type} (target config : pyval) (s : St)
    (net : list http_result) :
  handshake_first (calls (trace_of (process_host target config s net))).
Proof.
  unfold process_host.
  set (ops := fun _ : unit =>
         ((if is_str "auto" target then
             set_fan_mode "auto" ;;
             h <- lift (py_getitem config "bmc_host") ;;
             log INFO (MsgHostAuto h)
           else
             has_speed <- lift (py_in "fan_speed" config) ;;
             current_speed <- (if has_speed
                               then lift (py_getitem config "fan_speed")
                               else ret target) ;;
             set_fan_mode "manual" ;;
             success_count <- set_fan_speed current_speed ;;
             n <- lift (py_getitem config "fans_count") ;;
             h <- lift (py_getitem config "bmc_host") ;;
             if py_eq_int n success_count
             then log INFO (MsgAllFansSet h success_count n)
             else log WARNING (MsgSomeFansFailed h success_count n)) ;;
          get_fan_status) : M FanController unit).
  change (handshake_first
            (calls (trace_of
               ((controller <- new_FanController config ;;
                 on_object controller (login ;; ops tt)) s net)))).
  assert (Hops : always operation_in_session
                   (fun c : FanController => has_session (headers c)) (ops tt)).
  { unfold ops.
    repeat first [apply set_fan_mode_in_session | apply set_fan_speed_in_session
                 | apply get_fan_status_in_session | always_step]. }
  unfold bind at 1.
  pose proof (new_FanController_quiet config s net) as Ht1.
  unfold trace_of in Ht1.
  destruct (new_FanController config s net) as [[[[c|e] s1] net1] t1];
    cbn in Ht1; subst t1; [|exact I].
  unfold on_object, bind, trace_of.
  pose proof (login_calls_shape c net1) as Hshape.
  pose proof (login_ok_has_session c net1) as Hsess.
  unfold outcome, trace_of, state_of in Hshape, Hsess.
  destruct (login c net1) as [[[[[]|e] c2] net2] t2]; cbn in *.
  - specialize (Hops c2 net2 (Hsess eq_refl)). unfold trace_of in Hops.
    destruct (ops tt c2 net2) as [[[r3 c3] net3] t3]; cbn in *.
    rewrite calls_app.
    destruct Hshape as [(q1 & res1 & _ & _ & Hne)|(q1 & r1 & q2 & res2 & -> & H1 & H2 & Hr)];
      [exfalso; apply Hne; reflexivity|].
    cbn. split; [exact H1|]. split; [exact H2|]. split; [eexists; reflexivity|].
    right. split; [apply Hr; reflexivity|].
    exact (Forall_calls operation_in_session t3 (proj1 Hops)).
  - destruct Hshape as [(q1 & res1 & -> & H1 & _)|(q1 & r1 & q2 & res2 & -> & H1 & H2 & _)];
      cbn.
    + split; [exact H1|exact I].
    + split; [exact H1|]. split; [exact H2|]. split; [eexists; reflexivity|].
      left. reflexivity.
Qed.

(** ** Which events a host's turn can produce *)

Lemma al_modify {St : Type} (P : event -> Prop) (f : St -> St) :
  always P any_state (modify f).
Proof. intros s net _. split; [constructor|exact I]. Qed.

Lemma al_bind_lift {St A B : Type} (P : event -> Prop) (I : St -> Prop)
    (r : result A) (k : A -> M St B) :
  (forall a, r = Ok a -> always P I (k a)) -> always P I (bind (lift r) k).
Proof.
  intros H s net Hs. unfold bind, lift, trace_of, state_of.
  destruct r as [a|e]; cbn.
  - specialize (H a eq_refl s net Hs). unfold trace_of, state_of in H.
    destruct (k a s net) as [[[r s2] net2] t2]. exact H.
  - split; [constructor|exact Hs].
Qed.

Lemma al_bind_ret {St A B : Type} (P : event -> Prop) (I : St -> Prop)
    (a : A) (k : A -> M St B) :
  always P I (k a) -> always P I (bind (ret a) k).
Proof.
  intros H s net Hs. unfold bind, ret, trace_of, state_of.
  specialize (H s net Hs). unfold trace_of, state_of in H.
  destruct (k a s net) as [[[r s2] net2] t2]. exact H.
Qed.

Lemma always_weaken {St A : Type} (P P' : event -> Prop) (I : St -> Prop)
    (m : M St A) :
  (forall e, P e -> P' e) -> always P I m -> always P' I m.
Proof.
  intros Hw Hm s net Hs. destruct (Hm s net Hs) as [H1 H2].
  split; [|exact H2]. eapply Forall_impl; [exact Hw|exact H1].
Qed.

Section Events.

(** [P] holds of every log line and of every call that is not a
    per-fan PUT. *)
Variable P : event -> Prop.
Hypothesis Hlog : forall lvl m, P (ELog lvl m).
Hypothesis Hreq : forall rq res, sent_duty (rq, res) = None -> P (ERequest rq res).
Hypothesis Hhop : forall h, P (EHop h).

Ltac events_step :=
  first
    [ apply al_then; [|intro]
    | apply al_try; [|intro]
    | apply al_ret | apply al_raise | apply al_lift | apply al_get_self
    | apply al_modify
    | apply al_raise_for_status | apply al_response_json
    | apply al_log; apply Hlog
    | apply al_session_request;
      [intros ? ? _; apply Hreq; reflexivity|exact Hhop
      |intros; exact I|intros; exact I]
    | match goal with
      | |- always _ _ (match ?x with _ => _ end) => destruct x
      | |- always _ _ (let _ := _ in _) => cbv zeta
      end ].

Lemma get_random_events : always P any_state get_random.
Proof. unfold get_random. repeat events_step. Qed.

Lemma login_events : always P any_state login.
Proof.
  unfold login, set_header.
  repeat first [apply get_random_events | events_step].
Qed.

Lemma set_fan_mode_events (mode : string) : always P any_state (set_fan_mode mode).
Proof. unfold set_fan_mode. repeat events_step. Qed.

Lemma log_fans_events {St : Type} (fans : list pyval) :
  always P (@any_state St) (log_fans fans).
Proof.
  induction fans as [|f rest IH]; cbn [log_fans].
  - apply al_ret.
  - apply al_then; [apply al_log, Hlog|intro; exact IH].
Qed.

Lemma get_fan_status_events : always P any_state get_fan_status.
Proof.
  unfold get_fan_status.
  repeat first [apply log_fans_events | events_step].
Qed.

Lemma new_FanController_events {St : Type} (config : pyval) :
  always P (@any_state St) (new_FanController config).
Proof. unfold new_FanController. repeat events_step. Qed.

Section Speed.

(** ... and of the per-fan PUT of [speed]. *)
Variable speed : pyval.
Hypothesis Hfan :
  forall rq res, sent_duty (rq, res) = Some speed -> P (ERequest rq res).

Lemma set_one_fan_events (i n : Z) : always P any_state (set_one_fan speed i n).
Proof.
  unfold set_one_fan.
  apply al_try; [|intro; repeat events_step].
  apply al_then; [|intro; repeat events_step].
  apply al_session_request; [|exact Hhop|intros; exact I|intros; exact I].
  intros s res _. apply Hfan. reflexivity.
Qed.

Lemma fan_loop_events (indices : list Z) :
  forall n, always P any_state (fan_loop speed indices n).
Proof.
  induction indices as [|i rest IH]; intros n; cbn [fan_loop].
  - apply al_ret.
  - apply al_then; [apply set_one_fan_events|intro; apply IH].
Qed.

Lemma set_fan_speed_events : always P any_state (set_fan_speed speed).
Proof.
  unfold set_fan_speed.
  repeat first [apply fan_loop_events | events_step].
Qed.

End Speed.

(** A turn with the target ["auto"]. *)
Lemma process_host_events_auto {St : Type} (target config : pyval) :
  is_str "auto" target = true ->
  always P (@any_state St) (process_host target config).
Proof.
  intros Hauto. unfold process_host. rewrite Hauto.
  apply al_then; [apply new_FanController_events|intro c].
  apply (al_on_object P any_state any_state); [exact I|].
  repeat first [apply login_events | apply set_fan_mode_events
               | apply get_fan_status_events | events_step].
Qed.

(** A turn with another target. *)
Lemma process_host_events_manual {St : Type} (target config : pyval) :
  is_str "auto" target = false ->
  (forall x rq res,
      duty_of_host target config x -> sent_duty (rq, res) = Some x ->
      P (ERequest rq res)) ->
  always P (@any_state St) (process_host target config).
Proof.
  intros Hauto Hduty. unfold process_host. rewrite Hauto.
  apply al_then; [apply new_FanController_events|intro c].
  apply (al_on_object P any_state any_state); [exact I|].
  apply al_then; [apply login_events|intros _].
  apply al_then; [|intros _; apply get_fan_status_events].
  apply al_bind_lift. intros has_speed Hin.
  assert (Hrest : forall v, duty_of_host target config v ->
            always P any_state
              (set_fan_mode "manual" ;;
               success_count <- set_fan_speed v ;;
               n <- lift (py_getitem config "fans_count") ;;
               h <- lift (py_getitem config "bmc_host") ;;
               if py_eq_int n success_count
               then log INFO (MsgAllFansSet h success_count n)
               else log WARNING (MsgSomeFansFailed h success_count n))).
  { intros v Hv.
    apply al_then; [apply set_fan_mode_events|intros _].
    apply al_then; [apply set_fan_speed_events; intros rq res; apply Hduty, Hv|].
    intro. repeat events_step. }
  destruct has_speed.
  - apply al_bind_lift. intros v Hv. apply Hrest. left. split; assumption.
  - apply al_bind_ret. apply Hrest. right. split; [assumption|reflexivity].
Qed.

End Events.

Lemma run_configs_events {St : Type} (P : event -> Prop)
    (Hlog : forall lvl m, P (ELog lvl m))
    (Hreq : forall rq res, sent_duty (rq, res) = None -> P (ERequest rq res))
    (Hhop : forall h, P (EHop h))
    (target : pyval) (total : Z) (configs : list pyval) :
  (is_str "auto" target = true
   \/ forall config x rq res,
        In config configs -> duty_of_host target config x ->
        sent_duty (rq, res) = Some x -> P (ERequest rq res)) ->
  forall i, always P (@any_state St) (run_configs target total i configs).
Proof.
  induction configs as [|config rest IH]; intros H i; cbn [run_configs].
  - apply al_ret.
  - apply al_then.
    + unfold run_config.
      apply al_then; [apply al_lift|intro].
      apply al_then; [apply al_log, Hlog|intro].
      apply al_try; [|intro; apply al_log, Hlog].
      destruct (is_str "auto" target) eqn:Hauto.
      * apply (process_host_events_auto P Hlog Hreq Hhop); exact Hauto.
      * apply (process_host_events_manual P Hlog Hreq Hhop); [exact Hauto|].
        destruct H as [H|H]; [discriminate H|].
        intros x rq res. apply H. left. reflexivity.
    + intro. apply IH.
      destruct H as [H|H]; [left; exact H|right].
      intros c x rq res Hin. apply H. right. exact Hin.
Qed.

Lemma Forall_duties (Q : pyval -> Prop) (t : list event) :
  Forall (duty_is Q) t -> Forall Q (fan_duties t).
Proof.
  unfold fan_duties.
  induction 1 as [|e t He _ IH]; cbn; [constructor|].
  destruct e as [d res|rq res|h|lvl m]; try exact IH.
  cbn [calls flat_map]. apply Forall_app. split; [|exact IH].
  cbn in He. destruct (sent_duty (rq, res)) as [x|]; [|constructor].
  constructor; [apply He; reflexivity|constructor].
Qed.

Lemma duty_is_log (Q : pyval -> Prop) (lvl : level) (m : logmsg) :
  duty_is Q (ELog lvl m).
Proof. exact I. Qed.

Lemma duty_is_other (Q : pyval -> Prop) (rq : request) (res : http_result) :
  sent_duty (rq, res) = None -> duty_is Q (ERequest rq res).
Proof. intros H x Hx. congruence. Qed.

Lemma duty_is_hop (Q : pyval -> Prop) (h : hop) : duty_is Q (EHop h).
Proof. exact I. Qed.

(** X12.  Which duties a host's turn sends.  With the target ["auto"]
    no per-fan PUT is made at all.  With any other target, every duty
    sent in the turn is the host's own [fan_speed] when its
    configuration has one, and the target otherwise: the host's value
    takes precedence over the resolved target. *)
Theorem duties_follow_the_configuration {St : Type} (target config : pyval)
    (s : St) (net : list http_result) :
  (is_str "auto" target = true ->
   fan_duties (trace_of (process_host target config s net)) = [])
  /\ (is_str "auto" target = false ->
      Forall (duty_of_host target config)
             (fan_duties (trace_of (process_host target config s net)))).
Proof.
  split; intros Hauto.
  - pose proof (process_host_events_auto (duty_is (fun _ => False))
                  (duty_is_log _) (duty_is_other _) (duty_is_hop _)
                  target config Hauto s net I) as [H _].
    apply Forall_duties in H.
    destruct (fan_duties (trace_of (process_host target config s net)))
      as [|x l]; [reflexivity|].
    inversion H as [|? ? Hx _]. contradiction.
  - assert (Hd : forall x rq res,
               duty_of_host target config x -> sent_duty (rq, res) = Some x ->
               duty_is (duty_of_host target config) (ERequest rq res)).
    { intros x rq res Hx Hs y Hy. rewrite Hs in Hy. injection Hy as <-. exact Hx. }
    pose proof (process_host_events_manual (duty_is (duty_of_host target config))
                  (duty_is_log _) (duty_is_other _) (duty_is_hop _)
                  target config Hauto Hd s net I) as [H _].
    apply Forall_duties, H.
Qed.

Example host_speed_overrides_the_argument :
  fan_duties (trace_of (process_host (PInt 55) (demo_config_speed "10.0.0.1" 2 40) tt
                          [random_reply; login_reply "QSESSIONID=abc" "tok";
                           reply_json 200 PNone; duty_echo 200 40; Failed;
                           fans_reply]))
  = [PInt 40; PInt 40].
Proof. reflexivity. Qed.

Lemma quiet_duties (Q : pyval -> Prop) (t : list event) :
  calls t = [] -> Forall (duty_is Q) t.
Proof.
  induction t as [|e t IH]; intros H; [constructor|].
  destruct e; cbn in H; try discriminate H;
    (constructor; [exact I|apply IH, H]).
Qed.

Lemma own_speed_absent (target config x : pyval) :
  (forall d, config = PDict d -> assoc "fan_speed" d = None) ->
  duty_of_host target config x -> x = target.
Proof.
  intros Hnone [[Hin Hget]|[_ ->]]; [|reflexivity].
  destruct config; try discriminate Hget.
  cbn in Hget. rewrite (Hnone d eq_refl) in Hget. discriminate Hget.
Qed.

(** X13.  When the run is given an integer argument in 0..100 and no
    configuration object has a [fan_speed] of its own, every duty sent
    during the whole run, to every host, is that integer: on this
    path the value that reaches the fans is the one that was checked. *)
Theorem checked_argument_is_the_duty
    (env : environment) (net : list http_result)
    (prog arg : string) (rest : list string) (n : Z) (configs : list pyval) :
  argv env = prog :: arg :: rest ->
  PyStr.int arg = Some n -> 0 <= n <= 100 ->
  outcome (load_config (config_file env) tt []) = Ok configs ->
  (forall d, In (PDict d) configs -> assoc "fan_speed" d = None) ->
  Forall (fun x => x = PInt n /\ 0 <= n <= 100)
         (fan_duties (snd (run_script env net))).
Proof.
  intros Hargv Hint Hn Hload Hnone.
  apply (Forall_duties (fun x => x = PInt n /\ 0 <= n <= 100)).
  set (Q := fun x => x = PInt n /\ 0 <= n <= 100).
  destruct (main_run env net (loaded_can_stat _ _ _ _ Hload))
    as (b & t1 & configs' & t2 & E1 & C1 & E2 & C2 & E).
  rewrite (load_config_outcome _ tt tt [] (tl net)), E2 in Hload. cbn in Hload.
  injection Hload as ->.
  assert (Et : resolve_target env configs b tt (tl net)
               = (Ok (PInt n), tt, tl net, [])).
  { unfold resolve_target. rewrite Hargv.
    rewrite (bind_ok _ _ _ _ _ _ _ _
               (get_fan_speed_input_accepts prog arg rest n tt (tl net) Hint Hn)).
    reflexivity. }
  assert (Hk : always (duty_is Q) (@any_state unit)
                 (run_configs (PInt n) (Z.of_nat (List.length configs)) 0 configs ;;
                  log INFO MsgAllDone)).
  { apply al_then; [|intro; apply al_log; exact I].
    apply (run_configs_events (duty_is Q) (duty_is_log Q) (duty_is_other Q)
             (duty_is_hop Q)).
    right. intros config x rq res Hin Hx Hs y Hy.
    rewrite Hs in Hy. injection Hy as <-.
    split; [|exact Hn].
    apply (own_speed_absent (PInt n) config x); [|exact Hx].
    intros d ->. apply Hnone, Hin. }
  specialize (Hk tt (tl net) I). destruct Hk as [Hk _].
  unfold run_script. rewrite E.
  rewrite (bind_ok _ _ _ _ _ _ _ _ Et). unfold outcome, trace_of in *.
  destruct ((run_configs (PInt n) (Z.of_nat (List.length configs)) 0 configs ;;
             log INFO MsgAllDone) tt (tl net)) as [[[[u|[e|c]] s] n'] t];
    cbn in *;
    (constructor; [exact I|]);
    repeat (apply Forall_app; split);
    try (apply quiet_duties; assumption);
    try exact Hk;
    repeat constructor.
Qed.

Lemma checked_argument_is_the_duty_witness :
  argv two_hosts_env = "fanSpeed.py" :: "55" :: []
  /\ PyStr.int "55" = Some 55 /\ 0 <= 55 <= 100
  /\ outcome (load_config (config_file two_hosts_env) tt []) = Ok two_hosts
  /\ (forall d, In (PDict d) two_hosts -> assoc "fan_speed" d = None)
  /\ Forall (fun x => x = PInt 55 /\ 0 <= 55 <= 100)
            (fan_duties (snd (run_script two_hosts_env first_host_down)))
  /\ fan_duties (snd (run_script two_hosts_env first_host_down)) = [PInt 55].
Proof.
  assert (Hn : 0 <= 55 <= 100) by lia.
  assert (Hd : forall d, In (PDict d) two_hosts -> assoc "fan_speed" d = None).
  { intros d [H|[H|[]]]; injection H as <-; reflexivity. }
  split; [reflexivity|]. split; [reflexivity|]. split; [exact Hn|].
  split; [reflexivity|]. split; [exact Hd|]. split; [|reflexivity].
  exact (checked_argument_is_the_duty two_hosts_env first_host_down
           "fanSpeed.py" "55" [] 55 two_hosts eq_refl eq_refl Hn eq_refl Hd).
Defined.

(** ** The holiday query *)

Ltac quiet_trace :=
  repeat first
    [ apply Forall_nil
    | apply Forall_cons; [exact I|]
    | apply al_redirects; intros; exact I
    | apply Forall_app; split ].

Lemma is_chinese_holiday_trace {St : Type} (d : date) (s : St)
    (net : list http_result) :
  exists t,
    trace_of (is_chinese_holiday d s net) = EHoliday d (hd Failed net) :: t
    /\ Forall not_holiday_query t.
Proof.
  unfold is_chinese_holiday, trace_of. run_monad.
  destruct net as [|[via|r] net]; cbn -[existsb holidays resolve_redirects];
    repeat (break_match; cbn -[existsb holidays resolve_redirects]);
    eexists; (split; [reflexivity|]); quiet_trace.
Qed.

(** X14.  Every run, whatever its arguments, starts by logging that it
    checks the holiday and by querying the holiday API once, consuming
    the first network result; no other holiday query is made
    afterwards, even when an explicit target makes the answer useless. *)
Theorem holiday_is_asked_once (env : environment) (net : list http_result) :
  exists t,
    snd (run_script env net)
    = ELog INFO MsgCheckingHoliday :: EHoliday (today env) (hd Failed net) :: t
    /\ Forall not_holiday_query t.
Proof.
  destruct (is_chinese_holiday_trace (today env) tt net) as (t1' & Ht1 & Hq1).
  destruct (stat_error_dec (config_file env)) as [Hstat|Hstat].
  { destruct (main_stat_error env net Hstat) as (b & t1 & E1 & _ & E).
    rewrite E1 in Ht1. cbn in Ht1. subst t1.
    unfold run_script. rewrite E. cbn [snd app].
    eexists. split; [reflexivity|].
    apply Forall_app. split; [exact Hq1|repeat constructor]. }
  destruct (main_run env net Hstat)
    as (b & t1 & configs & t2 & E1 & _ & E2 & _ & E).
  rewrite E1 in Ht1. cbn in Ht1. subst t1.
  assert (Hq2 : Forall not_holiday_query t2).
  { revert E2. destruct (config_file env) as [| |e|[]]; cbn;
      intros [= <- <-]; repeat constructor. }
  assert (Hk : always not_holiday_query (@any_state unit)
                 (target <- resolve_target env configs b ;;
                  run_configs target (Z.of_nat (List.length configs)) 0 configs ;;
                  log INFO MsgAllDone)).
  { apply al_then.
    - unfold resolve_target, get_fan_speed_input. repeat always_step.
    - intro target. apply al_then; [|intro; apply al_log; exact I].
      destruct (is_str "auto" target) eqn:Hauto;
        apply (run_configs_events not_holiday_query
                 (fun _ _ => I) (fun _ _ _ => I) (fun _ => I)).
      + left. exact Hauto.
      + right. intros. exact I. }
  specialize (Hk tt (tl net) I). destruct Hk as [Hk _].
  unfold run_script. rewrite E. unfold trace_of in Hk.
  destruct ((target <- resolve_target env configs b ;;
             run_configs target (Z.of_nat (List.length configs)) 0 configs ;;
             log INFO MsgAllDone) tt (tl net)) as [[[[u|[e|c]] s] n'] t];
    cbn in *; eexists; (split; [reflexivity|]);
    repeat (apply Forall_app; split); try assumption; repeat constructor.
Qed.

(** ** A [fans_count] that is not an integer *)

Lemma login_ok_calls (self : FanController) (r1 r2 : response)
    (rest : list http_result) (d1 d2 : list (string * pyval))
    (v token : pyval) (sc sid : string) :
  ~ (400 <= status_code r1 < 600) ->
  resp_json r1 = Some (PDict d1) -> assoc "random" d1 = Some v ->
  ~ (400 <= status_code r2 < 600) ->
  header_get "Set-Cookie" (resp_headers r2) = Some sc ->
  scan_cookies (PyStr.split ";" sc) = Some sid -> sid <> "" ->
  resp_json r2 = Some (PDict d2) -> assoc "CSRFToken" d2 = Some token ->
  map call_outline (calls (trace_of (login self (Reply r1 :: Reply r2 :: rest))))
  = [(GET, ApiRandomTag, Reply r1); (POST, ApiSession, Reply r2)].
Proof.
  intros Hs1 Hj1 Hd1 Hs2 Hh2 Hscan Hsid Hj2 Hd2.
  apply status_not_error in Hs1. apply status_not_error in Hs2.
  assert (Hne : PyStr.is_empty sid = false).
  { destruct sid; [exfalso; apply Hsid; reflexivity|reflexivity]. }
  unfold login, get_random, trace_of. run_monad.
  cbn -[scan_cookies PyStr.split header_get store_cookies resolve_redirects].
  rewrite Hs1, Hj1.
  cbn -[scan_cookies PyStr.split header_get store_cookies resolve_redirects].
  rewrite Hd1.
  cbn -[scan_cookies PyStr.split header_get store_cookies resolve_redirects].
  rewrite Hs2, Hh2, Hscan, Hne, Hj2.
  cbn -[scan_cookies PyStr.split header_get store_cookies resolve_redirects].
  rewrite Hd2.
  cbn -[scan_cookies PyStr.split header_get store_cookies resolve_redirects].
  trace_calls. reflexivity.
Qed.

Lemma set_fan_speed_rejects (speed : pyval) (self : FanController)
    (net : list http_result) :
  is_count (fans_count self) = false ->
  set_fan_speed speed self net = (Raise (Exc TypeError), self, net, []).
Proof.
  intros H. unfold set_fan_speed, bind, get_self, lift.
  destruct (fans_count self); try discriminate H; reflexivity.
Qed.

Lemma set_fan_mode_ok (mode : string) (self : FanController) (r : response)
    (rest : list http_result) :
  ~ (400 <= status_code r < 600) ->
  exists t,
    set_fan_mode mode self (Reply r :: rest)
    = (Ok tt, store_cookies r self, rest, t)
    /\ calls t
       = [(mkRequest PUT (host self) ApiFansMode (headers self) (session self)
             (JsonBody (PDict [("control_mode", PStr mode)])), Reply r)].
Proof.
  intros Hs. apply status_not_error in Hs.
  unfold set_fan_mode. run_monad. cbn -[resolve_redirects]. rewrite Hs.
  eexists. split; [reflexivity|]. trace_calls. reflexivity.
Qed.

(** X15.  [fans_count] has to be an integer.  For a host whose
    configuration gives anything else (a string such as ["4"], a float,
    null, ...), with a target other than ["auto"], after a login that
    succeeds: the turn switches the host to manual mode, then
    [range(fans_count)] raises [TypeError] before any per-fan PUT, and
    the turn fails without reading the status.  The host is left in
    manual mode with no duty set. *)
Theorem non_integer_fans_count_leaves_manual_mode
    (target : pyval) (d : list (string * pyval)) (h u p n : pyval)
    (r1 r2 r3 : response) (rest : list http_result)
    (d1 d2 : list (string * pyval)) (v token : pyval) (sc sid : string) :
  is_str "auto" target = false ->
  assoc "bmc_host" d = Some h -> assoc "username" d = Some u ->
  assoc "password" d = Some p -> assoc "fans_count" d = Some n ->
  is_count n = false ->
  ~ (400 <= status_code r1 < 600) ->
  resp_json r1 = Some (PDict d1) -> assoc "random" d1 = Some v ->
  ~ (400 <= status_code r2 < 600) ->
  header_get "Set-Cookie" (resp_headers r2) = Some sc ->
  scan_cookies (PyStr.split ";" sc) = Some sid -> sid <> "" ->
  resp_json r2 = Some (PDict d2) -> assoc "CSRFToken" d2 = Some token ->
  ~ (400 <= status_code r3 < 600) ->
  let run := process_host target (PDict d) tt
               (Reply r1 :: Reply r2 :: Reply r3 :: rest) in
  outcome run = Raise (Exc TypeError)
  /\ map call_outline (calls (trace_of run))
     = [(GET, ApiRandomTag, Reply r1); (POST, ApiSession, Reply r2);
        (PUT, ApiFansMode, Reply r3)]
  /\ map (fun c => rq_body (fst c)) (skipn 2 (calls (trace_of run)))
     = [JsonBody (PDict [("control_mode", PStr "manual")])]
  /\ net_of run = rest.
Proof.
  intros Hauto Hh Hu Hp Hn Hcount Hs1 Hj1 Hd1 Hs2 Hh2 Hscan Hsid Hj2 Hd2 Hs3 run.
  set (c := mkFanController h u p n [] initial_headers).
  destruct (login_ok_run c r1 r2 (Reply r3 :: rest) d1 d2 v token sc sid
              Hs1 Hj1 Hd1 Hs2 Hh2 Hscan Hsid Hj2 Hd2)
    as (Lo & Ln & _ & _ & Lf).
  pose proof (login_ok_calls c r1 r2 (Reply r3 :: rest) d1 d2 v token sc sid
                Hs1 Hj1 Hd1 Hs2 Hh2 Hscan Hsid Hj2 Hd2) as Lc.
  unfold outcome, net_of, state_of, trace_of in Lo, Ln, Lf, Lc.
  destruct (login c (Reply r1 :: Reply r2 :: Reply r3 :: rest))
    as [[[lr c1] ln] lt] eqn:El.
  cbn in Lo, Ln, Lf, Lc. subst lr ln.
  assert (Hc3 : is_count (fans_count (store_cookies r3 c1)) = false).
  { destruct (store_cookies_frame r3 c1) as (_ & _ & _ & -> & _).
    rewrite Lf. exact Hcount. }
  assert (Ec : new_FanController (PDict d) tt
                 (Reply r1 :: Reply r2 :: Reply r3 :: rest)
               = (Ok c, tt, Reply r1 :: Reply r2 :: Reply r3 :: rest, [])).
  { unfold new_FanController, bind, lift, ret, py_getitem.
    rewrite Hh, Hu, Hp, Hn. reflexivity. }
  destruct (set_fan_mode_ok "manual" c1 r3 rest Hs3) as (tm & Em & Cm).
  assert (Ek : ((if is_str "auto" target then
                   set_fan_mode "auto" ;;
                   h <- lift (py_getitem (PDict d) "bmc_host") ;;
                   log INFO (MsgHostAuto h)
                 else
                   has_speed <- lift (py_in "fan_speed" (PDict d)) ;;
                   current_speed <- (if has_speed
                                     then lift (py_getitem (PDict d) "fan_speed")
                                     else ret target) ;;
                   set_fan_mode "manual" ;;
                   success_count <- set_fan_speed current_speed ;;
                   n <- lift (py_getitem (PDict d) "fans_count") ;;
                   h <- lift (py_getitem (PDict d) "bmc_host") ;;
                   if py_eq_int n success_count
                   then log INFO (MsgAllFansSet h success_count n)
                   else log WARNING (MsgSomeFansFailed h success_count n)) ;;
                get_fan_status) c1 (Reply r3 :: rest)
               = (Raise (Exc TypeError), store_cookies r3 c1, rest, tm ++ [])).
  { rewrite Hauto. apply bind_raise.
    unfold bind at 1. unfold lift at 1. cbn [py_in].
    destruct (assoc "fan_speed" d) as [x|] eqn:Hx.
    - unfold bind at 1. unfold lift at 1. cbn [py_getitem]. rewrite Hx.
      unfold bind at 1. rewrite Em.
      unfold bind at 1. rewrite (set_fan_speed_rejects _ _ rest Hc3).
      reflexivity.
    - unfold bind at 1. unfold ret at 1.
      unfold bind at 1. rewrite Em.
      unfold bind at 1. rewrite (set_fan_speed_rejects _ _ rest Hc3).
      reflexivity. }
  assert (Erun : exists t3,
             run = (Raise (Exc TypeError), tt, rest, lt ++ tm ++ t3)
             /\ calls t3 = []).
  { exists []. split; [|reflexivity].
    subst run. unfold process_host.
    rewrite (bind_ok _ _ _ _ _ _ _ _ Ec).
    unfold on_object.
    rewrite (bind_ok _ _ _ _ _ _ _ _ El), Ek.
    cbn. rewrite ?app_nil_r. reflexivity. }
  destruct Erun as (t3 & -> & Ht3).
  unfold outcome, net_of, trace_of. cbn [fst snd].
  rewrite !calls_app, Ht3, Cm, app_nil_r.
  destruct (calls lt) as [|k1 [|k2 [|k3 l]]]; try discriminate Lc.
  cbn [map] in Lc.
  assert (L1 : call_outline k1 = (GET, ApiRandomTag, Reply r1)) by congruence.
  assert (L2 : call_outline k2 = (POST, ApiSession, Reply r2)) by congruence.
  cbn [app map skipn]. rewrite L1, L2.
  repeat split.
Qed.

Lemma non_integer_fans_count_leaves_manual_mode_witness :
  let d := [("bmc_host", PStr "10.0.0.1"); ("username", PStr "admin");
            ("password", PStr "secret"); ("fans_count", PStr "4")] in
  let r1 := mkResponse 200 [] (Some (PDict [("random", PStr "r4nd0m")])) in
  let r2 := mkResponse 200 [("Set-Cookie", "QSESSIONID=abc")]
              (Some (PDict [("CSRFToken", PStr "tok")])) in
  let r3 := mkResponse 200 [] (Some PNone) in
  let run := process_host (PInt 55) (PDict d) tt
               (Reply r1 :: Reply r2 :: Reply r3 :: [duty_echo 200 55]) in
  (is_str "auto" (PInt 55) = false /\ is_count (PStr "4") = false
   /\ ~ (400 <= 200 < 600) /\ "abc" <> "")
  /\ outcome run = Raise (Exc TypeError)
  /\ map call_outline (calls (trace_of run))
     = [(GET, ApiRandomTag, Reply r1); (POST, ApiSession, Reply r2);
        (PUT, ApiFansMode, Reply r3)]
  /\ map (fun c => rq_body (fst c)) (skipn 2 (calls (trace_of run)))
     = [JsonBody (PDict [("control_mode", PStr "manual")])]
  /\ net_of run = [duty_echo 200 55].
Proof.
  assert (Hs : ~ (400 <= 200 < 600)) by lia.
  assert (Hn : "abc" <> "") by discriminate.
  split; [repeat split; assumption|].
  exact (non_integer_fans_count_leaves_manual_mode
           (PInt 55)
           [("bmc_host", PStr "10.0.0.1"); ("username", PStr "admin");
            ("password", PStr "secret"); ("fans_count", PStr "4")]
           (PStr "10.0.0.1") (PStr "admin") (PStr "secret") (PStr "4")
           (mkResponse 200 [] (Some (PDict [("random", PStr "r4nd0m")])))
           (mkResponse 200 [("Set-Cookie", "QSESSIONID=abc")]
              (Some (PDict [("CSRFToken", PStr "tok")])))
           (mkResponse 200 [] (Some PNone))
           [duty_echo 200 55]
           [("random", PStr "r4nd0m")] [("CSRFToken", PStr "tok")]
           (PStr "r4nd0m") (PStr "tok") "QSESSIONID=abc" "abc"
           eq_refl eq_refl eq_refl eq_refl eq_refl eq_refl
           Hs eq_refl eq_refl Hs eq_refl eq_refl Hn eq_refl eq_refl Hs).
Defined.
